(** * animationai: frame-generation orchestration and GIF export

    A shallow embedding of
      - [src/services/imageService.ts]  (storyboard-driven orchestrator),
      - [src/unnamed/part_000]          (inline-prompt orchestrator),
      - [src/App.tsx]                   (playback period and GIF export),
    and the properties of the specification checked against it.

    Modelling conventions.
      - JavaScript strings are [string]: the UTF-8 bytes of the text;
        template literals are written as concatenations.
      - [frameCount] and [playbackSpeed] are integral JavaScript numbers,
        modelled as [Z]; [${n}] is the decimal rendering [string_of_Z n].
      - An [async] function is a computation [M A]: it takes the world
        (module variable [aiInstance], the process environment, the
        transcript of effects) and gives back either a resolved value or
        the thrown value, with the new world.
      - The remote generative service is a function of the transcript so
        far and of the request: nothing is assumed about what it answers. *)

From Stdlib Require Import ZArith List String Ascii Bool Lia DecimalString.
Import ListNotations.
Local Open Scope Z_scope.
Local Open Scope list_scope.
Local Open Scope string_scope.

(** ** JavaScript strings *)

Definition dq : string := String "034"%char EmptyString.
Definition byte_str (n : nat) : string := String (ascii_of_nat n) EmptyString.

(** [`${n}`] for an integral number [n]. *)
Definition string_of_Z (z : Z) : string := NilZero.string_of_int (Z.to_int z).

(** [`${n}`] for an array length. *)
Definition string_of_nat (n : nat) : string := string_of_Z (Z.of_nat n).

(** A string is truthy unless it is empty. *)
Definition truthy (s : string) : bool :=
  match s with EmptyString => false | String _ _ => true end.

(** [hay.includes(needle)] *)
Fixpoint includes (hay needle : string) : bool :=
  if String.prefix needle hay then true
  else match hay with
       | EmptyString => false
       | String _ hay' => includes hay' needle
       end.

(** [s.split(sep)] for a one-character separator: never the empty list. *)
Fixpoint split (sep : ascii) (s : string) : list string :=
  match s with
  | EmptyString => [EmptyString]
  | String c s' =>
      if Ascii.eqb c sep then EmptyString :: split sep s'
      else match split sep s' with
           | [] => [String c EmptyString]
           | piece :: rest => String c piece :: rest
           end
  end.

(** The dot of a regular expression matches no line terminator: line
    feed, carriage return, U+2028 and U+2029.  The first two are one byte
    each. *)
Definition is_line_terminator (c : ascii) : bool :=
  Ascii.eqb c "010"%char || Ascii.eqb c "013"%char.

(** U+2028 and U+2029 are the bytes E2 80 A8 and E2 80 A9; no other
    character has these three bytes in its encoding. *)
Definition line_terminator_at (s : string) : bool :=
  match s with
  | EmptyString => false
  | String c rest =>
      is_line_terminator c
      || (Ascii.eqb c "226"%char
          && match rest with
             | String c2 (String c3 _) =>
                 Ascii.eqb c2 "128"%char
                 && (Ascii.eqb c3 "168"%char || Ascii.eqb c3 "169"%char)
             | _ => false
             end)
  end.

(** [(.*?);] matched at the head of [s]: the text before the first [;]. *)
Fixpoint lazy_until_semicolon (s : string) : option string :=
  match s with
  | EmptyString => None
  | String c s' =>
      if Ascii.eqb c ";"%char then Some EmptyString
      else if line_terminator_at s then None
      else option_map (String c) (lazy_until_semicolon s')
  end.

(** [s.match(/:(.*?);/)?.[1]]: group 1 of the leftmost match. *)
Fixpoint match_colon_semicolon (s : string) : option string :=
  match s with
  | EmptyString => None
  | String c s' =>
      if Ascii.eqb c ":"%char then
        match lazy_until_semicolon s' with
        | Some g => Some g
        | None => match_colon_semicolon s'
        end
      else match_colon_semicolon s'
  end.

(** ** Thrown values and outcomes *)

(** What a [throw] carries: an [Error] with its message, or any other
    value ([error instanceof Error] tells them apart). *)
Inductive Thrown : Type :=
| JsError (message : string)
| JsNonError (shown : string).

Inductive Outcome (A : Type) : Type :=
| Resolved (a : A)
| Rejected (e : Thrown).
Arguments Resolved {A} a.
Arguments Rejected {A} e.

(** The message of the [TypeError] raised by a property access on
    [undefined] or [null].  The engine words it, and words it after the
    property that was read; the text is sealed here, so that nothing
    stated below depends on the wording. *)
Definition TypeError_message : string.
Proof. exact "Cannot read properties of undefined". Qed.

(** ** The remote service *)

Record InlineData : Type := { data : string; mimeType : string }.

(** A part of a request. *)
Inductive Part : Type :=
| PartInline (inlineData : InlineData)
| PartText (text : string).

Inductive Contents : Type :=
| ContentText (prompt : string)
| ContentParts (parts : list Part).

Inductive Config : Type :=
| NoConfig
| ImageOnly                                (* responseModalities: [IMAGE] *)
| StoryboardSchema (description : string). (* JSON with the storyboard schema *)

Record Request : Type :=
  { model : string; contents : Contents; config : Config }.

(** A part of a response. *)
Record ResponsePart : Type :=
  { part_inlineData : option InlineData; part_text : option string }.

(** What the code reads of a response: [response.text] and
    [response.candidates[0].content.parts] ([None] where the property path
    runs into [undefined]). *)
Record Response : Type :=
  { response_text : option string;
    candidate_parts : option (list ResponsePart) }.

Inductive RemoteOutcome : Type :=
| RemoteReject (e : Thrown)
| RemoteResponse (r : Response).

(** ** JSON values *)

(** A parsed JSON text.  Numbers are kept as integers: the code reads no
    number out of the planner's answer except to print it. *)
#[local] Set Warnings "-register-all".
Inductive Json : Type :=
| JNull
| JBool (b : bool)
| JNum (n : Z)
| JStr (s : string)
| JArr (items : list Json)
| JObj (fields : list (string * Json)).

(** ** The world *)

(** What [console.error] prints after its label. *)
Inductive Logged : Type :=
| LoggedThrown (e : Thrown)
| LoggedValue (v : option Json).

Inductive Event : Type :=
| EvGenerateContent (req : Request) (res : RemoteOutcome)
| EvProgress (message : string)
| EvConsoleError (label : string) (what : Logged).

Record GoogleGenAI : Type := { apiKey : string }.

Record World : Type :=
  { aiInstance : option GoogleGenAI;
    env_API_KEY : option string;
    log : list Event }.

Definition record (ev : Event) (w : World) : World :=
  {| aiInstance := aiInstance w;
     env_API_KEY := env_API_KEY w;
     log := (log w ++ [ev])%list |}.

(** ** The monad of asynchronous, throwing computations *)

Definition M (A : Type) : Type := World -> Outcome A * World.

Definition ret {A} (a : A) : M A := fun w => (Resolved a, w).
Definition throw {A} (e : Thrown) : M A := fun w => (Rejected e, w).
Definition bind {A B} (m : M A) (k : A -> M B) : M B :=
  fun w =>
    match m w with
    | (Resolved a, w') => k a w'
    | (Rejected e, w') => (Rejected e, w')
    end.
Definition try_catch {A} (body : M A) (handler : Thrown -> M A) : M A :=
  fun w =>
    match body w with
    | (Resolved a, w') => (Resolved a, w')
    | (Rejected e, w') => handler e w'
    end.
Definition lift {A} (o : Outcome A) : M A := fun w => (o, w).

Declare Scope js_scope.
Delimit Scope js_scope with js.
Notation "x <- m ;; k" := (bind m (fun x => k))
  (at level 100, m at next level, right associativity) : js_scope.
Notation "m ;;; k" := (bind m (fun _ => k))
  (at level 100, right associativity) : js_scope.
Local Open Scope js_scope.

Definition console_error (label : string) (what : Logged) : M unit :=
  fun w => (Resolved tt, record (EvConsoleError label what) w).

(** [onProgress?.(message)]: the callback, when given, is the UI's
    [setProgress]; its call is kept in the transcript. *)
Definition report (onProgress : bool) (message : string) : M unit :=
  fun w => if onProgress then (Resolved tt, record (EvProgress message) w)
           else (Resolved tt, w).

(** ** [for] loops *)

(** [n] rounds of [body], the counter starting at [i] and stepping by 1. *)
Fixpoint rounds {S : Type} (n : nat) (i : Z) (body : Z -> S -> M S) (st : S)
  : M S :=
  match n with
  | O => ret st
  | Datatypes.S n' => st' <- body i st ;; rounds n' (i + 1) body st'
  end.

(** [for (let i = lo; i < hi; i++) body] *)
Definition for_lt {S : Type} (lo hi : Z) (body : Z -> S -> M S) (st : S) : M S :=
  rounds (Z.to_nat (hi - lo)) lo body st.

(** [for (let i = lo; i <= hi; i++) body] *)
Definition for_le {S : Type} (lo hi : Z) (body : Z -> S -> M S) (st : S) : M S :=
  rounds (Z.to_nat (hi + 1 - lo)) lo body st.

Section Service.

(** The remote service: its answer to a request, given the transcript so
    far. *)
Variable remote : list Event -> Request -> RemoteOutcome.

(** [getAI] of both service files. *)
Definition getAI : M GoogleGenAI :=
  fun w =>
    match aiInstance w with
    | Some ai => (Resolved ai, w)
    | None =>
        match env_API_KEY w with
        | Some key =>
            if truthy key then
              let ai := {| apiKey := key |} in
              (Resolved ai,
               {| aiInstance := Some ai;
                  env_API_KEY := env_API_KEY w;
                  log := log w |})
            else
              (Rejected (JsError "API key is not configured. Please set the API_KEY environment variable."), w)
        | None =>
            (Rejected (JsError "API key is not configured. Please set the API_KEY environment variable."), w)
        end
    end.

(** [ai.models.generateContent(req)] *)
Definition generateContent (ai : GoogleGenAI) (req : Request) : M Response :=
  fun w =>
    let res := remote (log w) req in
    let w' := record (EvGenerateContent req res) w in
    match res with
    | RemoteReject e => (Rejected e, w')
    | RemoteResponse r => (Resolved r, w')
    end.

(** [base64ToPart] *)
Definition base64ToPart (base64Data : string) : Outcome InlineData :=
  let pieces := split ","%char base64Data in
  match nth_error pieces 0, nth_error pieces 1 with
  | Some header, Some data =>
      if negb (truthy header) || negb (truthy data) then
        Rejected (JsError "Invalid base64 data URL format.")
      else
        let mimeType :=
          match match_colon_semicolon header with
          | Some g => if truthy g then g else "image/png"
          | None => "image/png"
          end in
        Resolved {| data := data; mimeType := mimeType |}
  | _, _ => Rejected (JsError "Invalid base64 data URL format.")
  end.

(** The loop over the parts of the response in [generateFrame]. *)
Fixpoint first_inline (parts : list ResponsePart) : option InlineData :=
  match parts with
  | [] => None
  | part :: rest =>
      match part_inlineData part with
      | Some d => Some d
      | None => first_inline rest
      end
  end.

(** [generateFrame] of both service files. *)
Definition generateFrame (ai : GoogleGenAI) (prompt : string)
           (referenceFrameB64 : option string) : M string :=
  parts <- match referenceFrameB64 with
           | Some ref =>
               if truthy ref then
                 p <- lift (base64ToPart ref) ;; ret [PartInline p]
               else ret []
           | None => ret []
           end ;;
  let parts := (parts ++ [PartText prompt])%list in
  response <- generateContent ai
                {| model := "gemini-2.5-flash-image";
                   contents := ContentParts parts;
                   config := ImageOnly |} ;;
  match candidate_parts response with
  | None => throw (JsError TypeError_message)
  | Some ps =>
      match first_inline ps with
      | Some d => ret ("data:image/png;base64," ++ data d)
      | None =>
          throw (JsError ("Image generation failed for prompt: " ++ dq ++ prompt ++ dq))
      end
  end.

End Service.

(** ** JavaScript readings of a JSON value *)

Fixpoint lookup (key : string) (fields : list (string * Json)) : option Json :=
  match fields with
  | [] => None
  | (k, v) :: rest => if String.eqb k key then Some v else lookup key rest
  end.

(** [v.key] for a key that no array, string, number or boolean has:
    [None] is [undefined]; [null.key] throws. *)
Definition get_property (v : Json) (key : string) : Outcome (option Json) :=
  match v with
  | JNull => Rejected (JsError TypeError_message)
  | JObj fields => Resolved (lookup key fields)
  | _ => Resolved None
  end.

(** [v.length]; reading it of [undefined] or [null] throws. *)
Definition get_length (v : option Json) : Outcome (option Json) :=
  match v with
  | None | Some JNull => Rejected (JsError TypeError_message)
  | Some (JArr items) => Resolved (Some (JNum (Z.of_nat (List.length items))))
  | Some (JStr s) => Resolved (Some (JNum (Z.of_nat (String.length s))))
  | Some (JObj fields) => Resolved (lookup "length" fields)
  | Some _ => Resolved None
  end.

Definition js_truthy (v : option Json) : bool :=
  match v with
  | None | Some JNull => false
  | Some (JBool b) => b
  | Some (JNum n) => negb (n =? 0)%Z
  | Some (JStr s) => truthy s
  | Some (JArr _) | Some (JObj _) => true
  end.

(** [`${v}`] *)
Fixpoint js_to_string (v : Json) : string :=
  match v with
  | JNull => "null"
  | JBool true => "true"
  | JBool false => "false"
  | JNum n => string_of_Z n
  | JStr s => s
  | JArr items =>
      (fix join (l : list Json) : string :=
         match l with
         | [] => ""
         | x :: rest =>
             let shown := match x with JNull => "" | _ => js_to_string x end in
             match rest with
             | [] => shown
             | _ :: _ => shown ++ "," ++ join rest
             end
         end) items
  | JObj _ => "[object Object]"
  end.

(** [`${v || 'none'}`] *)
Definition or_none (v : option Json) : string :=
  match v with
  | Some j => if js_truthy v then js_to_string j else "none"
  | None => "none"
  end.

Definition isArray (v : option Json) : bool :=
  match v with Some (JArr _) => true | _ => false end.

(** The elements of a value that [isArray] accepts. *)
Definition items_of (v : option Json) : list Json :=
  match v with Some (JArr items) => items | _ => [] end.

(** The variables that the loop of [generateAnimationFrames] updates, in
    both service files. *)
Record LoopState : Type :=
  { allFrames : list string; previousFrame : option string }.

(** * The storyboard-driven service: [src/services/imageService.ts] *)

Module Storyboard.
Section Run.

Variable remote : list Event -> Request -> RemoteOutcome.
(** [JSON.parse]: the parsed value, or the message of its [SyntaxError]. *)
Variable JSON_parse : string -> string + Json.
(** [String.prototype.trim] *)
Variable trim : string -> string.

Definition storyboard_contents (motionPrompt : string) (frameCount : Z) : string :=
  "You are an expert animator, physicist, and kinesiologist. Your task is to perform a deep analysis of a motion concept and break it down into a series of distinct keyframes for a " ++ string_of_Z frameCount ++ "-frame animation. You will generate a detailed, frame-by-frame script. For each frame, you must provide both technical notes analyzing the motion and a descriptive prompt for an AI image generator.

**DEEP ANALYSIS RULES:**
1.  **Establish a 3D Scene:** Imagine the scene in three dimensions. Define the subject's initial position and the camera's viewpoint.
2.  **Deconstruct the Motion:**
    *   **Primary Motion:** Identify the main arc of movement (e.g., the path of a sword swing).
    *   **Secondary Motion:** Analyze overlapping actions and follow-through (e.g., the rotation of the torso, the shift in body weight).
    *   **Physics & Kinesiology:** Consider gravity, momentum, inertia, and realistic body mechanics. How does the body shift to maintain balance? What muscles are engaged?
3.  **Frame-by-Frame Breakdown:** For each frame, provide:
    *   **Technical Notes:** A bullet-point list of the precise changes from the *previous* frame. Use quantitative data: angles in degrees, positions on an imaginary X/Y/Z grid, and percentages of completion for the overall motion. Describe the physics at play. This is your private " ++ dq ++ "animator's notes" ++ dq ++ ".
    *   **Frame Description:** A vivid, descriptive prompt for the AI image generator. This description should be the culmination of your technical analysis, translated into artistic language. It must clearly state the subject's pose and the state of the action.

**OUTPUT FORMAT:**
You must provide a JSON object with a single key " ++ dq ++ "storyboard" ++ dq ++ ". The value of " ++ dq ++ "storyboard" ++ dq ++ " must be an array of objects, with each object representing one frame. The array must contain exactly " ++ string_of_Z frameCount ++ " elements. Each object must have two keys: 'technical_notes' and 'frame_description'.

**Motion Concept:** " ++ dq ++ motionPrompt ++ dq.

(** The argument of [generateContent] in [generateStoryboard]. *)
Definition storyboard_request (motionPrompt : string) (frameCount : Z) : Request :=
  {| model := "gemini-2.5-pro";
     contents := ContentText (storyboard_contents motionPrompt frameCount);
     config := StoryboardSchema
                 ("An array of exactly " ++ string_of_Z frameCount
                  ++ " objects, where each object represents one frame.") |}.

(** The callback of [storyboardFrames.map]: it throws at the first entry
    whose description is not a non-empty string. *)
Fixpoint frameDescriptions (storyboardFrames : list Json) : Outcome (list string) :=
  match storyboardFrames with
  | [] => Resolved []
  | frame :: rest =>
      match get_property frame "frame_description" with
      | Rejected e => Rejected e
      | Resolved (Some (JStr description)) =>
          if truthy description then
            match frameDescriptions rest with
            | Resolved descriptions => Resolved (description :: descriptions)
            | Rejected e => Rejected e
            end
          else Rejected (JsError "Storyboard generation failed: A frame description was missing or not a string.")
      | Resolved _ =>
          Rejected (JsError "Storyboard generation failed: A frame description was missing or not a string.")
      end
  end.

Definition generateStoryboard (ai : GoogleGenAI) (motionPrompt : string)
           (frameCount : Z) : M (list string) :=
  try_catch
    (response <- generateContent remote ai (storyboard_request motionPrompt frameCount) ;;
     responseText <- match response_text response with
                     | Some text => ret (trim text)
                     | None => throw (JsError TypeError_message)
                     end ;;
     parsedJson <- match JSON_parse responseText with
                   | inr v => ret v
                   | inl message => throw (JsError message)
                   end ;;
     storyboardFrames <- lift (get_property parsedJson "storyboard") ;;
     if negb (isArray storyboardFrames)
        || negb (Z.of_nat (List.length (items_of storyboardFrames)) =? frameCount)%Z
     then
       console_error "AI storyboard response:" (LoggedValue storyboardFrames) ;;;
       len <- lift (get_length storyboardFrames) ;;
       throw (JsError ("Storyboard generation failed: AI returned an invalid format or wrong number of frames. Expected "
                       ++ string_of_Z frameCount ++ ", got " ++ or_none len ++ "."))
     else
       lift (frameDescriptions (items_of storyboardFrames)))
    (fun error =>
       console_error "Storyboard Generation Error:" (LoggedThrown error) ;;;
       match error with
       | JsError message =>
           if includes message "JSON.parse" then
             throw (JsError "Failed to generate animation storyboard. The planning AI returned an invalid JSON format.")
           else
             throw (JsError "Failed to generate animation storyboard. The planning AI may be experiencing issues.")
       | JsNonError _ =>
           throw (JsError "Failed to generate animation storyboard. The planning AI may be experiencing issues.")
       end).

Definition styleInstruction : string :=
  "Style: A raw, sketchy anime keyframe (genga). Emphasize dynamic, messy pencil lines and visible construction lines, capturing an energetic, in-progress feel. Plain white background.".

(** [storyboard[i]] inside a template literal. *)
Definition storyboard_at (storyboard : list string) (i : Z) : string :=
  match nth_error storyboard (Z.to_nat i) with
  | Some s => s
  | None => "undefined"
  end.

Definition currentFramePrompt (storyboard : list string) (frameCount i : Z) : string :=
  let frameIndex := i + 1 in
  let storyboardPrompt := storyboard_at storyboard i in
  if (i =? 0)%Z then
    styleInstruction ++ " This is the **first frame** of a " ++ string_of_Z frameCount ++ "-frame animation. The detailed instruction for this frame is: " ++ dq ++ storyboardPrompt ++ dq ++ "."
  else
    styleInstruction ++ " This is frame " ++ string_of_Z frameIndex ++ " of a " ++ string_of_Z frameCount ++ "-frame animation. Using the provided image as the immediate previous frame, generate the very next logical step in the action. The precise instruction for this frame is: " ++ dq ++ storyboardPrompt ++ dq ++ ". Ensure the transition is smooth and physically plausible.".

(** The body of the [for] loop. *)
Definition loop_body (ai : GoogleGenAI) (storyboard : list string)
           (frameCount : Z) (onProgress : bool) (i : Z) (st : LoopState)
  : M LoopState :=
  let frameIndex := i + 1 in
  report onProgress ("Generating frame " ++ string_of_Z frameIndex ++ " of "
                     ++ string_of_Z frameCount ++ "...") ;;;
  nextFrame <- generateFrame remote ai
                 (currentFramePrompt storyboard frameCount i) (previousFrame st) ;;
  ret {| allFrames := (allFrames st ++ [nextFrame])%list;
         previousFrame := Some nextFrame |}.

Definition generateAnimationFrames (motionPrompt : string) (frameCount : Z)
           (onProgress : bool) : M (list string) :=
  ai <- getAI ;;
  if (frameCount <? 1)%Z then ret []
  else
    try_catch
      (report onProgress "Analyzing motion and creating storyboard..." ;;;
       storyboard <- generateStoryboard ai motionPrompt frameCount ;;
       report onProgress "Storyboard created. Starting frame generation..." ;;;
       st <- for_lt 0 frameCount
               (loop_body ai storyboard frameCount onProgress)
               {| allFrames := []; previousFrame := None |} ;;
       report onProgress "Generation complete!" ;;;
       ret (allFrames st))
      (fun error =>
         console_error "Animation Generation Error:" (LoggedThrown error) ;;;
         match error with
         | JsError message =>
             throw (JsError ("Failed to generate animation: " ++ message))
         | JsNonError _ =>
             throw (JsError "An unknown error occurred while generating the animation.")
         end).

End Run.
End Storyboard.

(** * The inline-prompt service: [src/unnamed/part_000] *)

Module Inline.
Section Run.

Variable remote : list Event -> Request -> RemoteOutcome.

Definition styleInstruction : string :=
  "Style: A raw, sketchy anime keyframe (genga). Emphasize dynamic, messy pencil lines and visible construction lines, capturing an energetic, in-progress feel. Plain white background.".

Definition currentFramePrompt (motionPrompt : string) (frameCount i : Z) : string :=
  if (i =? 1)%Z then
    styleInstruction ++ " This is the **first frame** of a " ++ string_of_Z frameCount ++ "-frame animation. Depict the **absolute beginning** of the motion: " ++ dq ++ motionPrompt ++ dq ++ ". The scene should be static, right before the main action starts."
  else if (i =? frameCount)%Z && (1 <? frameCount)%Z then
    styleInstruction ++ " This is the **final frame** of a " ++ string_of_Z frameCount ++ "-frame animation of " ++ dq ++ motionPrompt ++ dq ++ ". Using the provided image as the immediate previous frame, create the **absolute conclusion** of the motion. The action should be fully completed and settled."
  else
    styleInstruction ++ " This is frame " ++ string_of_Z i ++ " of a " ++ string_of_Z frameCount ++ "-frame animation of " ++ dq ++ motionPrompt ++ dq ++ ".

**CRITICAL INSTRUCTION FOR AN EXPERT ANIMATOR:** Your task is to generate the very next logical step in the action, using the provided image as the immediate previous frame. The movement MUST be clear, purposeful, and dynamic" ++ byte_str 195 ++ byte_str 162 ++ byte_str 226 ++ byte_str 130 ++ byte_str 172 ++ byte_str 226 ++ byte_str 128 ++ byte_str 157 ++ "avoiding any static or idle appearance.

1.  **Analyze Motion Arc:** Deconstruct the core action: " ++ dq ++ motionPrompt ++ dq ++ ". Consider the physics, momentum, and the primary arc of movement.
2.  **Calculate Next Pose:** For this specific frame, advance the subject's pose significantly. Think in terms of angles, trigonometry, and kinetics. For instance, if a character is " ++ dq ++ "drawing a sword," ++ dq ++ " calculate the new angle of the elbow, the rotation of the shoulder, and the precise new position of the hand and blade.
3.  **Generate with Precision:** Create a frame that flawlessly illustrates this calculated next step. The progression from the previous frame must be obvious, smooth, and contribute meaningfully to the overall animation's energy and flow.".

(** The body of the [for] loop. *)
Definition loop_body (ai : GoogleGenAI) (motionPrompt : string)
           (frameCount : Z) (onProgress : bool) (i : Z) (st : LoopState)
  : M LoopState :=
  report onProgress ("Generating frame " ++ string_of_Z i ++ " of "
                     ++ string_of_Z frameCount ++ "...") ;;;
  nextFrame <- generateFrame remote ai
                 (currentFramePrompt motionPrompt frameCount i) (previousFrame st) ;;
  ret {| allFrames := (allFrames st ++ [nextFrame])%list;
         previousFrame := Some nextFrame |}.

Definition generateAnimationFrames (motionPrompt : string) (frameCount : Z)
           (onProgress : bool) : M (list string) :=
  ai <- getAI ;;
  if (frameCount <? 1)%Z then ret []
  else
    try_catch
      (st <- for_le 1 frameCount
               (loop_body ai motionPrompt frameCount onProgress)
               {| allFrames := []; previousFrame := None |} ;;
       report onProgress "Generation complete!" ;;;
       ret (allFrames st))
      (fun error =>
         console_error "Animation Generation Error:" (LoggedThrown error) ;;;
         match error with
         | JsError message =>
             throw (JsError ("Failed to generate animation: " ++ message))
         | JsNonError _ =>
             throw (JsError "An unknown error occurred while generating the animation.")
         end).

End Run.
End Inline.

(** * Playback and export: [src/App.tsx] *)

Module App.

(** An [HTMLImageElement] that has loaded. *)
Record Image : Type := { src : string; crossOrigin : string }.

(** A call of [gif.addFrame(img, { delay })]. *)
Record AddFrame : Type := { frame_image : Image; delay : Z }.

(** What the export does to the outside. *)
Inductive Effect : Type :=
| EfNewGIF (workerScript : string)
| EfAddFrame (call : AddFrame)
| EfOnFinished
| EfRender
| EfDownload (fileName : string).

(** The component state that [handleDownload] reads and writes. *)
Record State : Type :=
  { frames : option (list string);
    playbackSpeed : Z;
    gifWorkerUrl : option string;
    isCreatingGif : bool;
    error : option string;
    effects : list Effect }.

Definition setError (e : option string) (st : State) : State :=
  {| frames := frames st; playbackSpeed := playbackSpeed st;
     gifWorkerUrl := gifWorkerUrl st; isCreatingGif := isCreatingGif st;
     error := e; effects := effects st |}.

Definition setIsCreatingGif (b : bool) (st : State) : State :=
  {| frames := frames st; playbackSpeed := playbackSpeed st;
     gifWorkerUrl := gifWorkerUrl st; isCreatingGif := b;
     error := error st; effects := effects st |}.

Definition perform (ef : list Effect) (st : State) : State :=
  {| frames := frames st; playbackSpeed := playbackSpeed st;
     gifWorkerUrl := gifWorkerUrl st; isCreatingGif := isCreatingGif st;
     error := error st; effects := (effects st ++ ef)%list |}.

(** [AnimationPlayer]: the period of the playback timer. *)
Definition intervalDuration (speed : Z) : Z := 1100 - speed.

(** The timer that the effect of [AnimationPlayer] sets: none for fewer
    than two frames, else one of that period. *)
Definition playbackTimer (frames : list string) (speed : Z) : option Z :=
  if Nat.ltb (List.length frames) 2 then None
  else Some (intervalDuration speed).

Section Exporting.

(** Whether the browser loads the image of a frame ([onload]) or not
    ([onerror]). *)
Variable loads : string -> bool.
(** Whether the encoder, once rendering, emits [finished]. *)
Variable finishes : list AddFrame -> bool.

(** One promise of [imageLoadPromises]. *)
Definition loadImage (frameSrc : string) : Outcome Image :=
  if loads frameSrc then Resolved {| src := frameSrc; crossOrigin := "Anonymous" |}
  else Rejected (JsError "Failed to load an image frame.").

(** [Promise.all(frames.map(...))]: every image in order, or the rejection
    of one that failed. *)
Fixpoint loadedImages (frames : list string) : Outcome (list Image) :=
  match frames with
  | [] => Resolved []
  | frameSrc :: rest =>
      match loadImage frameSrc, loadedImages rest with
      | Resolved img, Resolved imgs => Resolved (img :: imgs)
      | Rejected e, _ => Rejected e
      | _, Rejected e => Rejected e
      end
  end.

(** The [finished] handler of the encoder. *)
Definition onFinished (st : State) : State :=
  setIsCreatingGif false (perform [EfDownload "animation.gif"] st).

(** [!frames || frames.length === 0] *)
Definition no_frames (st : State) : bool :=
  match frames st with
  | None => true
  | Some fs => Nat.eqb (List.length fs) 0
  end.

(** The truthiness of [gifWorkerUrl.current]. *)
Definition worker_ready (st : State) : bool :=
  match gifWorkerUrl st with
  | Some url => truthy url
  | None => false
  end.

Definition handleDownload (st : State) : State :=
  if no_frames st || negb (worker_ready st) then
    setError (Some (if worker_ready st then "No frames to create a GIF from."
                    else "GIF downloader is not ready.")) st
  else
    let fs := match frames st with Some fs => fs | None => [] end in
    let workerUrl := match gifWorkerUrl st with Some url => url | None => "" end in
    let st := setIsCreatingGif true st in
    let st := setError None st in
    let st := perform [EfNewGIF workerUrl] st in
    match loadedImages fs with
    | Resolved imgs =>
        let calls := map (fun img => {| frame_image := img;
                                        delay := 1100 - playbackSpeed st |}) imgs in
        let st := perform (map EfAddFrame calls) st in
        let st := perform [EfOnFinished] st in
        let st := perform [EfRender] st in
        if finishes calls then onFinished st else st
    | Rejected (JsError message) =>
        setIsCreatingGif false
          (setError (Some ("Failed to create GIF: " ++ message)) st)
    | Rejected (JsNonError _) =>
        setIsCreatingGif false
          (setError (Some "An unknown error occurred during GIF creation.") st)
    end.

(** The frames the encoder was given, in the order it was given them. *)
Fixpoint encoder_frames (efs : list Effect) : list AddFrame :=
  match efs with
  | [] => []
  | EfAddFrame call :: rest => call :: encoder_frames rest
  | _ :: rest => encoder_frames rest
  end.

Definition is_download (ef : Effect) : bool :=
  match ef with EfDownload _ => true | _ => false end.

Definition is_render (ef : Effect) : bool :=
  match ef with EfRender => true | _ => false end.

End Exporting.
End App.

(** * The prompt refiner: [enhancePrompt] of both service files *)

Section Refiner.

Variable remote : list Event -> Request -> RemoteOutcome.
(** [String.prototype.trim] *)
Variable trim : string -> string.

Definition enhance_contents (prompt : string) : string :=
  "You are a creative director specializing in animation. A user has provided a basic animation concept. Your task is to elevate it into a richer, more descriptive prompt that an AI image generator can use to create a compelling scene.

            **RULES:**
            1.  **Do Not Animate:** Do not describe the sequence of frames. Describe only the initial, static scene and the core action.
            2.  **Be Visually Specific:** Add details about the subject's appearance, the environment, lighting, and overall mood.
            3.  **Keep it Concise:** The output should be a single, dense paragraph.
            4.  **Focus on " ++ dq ++ "What," ++ dq ++ " not " ++ dq ++ "How" ++ dq ++ ":** Describe the scene, not the animation steps. The storyboard AI will handle the breakdown.

            **User's Concept:** " ++ dq ++ prompt ++ dq ++ "

            **Enhanced Prompt:**".

(** The argument of [generateContent] in [enhancePrompt]. *)
Definition enhance_request (prompt : string) : Request :=
  {| model := "gemini-2.5-pro";
     contents := ContentText (enhance_contents prompt);
     config := NoConfig |}.

Definition enhancePrompt (prompt : string) : M string :=
  ai <- getAI ;;
  try_catch
    (response <- generateContent remote ai (enhance_request prompt) ;;
     match response_text response with
     | Some text => ret (trim text)
     | None => throw (JsError TypeError_message)
     end)
    (fun error =>
       console_error "Prompt Enhancement Error:" (LoggedThrown error) ;;;
       throw (JsError "Failed to enhance prompt. The AI may be experiencing issues.")).

End Refiner.

(** * The component: [App] and [AnimationPlayer] of [src/App.tsx] *)

Module AppUI.

(** The state of [App] that the form handlers read and write. *)
Record State : Type :=
  { prompt : string;
    frameCount : Z;
    frames : option (list string);
    isLoading : bool;
    isEnhancing : bool;
    error : option string;
    progress : option string }.

Definition setPrompt (v : string) (st : State) : State :=
  {| prompt := v; frameCount := frameCount st; frames := frames st;
     isLoading := isLoading st; isEnhancing := isEnhancing st;
     error := error st; progress := progress st |}.

Definition setFrames (v : option (list string)) (st : State) : State :=
  {| prompt := prompt st; frameCount := frameCount st; frames := v;
     isLoading := isLoading st; isEnhancing := isEnhancing st;
     error := error st; progress := progress st |}.

Definition setIsLoading (v : bool) (st : State) : State :=
  {| prompt := prompt st; frameCount := frameCount st; frames := frames st;
     isLoading := v; isEnhancing := isEnhancing st;
     error := error st; progress := progress st |}.

Definition setIsEnhancing (v : bool) (st : State) : State :=
  {| prompt := prompt st; frameCount := frameCount st; frames := frames st;
     isLoading := isLoading st; isEnhancing := v;
     error := error st; progress := progress st |}.

Definition setError (v : option string) (st : State) : State :=
  {| prompt := prompt st; frameCount := frameCount st; frames := frames st;
     isLoading := isLoading st; isEnhancing := isEnhancing st;
     error := v; progress := progress st |}.

Definition setProgress (v : option string) (st : State) : State :=
  {| prompt := prompt st; frameCount := frameCount st; frames := frames st;
     isLoading := isLoading st; isEnhancing := isEnhancing st;
     error := error st; progress := v |}.

(** The updater of the playback timer:
    [prevFrame => (prevFrame + 1) % frames.length].  The timer exists only
    for two frames or more. *)
Definition nextFrame (frames : list string) (prevFrame : nat) : nat :=
  Nat.modulo (prevFrame + 1) (List.length frames).

(** What [AnimationPlayer] renders: nothing for an empty sequence, else the
    image whose source is [frames[currentFrame]]. *)
Definition rendered (frames : list string) (currentFrame : nat)
  : option (option string) :=
  match frames with
  | [] => None
  | _ :: _ => Some (nth_error frames currentFrame)
  end.

Section Handlers.

Variable remote : list Event -> Request -> RemoteOutcome.
Variable JSON_parse : string -> string + Json.
Variable trim : string -> string.

Definition handleEnhancePrompt (st : State) (w : World) : State * World :=
  if negb (truthy (trim (prompt st))) then
    (setError (Some "Please enter a prompt to enhance.") st, w)
  else
    let st := setIsEnhancing true st in
    let st := setError None st in
    match enhancePrompt remote trim (prompt st) w with
    | (Resolved enhanced, w') =>
        (setIsEnhancing false (setPrompt enhanced st), w')
    | (Rejected (JsError message), w') =>
        (setIsEnhancing false (setError (Some message) st), w')
    | (Rejected (JsNonError _), w') =>
        (setIsEnhancing false
           (setError (Some "An unknown error occurred while enhancing the prompt.") st), w')
    end.

(** The progress callback is [setProgress]: its calls are the progress
    events of the transcript; [finally] clears what it left. *)
Definition handleGenerateAnimation (st : State) (w : World) : State * World :=
  if negb (truthy (trim (prompt st))) then
    (setError (Some "Please enter a prompt describing a motion.") st, w)
  else
    let st := setIsLoading true st in
    let st := setError None st in
    let st := setFrames None st in
    let st := setProgress (Some "Initializing...") st in
    match Storyboard.generateAnimationFrames remote JSON_parse trim
            (prompt st) (frameCount st) true w with
    | (Resolved urls, w') =>
        (setProgress None (setIsLoading false (setFrames (Some urls) st)), w')
    | (Rejected (JsError message), w') =>
        (setProgress None (setIsLoading false (setError (Some message) st)), w')
    | (Rejected (JsNonError _), w') =>
        (setProgress None
           (setIsLoading false (setError (Some "An unknown error occurred.") st)), w')
    end.

End Handlers.
End AppUI.

(** * Observations on runs *)

(** The two orchestrators of the repository. *)
Inductive Variant : Type := StoryboardDriven | InlinePrompt.

Definition generateAnimationFrames_of (v : Variant)
           (remote : list Event -> Request -> RemoteOutcome)
           (JSON_parse : string -> string + Json) (trim : string -> string)
  : string -> Z -> bool -> M (list string) :=
  match v with
  | StoryboardDriven => Storyboard.generateAnimationFrames remote JSON_parse trim
  | InlinePrompt => Inline.generateAnimationFrames remote
  end.

(** A frame-generation call: the parts it sent and what came back. *)
Record ImageCall : Type :=
  { call_parts : list Part; call_outcome : RemoteOutcome }.

Definition request_parts (req : Request) : list Part :=
  match contents req with
  | ContentParts ps => ps
  | ContentText _ => []
  end.

(** The frame-generation calls of a transcript, oldest first. *)
Fixpoint image_calls (evs : list Event) : list ImageCall :=
  match evs with
  | [] => []
  | EvGenerateContent req res :: rest =>
      if String.eqb (model req) "gemini-2.5-flash-image" then
        {| call_parts := request_parts req; call_outcome := res |} :: image_calls rest
      else image_calls rest
  | _ :: rest => image_calls rest
  end.

(** Every remote call of a transcript. *)
Fixpoint remote_calls (evs : list Event) : list Request :=
  match evs with
  | [] => []
  | EvGenerateContent req _ :: rest => req :: remote_calls rest
  | _ :: rest => remote_calls rest
  end.

(** The reference images attached to a request. *)
Fixpoint references (ps : list Part) : list InlineData :=
  match ps with
  | [] => []
  | PartInline d :: rest => d :: references rest
  | PartText _ :: rest => references rest
  end.

(** The prompt texts of a request. *)
Fixpoint texts (ps : list Part) : list string :=
  match ps with
  | [] => []
  | PartText t :: rest => t :: texts rest
  | PartInline _ :: rest => texts rest
  end.

(** The frame that [generateFrame] makes of an answer. *)
Definition produced (res : RemoteOutcome) : option string :=
  match res with
  | RemoteResponse r =>
      match candidate_parts r with
      | Some ps =>
          match first_inline ps with
          | Some d => Some ("data:image/png;base64," ++ data d)
          | None => None
          end
      | None => None
      end
  | RemoteReject _ => None
  end.

(** [calls] is a chain from [prev]: each call carries the prompt of its
    index and, as its only reference, the frame made by the call before
    it; [frames] are the frames made, in order. *)
Fixpoint chained (promptOf : Z -> string) (i : Z) (prev : option string)
         (calls : list ImageCall) (frames : list string) : Prop :=
  match calls, frames with
  | [], [] => True
  | c :: calls', f :: frames' =>
      texts (call_parts c) = [promptOf i]
      /\ match prev with
         | None => references (call_parts c) = []
         | Some p =>
             exists part, base64ToPart p = Resolved part
                          /\ references (call_parts c) = [part]
         end
      /\ produced (call_outcome c) = Some f
      /\ chained promptOf (i + 1) (Some f) calls' frames'
  | _, _ => False
  end.

(** The client can be resolved: it exists already, or the credential is
    set. *)
Definition client_available (w : World) : bool :=
  match aiInstance w with
  | Some _ => true
  | None => match env_API_KEY w with
            | Some key => truthy key
            | None => false
            end
  end.

(** A storyboard entry whose description [frameDescriptions] refuses:
    missing, not a string, or empty. *)
Definition bad_description (frame : Json) : bool :=
  match get_property frame "frame_description" with
  | Resolved (Some (JStr description)) => negb (truthy description)
  | _ => true
  end.

(** The transcript at the moment the planner is called. *)
Definition planning_log (w : World) (onProgress : bool) : list Event :=
  (log w ++ (if onProgress
             then [EvProgress "Analyzing motion and creating storyboard..."]
             else []))%list.

(** The storyboard that [generateStoryboard] reads out of a planner's
    answer, when it accepts it. *)
Definition planned (JSON_parse : string -> string + Json) (trim : string -> string)
           (res : RemoteOutcome) : option (list string) :=
  match res with
  | RemoteResponse r =>
      match response_text r with
      | Some text =>
          match JSON_parse (trim text) with
          | inr parsedJson =>
              match get_property parsedJson "storyboard" with
              | Resolved (Some (JArr items)) =>
                  match Storyboard.frameDescriptions items with
                  | Resolved descriptions => Some descriptions
                  | Rejected _ => None
                  end
              | _ => None
              end
          | inl _ => None
          end
      | None => None
      end
  | RemoteReject _ => None
  end.

(** The prompt tells the model to conclude the motion, fully settled. *)
Definition instructs_conclusion (prompt : string) : bool :=
  includes prompt "create the **absolute conclusion** of the motion"
  && includes prompt "fully completed and settled".

(** * Scenarios *)

Module Scenario.

Definition entry (notes description : string) : Json :=
  JObj [("technical_notes", JStr notes); ("frame_description", JStr description)].

Definition entry_text (notes description : string) : string :=
  "{" ++ dq ++ "technical_notes" ++ dq ++ ":" ++ dq ++ notes ++ dq ++ ","
  ++ dq ++ "frame_description" ++ dq ++ ":" ++ dq ++ description ++ dq ++ "}".

(** A storyboard of two well-formed entries, and its JSON text. *)
Definition two_entries : Json :=
  JObj [("storyboard", JArr [entry "n1" "ball at the top"; entry "n2" "ball on the ground"])].

Definition two_entries_text : string :=
  "{" ++ dq ++ "storyboard" ++ dq ++ ":[" ++ entry_text "n1" "ball at the top" ++ ","
  ++ entry_text "n2" "ball on the ground" ++ "]}".

(** A storyboard whose second entry has an empty description. *)
Definition empty_description : Json :=
  JObj [("storyboard", JArr [entry "n1" "ball at the top"; entry "n2" ""])].

Definition empty_description_text : string :=
  "{" ++ dq ++ "storyboard" ++ dq ++ ":[" ++ entry_text "n1" "ball at the top" ++ ","
  ++ entry_text "n2" "" ++ "]}".

(** [JSON.parse] on the texts above. *)
Definition parse (text : string) : string + Json :=
  if String.eqb text two_entries_text then inr two_entries
  else if String.eqb text empty_description_text then inr empty_description
  else inl "Unexpected end of JSON input".

(** [trim] on texts without surrounding white space. *)
Definition trim (text : string) : string := text.

(** A service whose planner answers [planner_text] and whose image model
    answers a caption and one image, numbered by the calls made so far. *)
Definition service (planner_text : string) (evs : list Event) (req : Request)
  : RemoteOutcome :=
  if String.eqb (model req) "gemini-2.5-pro" then
    RemoteResponse {| response_text := Some planner_text; candidate_parts := None |}
  else
    RemoteResponse
      {| response_text := None;
         candidate_parts :=
           Some [ {| part_inlineData := None; part_text := Some "here it is" |};
                  {| part_inlineData :=
                       Some {| data := "iVBORw0KGgo" ++ string_of_nat (List.length (image_calls evs));
                               mimeType := "image/jpeg" |};
                     part_text := None |} ] |}.

(** A service whose image model answers text only. *)
Definition text_only_service (evs : list Event) (req : Request) : RemoteOutcome :=
  RemoteResponse
    {| response_text := Some "sorry";
       candidate_parts := Some [ {| part_inlineData := None; part_text := Some "sorry" |} ] |}.

(** A process with the credential set, and one without. *)
Definition configured : World :=
  {| aiInstance := None; env_API_KEY := Some "secret"; log := [] |}.

Definition unconfigured : World :=
  {| aiInstance := None; env_API_KEY := None; log := [] |}.

Definition client : GoogleGenAI := {| apiKey := "secret" |}.

(** The browser loads every frame but the one named ["broken"]. *)
Definition loads (frameSrc : string) : bool := negb (String.eqb frameSrc "broken").

Definition finishes (calls : list App.AddFrame) : bool := true.

Definition ready (fs : list string) : App.State :=
  {| App.frames := Some fs; App.playbackSpeed := 500;
     App.gifWorkerUrl := Some "blob:worker"; App.isCreatingGif := false;
     App.error := None; App.effects := [] |}.

End Scenario.

(** * Notions of the proofs *)

(** The body shared by the loops of both orchestrators: report, generate
    from the previous frame, append. *)
Definition step (remote : list Event -> Request -> RemoteOutcome)
           (ai : GoogleGenAI) (promptOf messageOf : Z -> string)
           (onProgress : bool) (i : Z) (st : LoopState) : M LoopState :=
  report onProgress (messageOf i) ;;;
  nextFrame <- generateFrame remote ai (promptOf i) (previousFrame st) ;;
  ret {| allFrames := (allFrames st ++ [nextFrame])%list;
         previousFrame := Some nextFrame |}.

(** The previous frame, when there is one, is a truthy string. *)
Definition prev_ok (prev : option string) : Prop :=
  match prev with Some p => truthy p = true | None => True end.

(** A computation that calls no image model, however it ends. *)
Definition quiet {A} (m : M A) : Prop :=
  forall w out w',
    m w = (out, w') ->
    exists evs, log w' = (log w ++ evs)%list /\ image_calls evs = [].

(** The character [c] occurs in [s]. *)
Fixpoint occurs (c : ascii) (s : string) : bool :=
  match s with
  | EmptyString => false
  | String x s' => Ascii.eqb c x || occurs c s'
  end.

(** A computation that makes no remote call, however it ends. *)
(** Does [s] hold a line terminator, at any place? *)
Fixpoint holds_line_terminator (s : string) : bool :=
  match s with
  | EmptyString => false
  | String _ s' => line_terminator_at s || holds_line_terminator s'
  end.

Definition silent {A} (m : M A) : Prop :=
  forall w out w',
    m w = (out, w') ->
    exists evs, log w' = (log w ++ evs)%list /\ remote_calls evs = [].

(** The progress messages of a transcript, oldest first. *)
Fixpoint progress_messages (evs : list Event) : list string :=
  match evs with
  | [] => []
  | EvProgress message :: rest => message :: progress_messages rest
  | _ :: rest => progress_messages rest
  end.

(** The request of [generateFrame] for the parts [ps]. *)
Definition image_request (ps : list Part) : Request :=
  {| model := "gemini-2.5-flash-image";
     contents := ContentParts ps;
     config := ImageOnly |}.

(** The [n] counter values of a loop that starts at [i]. *)
Definition counters (i : Z) (n : nat) : list Z :=
  map (fun k => i + Z.of_nat k) (seq 0 n).

(** How [generateFrame] ends once the service has answered [res] to the
    call that carried [prompt]. *)
Definition frame_outcome (prompt : string) (res : RemoteOutcome) : Outcome string :=
  match res with
  | RemoteReject e => Rejected e
  | RemoteResponse r =>
      match candidate_parts r with
      | None => Rejected (JsError TypeError_message)
      | Some parts =>
          match first_inline parts with
          | Some d => Resolved ("data:image/png;base64," ++ data d)
          | None => Rejected (JsError ("Image generation failed for prompt: "
                                       ++ dq ++ prompt ++ dq))
          end
      end
  end.

(** The parts that [generateFrame] puts before the prompt for the
    previous frame [prev], when [base64ToPart] accepts it. *)
Definition reference_parts (prev : option string) : Outcome (list Part) :=
  match prev with
  | Some ref =>
      if truthy ref then
        match base64ToPart ref with
        | Resolved part => Resolved [PartInline part]
        | Rejected e => Rejected e
        end
      else Resolved []
  | None => Resolved []
  end.

(** What the [catch] of [generateAnimationFrames] throws for the error
    [e] of its [try] block. *)
Definition rethrown (e : Thrown) : Thrown :=
  match e with
  | JsError message => JsError ("Failed to generate animation: " ++ message)
  | JsNonError _ => JsError "An unknown error occurred while generating the animation."
  end.

(** The transcript of the loop of [generateAnimationFrames] for the
    calls [calls] (each a request with its answer), the counter starting
    at [i]: before each call, the progress message of its round. *)
Fixpoint loop_events (messageOf : Z -> string) (onProgress : bool) (i : Z)
         (calls : list (Request * RemoteOutcome)) : list Event :=
  match calls with
  | [] => []
  | (req, res) :: rest =>
      ((if onProgress then [EvProgress (messageOf i)] else [])
       ++ EvGenerateContent req res
       :: loop_events messageOf onProgress (i + 1) rest)%list
  end.

(** A call of the loop as a frame-generation call. *)
Definition to_call (c : Request * RemoteOutcome) : ImageCall :=
  {| call_parts := request_parts (fst c); call_outcome := snd c |}.

(** The progress event of a message, if there is a callback. *)
Definition progress_event (onProgress : bool) (message : string) : list Event :=
  if onProgress then [EvProgress message] else [].

(** [calls] begin a chain from [prev]: as [chained], for a loop that may
    have stopped; the last call need not have given a frame. *)
Fixpoint linked (promptOf : Z -> string) (i : Z) (prev : option string)
         (calls : list ImageCall) : Prop :=
  match calls with
  | [] => True
  | c :: rest =>
      texts (call_parts c) = [promptOf i]
      /\ match prev with
         | None => references (call_parts c) = []
         | Some p =>
             exists part, base64ToPart p = Resolved part
                          /\ references (call_parts c) = [part]
         end
      /\ (rest = []
          \/ exists f, produced (call_outcome c) = Some f
                       /\ linked promptOf (i + 1) (Some f) rest)
  end.

(** * More scenarios *)

Module Cases.

(** A service that rejects every call with [e]. *)
Definition rejecting_service (e : Thrown) (evs : list Event) (req : Request)
  : RemoteOutcome := RemoteReject e.

(** A service that answers every call with the text [text] and no part. *)
Definition answering_service (text : string) (evs : list Event) (req : Request)
  : RemoteOutcome :=
  RemoteResponse {| response_text := Some text; candidate_parts := None |}.

(** A parser that accepts nothing, as an engine that words its errors
    without the name of the function. *)
Definition refusing_parse (text : string) : string + Json :=
  inl "Unexpected token < in JSON at position 0".

(** A service whose planner answers [planner_text] and whose image model
    answers an image to the first [good] calls and text only after that. *)
Definition flaky_service (planner_text : string) (good : nat) (evs : list Event)
           (req : Request) : RemoteOutcome :=
  if String.eqb (model req) "gemini-2.5-pro" then
    RemoteResponse {| response_text := Some planner_text; candidate_parts := None |}
  else if Nat.ltb (List.length (image_calls evs)) good then
    Scenario.service planner_text evs req
  else Scenario.text_only_service evs req.

(** The form as the page first shows it. *)
Definition initial_form (prompt : string) (frameCount : Z) : AppUI.State :=
  {| AppUI.prompt := prompt; AppUI.frameCount := frameCount;
     AppUI.frames := None; AppUI.isLoading := false;
     AppUI.isEnhancing := false; AppUI.error := None;
     AppUI.progress := None |}.

End Cases.

(** * Properties *)

(** ** The monad *)

Lemma bind_resolved {A B} (m : M A) (k : A -> M B) w b w' :
  bind m k w = (Resolved b, w') ->
  exists a w1, m w = (Resolved a, w1) /\ k a w1 = (Resolved b, w').
Proof.
  unfold bind. destruct (m w) as [[a|e] w1]; intros H.
  - exists a, w1. split; [reflexivity | exact H].
  - discriminate H.
Qed.

Lemma bind_rejected_first {A B} (m : M A) (k : A -> M B) w e w1 :
  m w = (Rejected e, w1) -> bind m k w = (Rejected e, w1).
Proof. unfold bind. intros ->. reflexivity. Qed.

Lemma bind_resolved_first {A B} (m : M A) (k : A -> M B) w a w1 :
  m w = (Resolved a, w1) -> bind m k w = k a w1.
Proof. unfold bind. intros ->. reflexivity. Qed.

Lemma log_record ev w : log (record ev w) = (log w ++ [ev])%list.
Proof. reflexivity. Qed.

(** [report] resolves, and adds at most a progress event. *)
Lemma report_resolved onProgress message w :
  exists w1, report onProgress message w = (Resolved tt, w1)
             /\ exists evs, log w1 = (log w ++ evs)%list
                            /\ image_calls evs = []
                            /\ remote_calls evs = [].
Proof.
  unfold report. destruct onProgress.
  - eexists. split; [reflexivity|]. exists [EvProgress message].
    repeat split.
  - exists w. split; [reflexivity|]. exists []. rewrite app_nil_r. repeat split.
Qed.

(** ** Transcripts *)

Lemma image_calls_app a b :
  image_calls (a ++ b) = (image_calls a ++ image_calls b)%list.
Proof.
  induction a as [|ev a IH]; [reflexivity|].
  destruct ev as [req res| |]; simpl; try exact IH.
  destruct (String.eqb (model req) "gemini-2.5-flash-image"); simpl;
    rewrite IH; reflexivity.
Qed.

Lemma remote_calls_app a b :
  remote_calls (a ++ b) = (remote_calls a ++ remote_calls b)%list.
Proof.
  induction a as [|ev a IH]; [reflexivity|].
  destruct ev; simpl; rewrite IH; reflexivity.
Qed.

(** ** [generateFrame] *)

(** The parts that [generateFrame] puts before the prompt. *)
Lemma reference_parts_resolved (prev : option string) (parts : list Part) w w1 :
  match prev with
  | Some ref =>
      if truthy ref then
        p <- lift (base64ToPart ref) ;; ret [PartInline p]
      else ret []
  | None => ret []
  end w = (Resolved parts, w1) ->
  w1 = w
  /\ match prev with
     | None => parts = []
     | Some p =>
         if truthy p then
           exists part, base64ToPart p = Resolved part /\ parts = [PartInline part]
         else parts = []
     end.
Proof.
  destruct prev as [p|].
  - destruct (truthy p).
    + unfold bind, lift, ret. destruct (base64ToPart p) as [part|e]; intros H.
      * inversion H; subst. split; [reflexivity|]. exists part. split; reflexivity.
      * discriminate H.
    + unfold ret. intros H. inversion H. split; reflexivity.
  - unfold ret. intros H. inversion H. split; reflexivity.
Qed.

Lemma texts_app a b : texts (a ++ b) = (texts a ++ texts b)%list.
Proof.
  induction a as [|p a IH]; [reflexivity|].
  destruct p; simpl; rewrite IH; reflexivity.
Qed.

Lemma references_app a b :
  references (a ++ b) = (references a ++ references b)%list.
Proof.
  induction a as [|p a IH]; [reflexivity|].
  destruct p; simpl; rewrite IH; reflexivity.
Qed.

(** A resolved [generateFrame] made exactly one call: it carried the
    prompt, the reference made of the previous frame if there was one, and
    the frame returned is the one made of the answer. *)
Lemma generateFrame_resolved remote ai prompt prev w f w' :
  generateFrame remote ai prompt prev w = (Resolved f, w') ->
  exists ps res,
    log w' = (log w ++ [EvGenerateContent
                          {| model := "gemini-2.5-flash-image";
                             contents := ContentParts ps;
                             config := ImageOnly |} res])%list
    /\ texts ps = [prompt]
    /\ match prev with
       | None => references ps = []
       | Some p =>
           if truthy p then
             exists part, base64ToPart p = Resolved part /\ references ps = [part]
           else references ps = []
       end
    /\ produced res = Some f.
Proof.
  unfold generateFrame. intros H.
  apply bind_resolved in H as (parts & w1 & Hparts & H).
  apply reference_parts_resolved in Hparts as [-> Hparts].
  apply bind_resolved in H as (response & w2 & Hcall & H).
  unfold generateContent in Hcall.
  set (req := {| model := "gemini-2.5-flash-image";
                 contents := ContentParts (parts ++ [PartText prompt]);
                 config := ImageOnly |}) in *.
  destruct (remote (log w) req) as [e|r] eqn:Hres; [discriminate Hcall|].
  inversion Hcall; subst response w2; clear Hcall.
  exists (parts ++ [PartText prompt])%list, (RemoteResponse r).
  assert (Hout : produced (RemoteResponse r) = Some f /\ w' = record (EvGenerateContent req (RemoteResponse r)) w).
  { unfold produced. destruct (candidate_parts r) as [ps|]; [|discriminate H].
    destruct (first_inline ps) as [d|]; [|discriminate H].
    unfold ret in H. inversion H. split; reflexivity. }
  destruct Hout as [Hprod ->].
  split; [reflexivity|].
  split; [rewrite texts_app; destruct prev as [p|];
          [destruct (truthy p); [destruct Hparts as (part & _ & ->)|subst parts]|subst parts];
          reflexivity|].
  split; [|exact Hprod].
  rewrite references_app. simpl. rewrite app_nil_r.
  destruct prev as [p|].
  - destruct (truthy p).
    + destruct Hparts as (part & Hb & ->). exists part. split; [exact Hb|reflexivity].
    + subst parts. reflexivity.
  - subst parts. reflexivity.
Qed.

Lemma produced_truthy res f : produced res = Some f -> truthy f = true.
Proof.
  unfold produced. destruct res as [e|r]; [discriminate|].
  destruct (candidate_parts r) as [ps|]; [|discriminate].
  destruct (first_inline ps) as [d|]; [|discriminate].
  intros H. inversion H. reflexivity.
Qed.

(** ** The loop *)

Lemma rounds_step_resolved remote ai promptOf messageOf onProgress :
  forall n i st w st' w',
    prev_ok (previousFrame st) ->
    rounds n i (step remote ai promptOf messageOf onProgress) st w = (Resolved st', w') ->
    exists evs fs,
      log w' = (log w ++ evs)%list
      /\ allFrames st' = (allFrames st ++ fs)%list
      /\ List.length fs = n
      /\ remote_calls evs = map (fun c => {| model := "gemini-2.5-flash-image";
                                             contents := ContentParts (call_parts c);
                                             config := ImageOnly |}) (image_calls evs)
      /\ chained promptOf i (previousFrame st) (image_calls evs) fs.
Proof.
  induction n as [|n IH]; intros i st w st' w' Hprev H.
  - simpl in H. unfold ret in H. inversion H; subst.
    exists [], []. rewrite !app_nil_r. repeat split.
  - simpl in H.
    apply bind_resolved in H as (st1 & w1 & Hstep & Hrest).
    unfold step in Hstep.
    apply bind_resolved in Hstep as ([] & w0 & Hrep & Hstep).
    destruct (report_resolved onProgress (messageOf i) w) as (w0' & Hrep' & evs0 & Hlog0 & Himg0 & Hrem0).
    rewrite Hrep in Hrep'. inversion Hrep'; subst w0'; clear Hrep'.
    apply bind_resolved in Hstep as (f & w2 & Hgen & Hret).
    unfold ret in Hret. inversion Hret; subst st1 w2; clear Hret.
    apply generateFrame_resolved in Hgen as (ps & res & Hlog1 & Htexts & Hrefs & Hprod).
    apply IH in Hrest as (evs & fs & Hlog & Hframes & Hlen & Hrem & Hchain);
      [|simpl; eapply produced_truthy; exact Hprod].
    simpl in Hframes, Hchain.
    exists (evs0 ++ [EvGenerateContent
                       {| model := "gemini-2.5-flash-image";
                          contents := ContentParts ps; config := ImageOnly |} res] ++ evs)%list,
           (f :: fs).
    split; [rewrite Hlog, Hlog1, Hlog0, <- !app_assoc; reflexivity|].
    split; [rewrite Hframes, <- app_assoc; reflexivity|].
    split; [simpl; rewrite Hlen; reflexivity|].
    rewrite !image_calls_app, !remote_calls_app, Himg0, Hrem0. simpl.
    split; [rewrite Hrem; reflexivity|].
    split; [exact Htexts|].
    split.
    { destruct (previousFrame st) as [p|]; [|exact Hrefs].
      simpl in Hprev. rewrite Hprev in Hrefs. exact Hrefs. }
    split; [exact Hprod | exact Hchain].
Qed.

(** ** Computations that call no image model *)

Lemma quiet_ret {A} (a : A) : quiet (ret a).
Proof.
  intros w out w' H. unfold ret in H. inversion H; subst.
  exists []. rewrite app_nil_r. split; reflexivity.
Qed.

Lemma quiet_throw {A} (e : Thrown) : quiet (@throw A e).
Proof.
  intros w out w' H. unfold throw in H. inversion H; subst.
  exists []. rewrite app_nil_r. split; reflexivity.
Qed.

Lemma quiet_lift {A} (o : Outcome A) : quiet (lift o).
Proof.
  intros w out w' H. unfold lift in H. inversion H; subst.
  exists []. rewrite app_nil_r. split; reflexivity.
Qed.

Lemma quiet_bind {A B} (m : M A) (k : A -> M B) :
  quiet m -> (forall a, quiet (k a)) -> quiet (bind m k).
Proof.
  intros Hm Hk w out w' H. unfold bind in H.
  destruct (m w) as [[a|e] w1] eqn:Hmw.
  - apply Hm in Hmw as (evs1 & Hlog1 & Himg1).
    apply Hk in H as (evs2 & Hlog2 & Himg2).
    exists (evs1 ++ evs2)%list. split.
    + rewrite Hlog2, Hlog1, app_assoc. reflexivity.
    + rewrite image_calls_app, Himg1, Himg2. reflexivity.
  - inversion H; subst. apply Hm in Hmw. exact Hmw.
Qed.

Lemma quiet_try_catch {A} (body : M A) (handler : Thrown -> M A) :
  quiet body -> (forall e, quiet (handler e)) -> quiet (try_catch body handler).
Proof.
  intros Hb Hh w out w' H. unfold try_catch in H.
  destruct (body w) as [[a|e] w1] eqn:Hbw.
  - inversion H; subst. apply Hb in Hbw. exact Hbw.
  - apply Hb in Hbw as (evs1 & Hlog1 & Himg1).
    apply Hh in H as (evs2 & Hlog2 & Himg2).
    exists (evs1 ++ evs2)%list. split.
    + rewrite Hlog2, Hlog1, app_assoc. reflexivity.
    + rewrite image_calls_app, Himg1, Himg2. reflexivity.
Qed.

Lemma quiet_console_error label what : quiet (console_error label what).
Proof.
  intros w out w' H. unfold console_error in H. inversion H; subst.
  exists [EvConsoleError label what]. split; reflexivity.
Qed.

Lemma quiet_report onProgress message : quiet (report onProgress message).
Proof.
  intros w out w' H.
  destruct (report_resolved onProgress message w) as (w1 & Hrun & evs & Hlog & Himg & _).
  rewrite Hrun in H. inversion H; subst. exists evs. split; assumption.
Qed.

Lemma quiet_planner_call remote ai motionPrompt frameCount :
  quiet (generateContent remote ai (Storyboard.storyboard_request motionPrompt frameCount)).
Proof.
  intros w out w' H. unfold generateContent in H.
  set (req := Storyboard.storyboard_request motionPrompt frameCount) in *.
  exists [EvGenerateContent req (remote (log w) req)].
  destruct (remote (log w) req); inversion H; subst; split; reflexivity.
Qed.

Create HintDb quiet.
#[local] Hint Resolve quiet_ret quiet_throw quiet_lift quiet_console_error
  quiet_report quiet_planner_call : quiet.

(** ** [getAI] *)

Lemma getAI_available w :
  client_available w = true ->
  exists ai w1, getAI w = (Resolved ai, w1)
                /\ log w1 = log w /\ aiInstance w1 = Some ai.
Proof.
  unfold client_available, getAI. intros H.
  destruct (aiInstance w) as [ai|] eqn:Hai.
  - exists ai, w. repeat split. exact Hai.
  - destruct (env_API_KEY w) as [key|]; [|discriminate H].
    rewrite H. eexists _, _. repeat split.
Qed.

Lemma getAI_unavailable w :
  client_available w = false ->
  getAI w = (Rejected (JsError "API key is not configured. Please set the API_KEY environment variable."), w).
Proof.
  unfold client_available, getAI. intros H.
  destruct (aiInstance w) as [ai|]; [discriminate H|].
  destruct (env_API_KEY w) as [key|]; [|reflexivity].
  rewrite H. reflexivity.
Qed.

Lemma getAI_resolved w ai w1 :
  getAI w = (Resolved ai, w1) -> log w1 = log w /\ client_available w = true.
Proof.
  intros H. destruct (client_available w) eqn:Hc.
  - apply getAI_available in Hc as (ai' & w1' & Hrun & Hlog & _).
    rewrite Hrun in H. inversion H; subst. split; [exact Hlog|reflexivity].
  - apply getAI_unavailable in Hc. rewrite Hc in H. discriminate H.
Qed.

(** ** [generateStoryboard] *)

Lemma frameDescriptions_resolved items descriptions :
  Storyboard.frameDescriptions items = Resolved descriptions ->
  List.length descriptions = List.length items
  /\ Forall (fun frame => bad_description frame = false) items.
Proof.
  revert descriptions. induction items as [|frame items IH]; intros descriptions H.
  - simpl in H. inversion H. split; [reflexivity|constructor].
  - simpl in H.
    destruct (get_property frame "frame_description") as [[[| | |s| |]|]|e] eqn:Hget;
      try discriminate H.
    destruct (truthy s) eqn:Hs; [|discriminate H].
    destruct (Storyboard.frameDescriptions items) as [ds|e]; [|discriminate H].
    inversion H; subst. destruct (IH ds eq_refl) as [Hlen Hall].
    split; [simpl; rewrite Hlen; reflexivity|].
    constructor; [|exact Hall].
    unfold bad_description. rewrite Hget, Hs. reflexivity.
Qed.

Lemma generateStoryboard_quiet remote JSON_parse trim ai motionPrompt frameCount :
  quiet (Storyboard.generateStoryboard remote JSON_parse trim ai motionPrompt frameCount).
Proof.
  unfold Storyboard.generateStoryboard. apply quiet_try_catch.
  - apply quiet_bind; [auto with quiet|]. intros response.
    apply quiet_bind; [destruct (response_text response); auto with quiet|].
    intros responseText.
    apply quiet_bind; [destruct (JSON_parse responseText); auto with quiet|].
    intros parsedJson.
    apply quiet_bind; [auto with quiet|]. intros storyboardFrames.
    match goal with |- quiet (if ?c then _ else _) => destruct c end.
    + apply quiet_bind; [auto with quiet|]. intros _.
      apply quiet_bind; [auto with quiet|]. intros len. auto with quiet.
    + auto with quiet.
  - intros e. apply quiet_bind; [auto with quiet|]. intros _.
    destruct e as [message|shown]; [destruct (includes message "JSON.parse")|];
      auto with quiet.
Qed.

(** Whatever goes wrong in [generateStoryboard], the caller gets one of
    two fixed messages. *)
Lemma generateStoryboard_rejected remote JSON_parse trim ai motionPrompt frameCount w e w' :
  Storyboard.generateStoryboard remote JSON_parse trim ai motionPrompt frameCount w
  = (Rejected e, w') ->
  e = JsError "Failed to generate animation storyboard. The planning AI returned an invalid JSON format."
  \/ e = JsError "Failed to generate animation storyboard. The planning AI may be experiencing issues.".
Proof.
  unfold Storyboard.generateStoryboard, try_catch.
  match goal with |- context [match ?b w with _ => _ end] => destruct (b w) as [[sb|e0] w0] end.
  - discriminate.
  - unfold bind, console_error, throw.
    destruct e0 as [message|shown]; [destruct (includes message "JSON.parse")|];
      intros H; inversion H; auto.
Qed.

(** A resolved [generateStoryboard]: one planner call, whose answer parsed
    to an array of [frameCount] well-formed entries. *)
Lemma generateStoryboard_resolved remote JSON_parse trim ai motionPrompt frameCount w sb w' :
  Storyboard.generateStoryboard remote JSON_parse trim ai motionPrompt frameCount w
  = (Resolved sb, w') ->
  exists r text parsedJson items,
    remote (log w) (Storyboard.storyboard_request motionPrompt frameCount) = RemoteResponse r
    /\ response_text r = Some text
    /\ JSON_parse (trim text) = inr parsedJson
    /\ get_property parsedJson "storyboard" = Resolved (Some (JArr items))
    /\ Z.of_nat (List.length items) = frameCount
    /\ Storyboard.frameDescriptions items = Resolved sb
    /\ log w' = (log w ++ [EvGenerateContent
                             (Storyboard.storyboard_request motionPrompt frameCount)
                             (RemoteResponse r)])%list.
Proof.
  unfold Storyboard.generateStoryboard, try_catch.
  match goal with |- context [match ?b w with _ => _ end] =>
    destruct (b w) as [[sb0|e0] w0] eqn:Hbody end.
  - intros H. inversion H; subst sb0 w0; clear H.
    apply bind_resolved in Hbody as (response & w1 & Hcall & Hbody).
    unfold generateContent in Hcall.
    destruct (remote (log w) (Storyboard.storyboard_request motionPrompt frameCount))
      as [e|r] eqn:Hres; [discriminate Hcall|].
    inversion Hcall; subst response w1; clear Hcall.
    apply bind_resolved in Hbody as (responseText & w2 & Htext & Hbody).
    destruct (response_text r) as [text|] eqn:Ht; [|discriminate Htext].
    unfold ret in Htext. inversion Htext; subst responseText w2; clear Htext.
    apply bind_resolved in Hbody as (parsedJson & w3 & Hparse & Hbody).
    destruct (JSON_parse (trim text)) as [message|v] eqn:Hp; [discriminate Hparse|].
    unfold ret in Hparse. inversion Hparse; subst parsedJson w3; clear Hparse.
    apply bind_resolved in Hbody as (storyboardFrames & w4 & Hget & Hbody).
    unfold lift in Hget. inversion Hget as [[Hget' Hw]]; subst w4; clear Hget.
    destruct (negb (isArray storyboardFrames)
              || negb (Z.of_nat (List.length (items_of storyboardFrames)) =? frameCount)%Z)
      eqn:Hguard.
    + apply bind_resolved in Hbody as (u & w5 & _ & Hbody).
      apply bind_resolved in Hbody as (len & w6 & _ & Hbody).
      discriminate Hbody.
    + apply orb_false_elim in Hguard as [Harr Hlen].
      apply negb_false_iff in Harr. apply negb_false_iff in Hlen.
      destruct storyboardFrames as [[| | | |items|]|]; try discriminate Harr.
      simpl in Hlen. apply Z.eqb_eq in Hlen.
      unfold lift in Hbody. inversion Hbody as [[Hdesc Hw]].
      exists r, text, v, items. repeat split; try assumption.
  - unfold bind, console_error, throw.
    destruct e0 as [message|shown]; [destruct (includes message "JSON.parse")|];
      discriminate.
Qed.

(** ** Chains *)

Lemma chained_length promptOf :
  forall calls frames i prev,
    chained promptOf i prev calls frames -> List.length calls = List.length frames.
Proof.
  induction calls as [|c calls IH]; intros [|f frames] i prev H; simpl in H;
    try contradiction; [reflexivity|].
  destruct H as (_ & _ & _ & H). simpl. f_equal. eapply IH. exact H.
Qed.

(** The head of a chain. *)
Lemma chained_head promptOf i prev c calls frames :
  chained promptOf i prev (c :: calls) frames ->
  texts (call_parts c) = [promptOf i]
  /\ match prev with
     | None => references (call_parts c) = []
     | Some p => exists part, base64ToPart p = Resolved part
                              /\ references (call_parts c) = [part]
     end
  /\ exists f, produced (call_outcome c) = Some f /\ nth_error frames 0 = Some f.
Proof.
  destruct frames as [|f frames]; simpl; [contradiction|].
  intros (Ht & Hr & Hp & _). split; [exact Ht|]. split; [exact Hr|].
  exists f. split; [exact Hp|reflexivity].
Qed.

(** Any later link of a chain: its prompt is the one of its index, and its
    only reference is the frame made by the call before it. *)
Lemma chained_link promptOf :
  forall k calls frames i prev c,
    chained promptOf i prev calls frames ->
    nth_error calls (S k) = Some c ->
    texts (call_parts c) = [promptOf (i + Z.of_nat (S k))]
    /\ exists cprev f part,
         nth_error calls k = Some cprev
         /\ produced (call_outcome cprev) = Some f
         /\ nth_error frames k = Some f
         /\ base64ToPart f = Resolved part
         /\ references (call_parts c) = [part].
Proof.
  induction k as [|k IH]; intros calls frames i prev c H Hnth.
  - destruct calls as [|c0 [|c1 calls]]; try discriminate Hnth.
    simpl in Hnth. inversion Hnth; subst c1; clear Hnth.
    destruct frames as [|f0 frames]; simpl in H; [contradiction|].
    destruct H as (_ & _ & Hp0 & H).
    destruct (chained_head promptOf (i + 1) (Some f0) c calls frames H)
      as (Ht & (part & Hb & Hr) & _).
    split; [exact Ht|].
    exists c0, f0, part. repeat split; assumption.
  - destruct calls as [|c0 calls]; [discriminate Hnth|].
    destruct frames as [|f0 frames]; simpl in H; [contradiction|].
    destruct H as (_ & _ & _ & H).
    change (nth_error calls (S k) = Some c) in Hnth.
    destruct (IH calls frames (i + 1) (Some f0) c H Hnth)
      as (Ht & cprev & f & part & H1 & H2 & H3 & H4 & H5).
    split.
    + rewrite Ht. do 2 f_equal. lia.
    + exists cprev, f, part. repeat split; assumption.
Qed.

(** ** Runs of the orchestrators *)

(** The [catch] of [generateAnimationFrames] always rethrows. *)
Lemma try_catch_rethrow_resolved {A} (body : M A) (handler : Thrown -> M A) w a w' :
  (forall e w0, exists e' w1, handler e w0 = (Rejected e', w1)) ->
  try_catch body handler w = (Resolved a, w') ->
  body w = (Resolved a, w').
Proof.
  intros Hh. unfold try_catch. destruct (body w) as [[a0|e0] w0]; intros H.
  - exact H.
  - destruct (Hh e0 w0) as (e' & w1 & He). rewrite He in H. discriminate H.
Qed.

Lemma rethrow_rejects e w0 :
  exists e' w1,
    (console_error "Animation Generation Error:" (LoggedThrown e) ;;;
     match e with
     | JsError message =>
         throw (JsError ("Failed to generate animation: " ++ message))
     | JsNonError _ =>
         throw (JsError "An unknown error occurred while generating the animation.")
     end) w0 = (@Rejected (list string) e', w1).
Proof.
  unfold bind, console_error, throw. destruct e; eexists _, _; reflexivity.
Qed.

Lemma storyboard_run_resolved remote JSON_parse trim motionPrompt frameCount onProgress
      w frames w' :
  1 <= frameCount ->
  Storyboard.generateAnimationFrames remote JSON_parse trim motionPrompt frameCount
    onProgress w = (Resolved frames, w') ->
  exists evs storyboard,
    log w' = (log w ++ evs)%list
    /\ Z.of_nat (List.length storyboard) = frameCount
    /\ List.length frames = Z.to_nat frameCount
    /\ chained (Storyboard.currentFramePrompt storyboard frameCount) 0 None
               (image_calls evs) frames
    /\ exists res,
         In (EvGenerateContent (Storyboard.storyboard_request motionPrompt frameCount) res)
            evs
         /\ planned JSON_parse trim res = Some storyboard.
Proof.
  intros HN H. unfold Storyboard.generateAnimationFrames in H.
  apply bind_resolved in H as (ai & w1 & Hai & H).
  apply getAI_resolved in Hai as [Hlog1 _].
  destruct (frameCount <? 1)%Z eqn:Hlt; [apply Z.ltb_lt in Hlt; lia|].
  apply try_catch_rethrow_resolved in H; [|apply rethrow_rejects].
  apply bind_resolved in H as ([] & w2 & Hrep1 & H).
  apply quiet_report in Hrep1 as (evs1 & Hlog2 & Himg1).
  apply bind_resolved in H as (storyboard & w3 & Hsb & H).
  pose proof (generateStoryboard_quiet _ _ _ _ _ _ _ _ _ Hsb) as (evs2 & Hlog3 & Himg2).
  apply generateStoryboard_resolved in Hsb
    as (r & text & parsedJson & items & _ & Htext & Hparse & Hget & Hlen & Hdesc & Hlogsb).
  rewrite Hlog3 in Hlogsb. apply app_inv_head in Hlogsb.
  pose proof (frameDescriptions_resolved _ _ Hdesc) as [Hlen' _].
  apply bind_resolved in H as ([] & w4 & Hrep2 & H).
  apply quiet_report in Hrep2 as (evs3 & Hlog4 & Himg3).
  apply bind_resolved in H as (st & w5 & Hloop & H).
  unfold for_lt in Hloop.
  change (Storyboard.loop_body remote ai storyboard frameCount onProgress)
    with (step remote ai (Storyboard.currentFramePrompt storyboard frameCount)
               (fun i => "Generating frame " ++ string_of_Z (i + 1) ++ " of "
                         ++ string_of_Z frameCount ++ "...") onProgress) in Hloop.
  apply rounds_step_resolved in Hloop as (evs4 & fs & Hlog5 & Hfs & Hn & _ & Hchain);
    [|exact I].
  simpl in Hfs, Hchain.
  apply bind_resolved in H as ([] & w6 & Hrep3 & H).
  apply quiet_report in Hrep3 as (evs5 & Hlog6 & Himg5).
  unfold ret in H. inversion H; subst frames w6; clear H.
  exists (evs1 ++ evs2 ++ evs3 ++ evs4 ++ evs5)%list, storyboard.
  split; [rewrite Hlog6, Hlog5, Hlog4, Hlog3, Hlog2, Hlog1, <- !app_assoc; reflexivity|].
  split; [rewrite Hlen'; exact Hlen|].
  rewrite Hfs.
  split; [rewrite Hn; f_equal; lia|].
  split; [rewrite !image_calls_app, Himg1, Himg2, Himg3, Himg5, app_nil_r; exact Hchain|].
  exists (RemoteResponse r). split.
  - apply in_or_app. right. apply in_or_app. left. rewrite Hlogsb. left. reflexivity.
  - unfold planned. rewrite Htext, Hparse, Hget, Hdesc. reflexivity.
Qed.

Lemma inline_run_resolved remote motionPrompt frameCount onProgress w frames w' :
  1 <= frameCount ->
  Inline.generateAnimationFrames remote motionPrompt frameCount onProgress w
  = (Resolved frames, w') ->
  exists evs,
    log w' = (log w ++ evs)%list
    /\ List.length frames = Z.to_nat frameCount
    /\ chained (Inline.currentFramePrompt motionPrompt frameCount) 1 None
               (image_calls evs) frames.
Proof.
  intros HN H. unfold Inline.generateAnimationFrames in H.
  apply bind_resolved in H as (ai & w1 & Hai & H).
  apply getAI_resolved in Hai as [Hlog1 _].
  destruct (frameCount <? 1)%Z eqn:Hlt; [apply Z.ltb_lt in Hlt; lia|].
  apply try_catch_rethrow_resolved in H; [|apply rethrow_rejects].
  apply bind_resolved in H as (st & w2 & Hloop & H).
  unfold for_le in Hloop.
  change (Inline.loop_body remote ai motionPrompt frameCount onProgress)
    with (step remote ai (Inline.currentFramePrompt motionPrompt frameCount)
               (fun i => "Generating frame " ++ string_of_Z i ++ " of "
                         ++ string_of_Z frameCount ++ "...") onProgress) in Hloop.
  apply rounds_step_resolved in Hloop as (evs & fs & Hlog2 & Hfs & Hn & _ & Hchain);
    [|exact I].
  simpl in Hfs, Hchain.
  apply bind_resolved in H as ([] & w3 & Hrep & H).
  apply quiet_report in Hrep as (evs' & Hlog3 & Himg).
  unfold ret in H. inversion H; subst frames w3; clear H.
  exists (evs ++ evs')%list.
  split; [rewrite Hlog3, Hlog2, Hlog1, <- !app_assoc; reflexivity|].
  rewrite Hfs.
  split; [rewrite Hn; f_equal; lia|].
  rewrite image_calls_app, Himg, app_nil_r. exact Hchain.
Qed.

(** Both orchestrators: a resolved run is a chain of [frameCount] calls
    that starts without a reference. *)
Lemma run_resolved v remote JSON_parse trim motionPrompt frameCount onProgress
      w frames w' :
  1 <= frameCount ->
  generateAnimationFrames_of v remote JSON_parse trim motionPrompt frameCount
    onProgress w = (Resolved frames, w') ->
  exists evs promptOf i0,
    log w' = (log w ++ evs)%list
    /\ List.length frames = Z.to_nat frameCount
    /\ chained promptOf i0 None (image_calls evs) frames
    /\ match v with
       | StoryboardDriven =>
           i0 = 0
           /\ exists storyboard res,
               Z.of_nat (List.length storyboard) = frameCount
               /\ promptOf = Storyboard.currentFramePrompt storyboard frameCount
               /\ In (EvGenerateContent
                        (Storyboard.storyboard_request motionPrompt frameCount) res) evs
               /\ planned JSON_parse trim res = Some storyboard
       | InlinePrompt =>
           i0 = 1 /\ promptOf = Inline.currentFramePrompt motionPrompt frameCount
       end.
Proof.
  intros HN H. destruct v; simpl in H.
  - apply storyboard_run_resolved in H
      as (evs & sb & Hlog & Hsb & Hlen & Hchain & res & Hin & Hplanned); [|exact HN].
    exists evs, (Storyboard.currentFramePrompt sb frameCount), 0.
    repeat split; try assumption. exists sb, res. repeat split; assumption.
  - apply inline_run_resolved in H as (evs & Hlog & Hlen & Hchain); [|exact HN].
    exists evs, (Inline.currentFramePrompt motionPrompt frameCount), 1.
    repeat split; assumption.
Qed.

(** ** Strings *)

Lemma includes_cons c hay needle :
  includes (String c hay) needle
  = if String.prefix needle (String c hay) then true else includes hay needle.
Proof. reflexivity. Qed.

Lemma includes_app_r a b needle :
  includes b needle = true -> includes (a ++ b) needle = true.
Proof.
  intros H. induction a as [|c a IH]; [exact H|].
  change (String c a ++ b) with (String c (a ++ b)).
  rewrite includes_cons.
  destruct (String.prefix needle (String c (a ++ b))); [reflexivity|exact IH].
Qed.

(** ** The [for] loops, as the source writes them *)

(** [for (let i = lo; i < hi; i++) body]: test, body, step, again. *)
Lemma for_lt_unfold {S : Type} (lo hi : Z) (body : Z -> S -> M S) (st : S) :
  for_lt lo hi body st
  = if (lo <? hi)%Z
    then (st' <- body lo st ;; for_lt (lo + 1) hi body st')
    else ret st.
Proof.
  unfold for_lt. destruct (lo <? hi)%Z eqn:Hlt.
  - apply Z.ltb_lt in Hlt.
    replace (Z.to_nat (hi - lo)) with (Datatypes.S (Z.to_nat (hi - (lo + 1)))) by lia.
    reflexivity.
  - apply Z.ltb_ge in Hlt.
    replace (Z.to_nat (hi - lo)) with O by lia. reflexivity.
Qed.

(** [for (let i = lo; i <= hi; i++) body] *)
Lemma for_le_unfold {S : Type} (lo hi : Z) (body : Z -> S -> M S) (st : S) :
  for_le lo hi body st
  = if (lo <=? hi)%Z
    then (st' <- body lo st ;; for_le (lo + 1) hi body st')
    else ret st.
Proof.
  unfold for_le. destruct (lo <=? hi)%Z eqn:Hle.
  - apply Z.leb_le in Hle.
    replace (Z.to_nat (hi + 1 - lo))
      with (Datatypes.S (Z.to_nat (hi + 1 - (lo + 1)))) by lia.
    reflexivity.
  - apply Z.leb_gt in Hle.
    replace (Z.to_nat (hi + 1 - lo)) with O by lia. reflexivity.
Qed.

(** ** Data URLs *)

Lemma split_without_separator sep s :
  occurs sep s = false -> split sep s = [s].
Proof.
  induction s as [|c s IH]; intros H; [reflexivity|].
  simpl in H. apply orb_false_elim in H as [Hc Hs].
  simpl. rewrite Ascii.eqb_sym, Hc, (IH Hs). reflexivity.
Qed.

(** A frame made by [generateFrame] from a payload without comma decodes
    to that payload, as a PNG. *)
Lemma base64ToPart_of_frame payload :
  truthy payload = true ->
  occurs ","%char payload = false ->
  base64ToPart ("data:image/png;base64," ++ payload)
  = Resolved {| data := payload; mimeType := "image/png" |}.
Proof.
  intros Htruthy Hcomma. unfold base64ToPart.
  change (split ","%char ("data:image/png;base64," ++ payload))
    with ("data:image/png;base64" :: split ","%char payload).
  rewrite (split_without_separator _ _ Hcomma). cbn [nth_error].
  cbv beta iota. rewrite Htruthy. reflexivity.
Qed.

(** ** The prompt of a frame names the frame *)

Lemma prefix_app_same a needle hay :
  String.prefix (a ++ needle) (a ++ hay) = String.prefix needle hay.
Proof.
  induction a as [|c a IH]; [reflexivity|].
  simpl. destruct (ascii_dec c c) as [_|Hne]; [exact IH|contradiction].
Qed.

Lemma prefix_app_self a b : String.prefix a (a ++ b) = true.
Proof.
  induction a as [|c a IH]; [destruct b; reflexivity|].
  simpl. destruct (ascii_dec c c) as [_|Hne]; [exact IH|contradiction].
Qed.

Lemma includes_prefix hay needle :
  String.prefix needle hay = true -> includes hay needle = true.
Proof.
  intros H. destruct hay as [|c hay].
  - change (includes "" needle)
      with (if String.prefix needle "" then true else false).
    rewrite H. reflexivity.
  - rewrite includes_cons, H. reflexivity.
Qed.

(** The inline-prompt orchestrator: frame 1 is called the first frame, the
    last of several the final frame, any other by its number. *)
Lemma inline_prompt_names_frame motionPrompt frameCount i :
  includes (Inline.currentFramePrompt motionPrompt frameCount i)
           (if (i =? 1)%Z then " This is the **first frame** of a "
            else if (i =? frameCount)%Z && (1 <? frameCount)%Z
                 then " This is the **final frame** of a "
                 else " This is frame " ++ string_of_Z i ++ " of a ")
  = true.
Proof.
  unfold Inline.currentFramePrompt.
  destruct (i =? 1)%Z; [|destruct ((i =? frameCount)%Z && (1 <? frameCount)%Z)];
    apply includes_app_r, includes_prefix.
  - apply (prefix_app_self " This is the **first frame** of a ").
  - apply (prefix_app_self " This is the **final frame** of a ").
  - rewrite !prefix_app_same. apply (prefix_app_self " of a ").
Qed.

(** The storyboard-driven orchestrator: the frame of index 0 is called the
    first frame, any other by its number. *)
Lemma storyboard_prompt_names_frame storyboard frameCount i :
  includes (Storyboard.currentFramePrompt storyboard frameCount i)
           (if (i =? 0)%Z then " This is the **first frame** of a "
            else " This is frame " ++ string_of_Z (i + 1) ++ " of a ")
  = true.
Proof.
  unfold Storyboard.currentFramePrompt.
  destruct (i =? 0)%Z; apply includes_app_r, includes_prefix.
  - apply (prefix_app_self " This is the **first frame** of a ").
  - rewrite !prefix_app_same. apply (prefix_app_self " of a ").
Qed.

(** ** One round of the loop, and the calls of a run however it ends *)

Lemma base64ToPart_rejection s e :
  base64ToPart s = Rejected e -> e = JsError "Invalid base64 data URL format.".
Proof.
  unfold base64ToPart.
  destruct (nth_error (split ","%char s) 0) as [header|];
    [destruct (nth_error (split ","%char s) 1) as [payload|]|];
    [destruct (negb (truthy header) || negb (truthy payload))|..];
    intros H; inversion H; reflexivity.
Qed.

(** [generateFrame], step by step: it throws on the reference and does
    nothing, or it makes its one call and ends as the answer decides. *)
Lemma generateFrame_run remote ai prompt prev w :
  generateFrame remote ai prompt prev w
  = match reference_parts prev with
    | Rejected e => (Rejected e, w)
    | Resolved refs =>
        let req := image_request (refs ++ [PartText prompt]) in
        (frame_outcome prompt (remote (log w) req),
         record (EvGenerateContent req (remote (log w) req)) w)
    end.
Proof.
  assert (Hcall : forall refs,
             bind (ret refs)
                  (fun parts =>
                     let parts := (parts ++ [PartText prompt])%list in
                     response <- generateContent remote ai
                                   {| model := "gemini-2.5-flash-image";
                                      contents := ContentParts parts;
                                      config := ImageOnly |} ;;
                     match candidate_parts response with
                     | None => throw (JsError TypeError_message)
                     | Some ps =>
                         match first_inline ps with
                         | Some d => ret ("data:image/png;base64," ++ data d)
                         | None => throw (JsError ("Image generation failed for prompt: "
                                                   ++ dq ++ prompt ++ dq))
                         end
                     end) w
             = (frame_outcome prompt
                  (remote (log w) (image_request (refs ++ [PartText prompt]))),
                record (EvGenerateContent (image_request (refs ++ [PartText prompt]))
                          (remote (log w) (image_request (refs ++ [PartText prompt])))) w)).
  { intros refs. unfold bind, ret, generateContent, throw, frame_outcome, image_request.
    destruct (remote (log w) _) as [e|r]; [reflexivity|].
    destruct (candidate_parts r) as [parts|]; [|reflexivity].
    destruct (first_inline parts); reflexivity. }
  unfold generateFrame, reference_parts.
  destruct prev as [ref|]; [destruct (truthy ref)|]; try apply Hcall.
  destruct (base64ToPart ref) as [part|e].
  - rewrite <- Hcall. unfold bind at 1 3. unfold bind at 1, lift, ret at 1. reflexivity.
  - unfold bind at 1. unfold bind at 1, lift. reflexivity.
Qed.

Lemma try_catch_rejected {A} (body : M A) (handler : Thrown -> M A) w e w' :
  try_catch body handler w = (Rejected e, w') ->
  exists e0 w0, body w = (Rejected e0, w0) /\ handler e0 w0 = (Rejected e, w').
Proof.
  unfold try_catch. destruct (body w) as [[a|e0] w0]; intros H.
  - discriminate H.
  - exists e0, w0. split; [reflexivity|exact H].
Qed.

Lemma rethrow_run e0 w0 :
  (console_error "Animation Generation Error:" (LoggedThrown e0) ;;;
   match e0 with
   | JsError message =>
       throw (JsError ("Failed to generate animation: " ++ message))
   | JsNonError _ =>
       throw (JsError "An unknown error occurred while generating the animation.")
   end) w0
  = (@Rejected (list string) (rethrown e0),
     record (EvConsoleError "Animation Generation Error:" (LoggedThrown e0)) w0).
Proof. unfold bind, console_error, throw, rethrown. destruct e0; reflexivity. Qed.

Lemma report_run onProgress message w :
  report onProgress message w
  = (Resolved tt,
     {| aiInstance := aiInstance w; env_API_KEY := env_API_KEY w;
        log := (log w ++ progress_event onProgress message)%list |}).
Proof.
  unfold report, progress_event. destruct onProgress; [reflexivity|].
  rewrite app_nil_r. destruct w; reflexivity.
Qed.

Lemma reference_parts_texts prev refs :
  reference_parts prev = Resolved refs -> texts refs = [].
Proof.
  unfold reference_parts. destruct prev as [ref|]; [destruct (truthy ref)|].
  - destruct (base64ToPart ref); intros H; inversion H; reflexivity.
  - intros H; inversion H; reflexivity.
  - intros H; inversion H; reflexivity.
Qed.

Lemma reference_parts_rejection prev e :
  reference_parts prev = Rejected e -> e = JsError "Invalid base64 data URL format.".
Proof.
  unfold reference_parts. destruct prev as [ref|]; [destruct (truthy ref)|];
    try discriminate.
  destruct (base64ToPart ref) eqn:Hpart; [discriminate|].
  intros H. inversion H; subst. exact (base64ToPart_rejection _ _ Hpart).
Qed.

Lemma frame_outcome_produced prompt res :
  match frame_outcome prompt res with
  | Resolved f => produced res = Some f
  | Rejected _ => produced res = None
  end.
Proof.
  unfold frame_outcome, produced. destruct res as [e|r]; [reflexivity|].
  destruct (candidate_parts r) as [parts|]; [|reflexivity].
  destruct (first_inline parts); reflexivity.
Qed.

(** One round of the loop. *)
Lemma step_run remote ai promptOf messageOf onProgress i st w :
  step remote ai promptOf messageOf onProgress i st w
  = let w0 := {| aiInstance := aiInstance w; env_API_KEY := env_API_KEY w;
                 log := (log w ++ progress_event onProgress (messageOf i))%list |} in
    match reference_parts (previousFrame st) with
    | Rejected e => (Rejected e, w0)
    | Resolved refs =>
        let req := image_request (refs ++ [PartText (promptOf i)]) in
        (match frame_outcome (promptOf i) (remote (log w0) req) with
         | Resolved f => Resolved {| allFrames := (allFrames st ++ [f])%list;
                                     previousFrame := Some f |}
         | Rejected e => Rejected e
         end,
         record (EvGenerateContent req (remote (log w0) req)) w0)
    end.
Proof.
  unfold step. unfold bind at 1. rewrite report_run.
  unfold bind at 1. rewrite generateFrame_run. cbv zeta.
  destruct (reference_parts (previousFrame st)) as [refs|e]; [|reflexivity].
  destruct (frame_outcome (promptOf i) _); reflexivity.
Qed.

Lemma bind_rejected {A B} (m : M A) (k : A -> M B) w e w' :
  bind m k w = (Rejected e, w') ->
  m w = (Rejected e, w')
  \/ exists a w1, m w = (Resolved a, w1) /\ k a w1 = (Rejected e, w').
Proof.
  unfold bind. destruct (m w) as [[a|e0] w1]; intros H.
  - right. exists a, w1. split; [reflexivity|exact H].
  - left. inversion H; subst. reflexivity.
Qed.

Lemma report_then {B} onProgress message (k : unit -> M B) w :
  bind (report onProgress message) k w
  = k tt {| aiInstance := aiInstance w; env_API_KEY := env_API_KEY w;
            log := (log w ++ progress_event onProgress message)%list |}.
Proof. unfold bind. rewrite report_run. reflexivity. Qed.

Lemma base64ToPart_of_png_url payload part :
  base64ToPart ("data:image/png;base64," ++ payload) = Resolved part ->
  mimeType part = "image/png".
Proof.
  unfold base64ToPart.
  change (split ","%char ("data:image/png;base64," ++ payload))
    with ("data:image/png;base64" :: split ","%char payload).
  destruct (split ","%char payload) as [|first rest]; [discriminate|].
  cbn [nth_error]. cbv beta iota.
  destruct (negb (truthy "data:image/png;base64") || negb (truthy first));
    [discriminate|].
  intros H. inversion H. reflexivity.
Qed.

Lemma produced_png res f :
  produced res = Some f -> exists payload, f = "data:image/png;base64," ++ payload.
Proof.
  unfold produced. destruct res as [e|r]; [discriminate|].
  destruct (candidate_parts r) as [ps|]; [|discriminate].
  destruct (first_inline ps) as [d|]; [|discriminate].
  intros H. inversion H. exists (data d). reflexivity.
Qed.

Lemma image_calls_event onProgress message :
  image_calls (progress_event onProgress message) = [].
Proof. destruct onProgress; reflexivity. Qed.

Lemma bind_run {A B} (m : M A) (k : A -> M B) w out w' :
  bind m k w = (out, w') ->
  (exists e, m w = (Rejected e, w') /\ out = Rejected e)
  \/ exists a w1, m w = (Resolved a, w1) /\ k a w1 = (out, w').
Proof.
  unfold bind. destruct (m w) as [[a|e] w1]; intros H.
  - right. exists a, w1. split; [reflexivity|exact H].
  - left. exists e. inversion H; subst. split; reflexivity.
Qed.

Lemma try_catch_run {A} (body : M A) (handler : Thrown -> M A) w out w' :
  try_catch body handler w = (out, w') ->
  (exists a, body w = (Resolved a, w') /\ out = Resolved a)
  \/ exists e0 w0, body w = (Rejected e0, w0) /\ handler e0 w0 = (out, w').
Proof.
  unfold try_catch. destruct (body w) as [[a|e0] w0]; intros H.
  - left. exists a. inversion H; subst. split; reflexivity.
  - right. exists e0, w0. split; [reflexivity|exact H].
Qed.

(** What [base64ToPart] makes of a frame of [generateFrame]: a PNG, and
    the payload of the frame itself when that holds no comma. *)
Lemma reference_of_frame payload part :
  base64ToPart ("data:image/png;base64," ++ payload) = Resolved part ->
  mimeType part = "image/png"
  /\ (occurs ","%char payload = false ->
      part = {| data := payload; mimeType := "image/png" |}).
Proof.
  intros H. split; [exact (base64ToPart_of_png_url _ _ H)|].
  intros Hc. destruct payload as [|c payload].
  - vm_compute in H. discriminate H.
  - rewrite (base64ToPart_of_frame (String c payload) eq_refl Hc) in H.
    inversion H. reflexivity.
Qed.

Lemma reference_parts_references prev refs :
  prev_ok prev ->
  reference_parts prev = Resolved refs ->
  texts refs = []
  /\ match prev with
     | None => references refs = []
     | Some p =>
         exists part, base64ToPart p = Resolved part /\ references refs = [part]
     end.
Proof.
  unfold reference_parts, prev_ok. destruct prev as [p|].
  - intros Hp. rewrite Hp.
    destruct (base64ToPart p) as [part|e]; intros H; inversion H; subst.
    split; [reflexivity|]. exists part. split; reflexivity.
  - intros _ H. inversion H. split; reflexivity.
Qed.

Lemma image_calls_round onProgress message ps res evs :
  image_calls (progress_event onProgress message
               ++ EvGenerateContent (image_request ps) res :: evs)
  = {| call_parts := ps; call_outcome := res |} :: image_calls evs.
Proof. rewrite image_calls_app, image_calls_event. reflexivity. Qed.

(** The calls of the loop, however it ends, begin a chain. *)
Lemma rounds_step_linked remote ai promptOf messageOf onProgress :
  forall n i st w out w',
    prev_ok (previousFrame st) ->
    rounds n i (step remote ai promptOf messageOf onProgress) st w = (out, w') ->
    exists evs,
      log w' = (log w ++ evs)%list
      /\ linked promptOf i (previousFrame st) (image_calls evs).
Proof.
  induction n as [|n IH]; intros i st w out w' Hprev H.
  - simpl in H. unfold ret in H. inversion H; subst.
    exists []. rewrite app_nil_r. split; [reflexivity|exact I].
  - simpl in H. unfold bind at 1 in H. rewrite step_run in H. cbv zeta in H.
    set (w0 := {| aiInstance := aiInstance w; env_API_KEY := env_API_KEY w;
                  log := (log w ++ progress_event onProgress (messageOf i))%list |}) in *.
    destruct (reference_parts (previousFrame st)) as [refs|e] eqn:Hrefs.
    + destruct (reference_parts_references _ _ Hprev Hrefs) as [Htexts Hreferences].
      assert (Hhead : texts (refs ++ [PartText (promptOf i)]) = [promptOf i]
                      /\ match previousFrame st with
                         | None => references (refs ++ [PartText (promptOf i)]) = []
                         | Some p =>
                             exists part,
                               base64ToPart p = Resolved part
                               /\ references (refs ++ [PartText (promptOf i)]) = [part]
                         end).
      { split; [rewrite texts_app, Htexts; reflexivity|].
        destruct (previousFrame st) as [p|].
        - destruct Hreferences as (part & Hb & Hr). exists part.
          split; [exact Hb|rewrite references_app, Hr; reflexivity].
        - rewrite references_app, Hreferences. reflexivity. }
      destruct Hhead as [Ht Hr].
      pose proof (frame_outcome_produced (promptOf i)
                    (remote (log w0) (image_request (refs ++ [PartText (promptOf i)]))))
        as Hprod.
      destruct (frame_outcome (promptOf i)
                  (remote (log w0) (image_request (refs ++ [PartText (promptOf i)]))))
        as [f|e] eqn:Hout.
      * apply IH in H as (evs & Hlog & Hlinked);
          [|cbn [previousFrame prev_ok]; exact (produced_truthy _ _ Hprod)].
        cbn [previousFrame] in Hlinked.
        exists (progress_event onProgress (messageOf i)
                ++ EvGenerateContent (image_request (refs ++ [PartText (promptOf i)]))
                     (remote (log w0) (image_request (refs ++ [PartText (promptOf i)])))
                :: evs)%list.
        split.
        { rewrite Hlog, log_record. unfold w0. cbn [log].
          rewrite <- !app_assoc. reflexivity. }
        rewrite image_calls_round. cbn [linked call_parts call_outcome].
        split; [exact Ht|]. split; [exact Hr|].
        right. exists f. split; [exact Hprod|exact Hlinked].
      * inversion H; subst out w'; clear H.
        exists (progress_event onProgress (messageOf i)
                ++ EvGenerateContent (image_request (refs ++ [PartText (promptOf i)]))
                     (remote (log w0) (image_request (refs ++ [PartText (promptOf i)])))
                :: [])%list.
        split.
        { rewrite log_record. unfold w0. cbn [log].
          rewrite <- !app_assoc. reflexivity. }
        rewrite image_calls_round. cbn [linked call_parts call_outcome image_calls].
        split; [exact Ht|]. split; [exact Hr|]. left. reflexivity.
    + inversion H; subst out w'; clear H.
      exists (progress_event onProgress (messageOf i)).
      split; [reflexivity|]. rewrite image_calls_event. exact I.
Qed.

(** Any later call of the beginning of a chain: its prompt is the one of
    its index, and its only reference is made of the frame that the call
    before it gave. *)
Lemma linked_link promptOf :
  forall k calls i prev c,
    linked promptOf i prev calls ->
    nth_error calls (S k) = Some c ->
    texts (call_parts c) = [promptOf (i + Z.of_nat (S k))]
    /\ exists cprev f part,
         nth_error calls k = Some cprev
         /\ produced (call_outcome cprev) = Some f
         /\ base64ToPart f = Resolved part
         /\ references (call_parts c) = [part].
Proof.
  induction k as [|k IH]; intros calls i prev c H Hnth.
  - destruct calls as [|c0 [|c1 calls]]; try discriminate Hnth.
    simpl in Hnth. inversion Hnth; subst c1; clear Hnth.
    cbn [linked] in H.
    destruct H as (_ & _ & [Hnil|(f & Hp & Ht & (part & Hb & Hr) & _)]);
      [discriminate Hnil|].
    split; [exact Ht|]. exists c0, f, part. repeat split; assumption.
  - destruct calls as [|c0 calls]; [discriminate Hnth|].
    change (nth_error calls (S k) = Some c) in Hnth.
    cbn [linked] in H. destruct H as (_ & _ & [Hnil|(f & Hp & H)]).
    + subst calls. discriminate Hnth.
    + destruct (IH calls (i + 1) (Some f) c H Hnth)
        as (Ht & cprev & f' & part & H1 & H2 & H3 & H4).
      split; [rewrite Ht; do 2 f_equal; lia|].
      exists cprev, f', part. repeat split; assumption.
Qed.

(** Both orchestrators, however the run ends: the frame-generation calls
    made begin a chain that starts without a reference. *)
Lemma run_linked v remote JSON_parse trim motionPrompt frameCount onProgress
      w out w' :
  1 <= frameCount ->
  generateAnimationFrames_of v remote JSON_parse trim motionPrompt frameCount
    onProgress w = (out, w') ->
  exists evs promptOf i0,
    log w' = (log w ++ evs)%list
    /\ linked promptOf i0 None (image_calls evs)
    /\ match v with
       | StoryboardDriven =>
           i0 = 0
           /\ (image_calls evs = []
               \/ exists storyboard res,
                    Z.of_nat (List.length storyboard) = frameCount
                    /\ promptOf = Storyboard.currentFramePrompt storyboard frameCount
                    /\ In (EvGenerateContent
                             (Storyboard.storyboard_request motionPrompt frameCount) res)
                          evs
                    /\ planned JSON_parse trim res = Some storyboard)
       | InlinePrompt =>
           i0 = 1 /\ promptOf = Inline.currentFramePrompt motionPrompt frameCount
       end.
Proof.
  intros HN H. destruct (client_available w) eqn:Hc.
  2:{ destruct v; simpl in H;
        unfold Storyboard.generateAnimationFrames, Inline.generateAnimationFrames in H;
        rewrite (bind_rejected_first _ _ _ _ _ (getAI_unavailable w Hc)) in H;
        inversion H; subst.
      - exists [], (fun _ => ""), 0. rewrite app_nil_r.
        split; [reflexivity|]. split; [exact I|]. split; [reflexivity|left; reflexivity].
      - exists [], (Inline.currentFramePrompt motionPrompt frameCount), 1.
        rewrite app_nil_r.
        split; [reflexivity|]. split; [exact I|]. split; reflexivity. }
  destruct (getAI_available w Hc) as (ai & w1 & Hai & Hlog1 & _).
  destruct v; simpl in H.
  - unfold Storyboard.generateAnimationFrames in H.
    rewrite (bind_resolved_first _ _ _ _ _ Hai) in H.
    destruct (frameCount <? 1)%Z eqn:Hlt; [apply Z.ltb_lt in Hlt; lia|].
    match type of H with
    | try_catch ?b _ _ = _ =>
        assert (Hb : exists (outb : Outcome (list string)) wb tail,
                   b w1 = (outb, wb)
                   /\ log w' = (log wb ++ tail)%list /\ image_calls tail = [])
    end.
    { apply try_catch_run in H as [(a & Hbody & _)|(e0 & w0 & Hbody & H)].
      - exists (Resolved a), w', []. rewrite app_nil_r.
        split; [exact Hbody|]. split; reflexivity.
      - rewrite rethrow_run in H. inversion H; subst.
        exists (Rejected e0), w0,
          [EvConsoleError "Animation Generation Error:" (LoggedThrown e0)].
        split; [exact Hbody|]. split; [apply log_record|reflexivity]. }
    clear H. destruct Hb as (outb & wb & tail & Hbody & Hfin & Htail).
    rewrite report_then in Hbody.
    apply bind_run in Hbody as [(e & Hsb & _)|(storyboard & w3 & Hsb & Hbody)].
    + apply generateStoryboard_quiet in Hsb as (evs2 & Hlog2 & Himg2).
      cbn [log] in Hlog2.
      exists (progress_event onProgress "Analyzing motion and creating storyboard..."
              ++ evs2 ++ tail)%list, (fun _ => ""), 0.
      split; [rewrite Hfin, Hlog2, Hlog1, <- !app_assoc; reflexivity|].
      assert (Himg : image_calls
                       (progress_event onProgress
                          "Analyzing motion and creating storyboard..."
                        ++ evs2 ++ tail) = [])
        by (rewrite !image_calls_app, image_calls_event, Himg2, Htail; reflexivity).
      rewrite Himg. split; [exact I|]. split; [reflexivity|left; reflexivity].
    + pose proof (generateStoryboard_quiet _ _ _ _ _ _ _ _ _ Hsb)
        as (evs2 & Hlog2 & Himg2).
      apply generateStoryboard_resolved in Hsb
        as (r & text & parsedJson & items & _ & Htext & Hparse & Hget & Hlen & Hdesc
            & Hlogsb).
      rewrite Hlog2 in Hlogsb. apply app_inv_head in Hlogsb.
      pose proof (frameDescriptions_resolved _ _ Hdesc) as [Hlen' _].
      cbn [log] in Hlog2.
      rewrite report_then in Hbody.
      match type of Hbody with
      | bind ?m _ ?W = _ =>
          assert (Hl : exists (outl : Outcome LoopState) wl tail2,
                     m W = (outl, wl)
                     /\ log wb = (log wl ++ tail2)%list /\ image_calls tail2 = [])
      end.
      { apply bind_run in Hbody as [(e & Hloop & _)|(st & w5 & Hloop & Hbody)].
        - exists (Rejected e), wb, []. rewrite app_nil_r.
          split; [exact Hloop|]. split; reflexivity.
        - rewrite report_then in Hbody. unfold ret in Hbody.
          inversion Hbody; subst outb wb.
          exists (Resolved st), w5, (progress_event onProgress "Generation complete!").
          split; [exact Hloop|]. split; [reflexivity|apply image_calls_event]. }
      clear Hbody. destruct Hl as (outl & wl & tail2 & Hloop & Hfin2 & Htail2).
      unfold for_lt in Hloop.
      change (Storyboard.loop_body remote ai storyboard frameCount onProgress)
        with (step remote ai (Storyboard.currentFramePrompt storyboard frameCount)
                   (fun i => "Generating frame " ++ string_of_Z (i + 1) ++ " of "
                             ++ string_of_Z frameCount ++ "...") onProgress) in Hloop.
      apply rounds_step_linked in Hloop as (evs4 & Hlog4 & Hlinked); [|exact I].
      cbn [previousFrame log] in Hlog4, Hlinked.
      exists (progress_event onProgress "Analyzing motion and creating storyboard..."
              ++ evs2
              ++ progress_event onProgress
                   "Storyboard created. Starting frame generation..."
              ++ evs4 ++ tail2 ++ tail)%list,
             (Storyboard.currentFramePrompt storyboard frameCount), 0.
      split; [rewrite Hfin, Hfin2, Hlog4, Hlog2, Hlog1, <- !app_assoc; reflexivity|].
      split.
      { rewrite !image_calls_app, !image_calls_event, Himg2, Htail2, Htail.
        cbn [app]. rewrite app_nil_r. exact Hlinked. }
      split; [reflexivity|]. right. exists storyboard, (RemoteResponse r).
      split; [rewrite Hlen'; exact Hlen|]. split; [reflexivity|]. split.
      * apply in_or_app. right. apply in_or_app. left. rewrite Hlogsb. left. reflexivity.
      * unfold planned. rewrite Htext, Hparse, Hget, Hdesc. reflexivity.
  - unfold Inline.generateAnimationFrames in H.
    rewrite (bind_resolved_first _ _ _ _ _ Hai) in H.
    destruct (frameCount <? 1)%Z eqn:Hlt; [apply Z.ltb_lt in Hlt; lia|].
    match type of H with
    | try_catch ?b _ _ = _ =>
        assert (Hb : exists (outb : Outcome (list string)) wb tail,
                   b w1 = (outb, wb)
                   /\ log w' = (log wb ++ tail)%list /\ image_calls tail = [])
    end.
    { apply try_catch_run in H as [(a & Hbody & _)|(e0 & w0 & Hbody & H)].
      - exists (Resolved a), w', []. rewrite app_nil_r.
        split; [exact Hbody|]. split; reflexivity.
      - rewrite rethrow_run in H. inversion H; subst.
        exists (Rejected e0), w0,
          [EvConsoleError "Animation Generation Error:" (LoggedThrown e0)].
        split; [exact Hbody|]. split; [apply log_record|reflexivity]. }
    clear H. destruct Hb as (outb & wb & tail & Hbody & Hfin & Htail).
    match type of Hbody with
    | bind ?m _ ?W = _ =>
        assert (Hl : exists (outl : Outcome LoopState) wl tail2,
                   m W = (outl, wl)
                   /\ log wb = (log wl ++ tail2)%list /\ image_calls tail2 = [])
    end.
    { apply bind_run in Hbody as [(e & Hloop & _)|(st & w5 & Hloop & Hbody)].
      - exists (Rejected e), wb, []. rewrite app_nil_r.
        split; [exact Hloop|]. split; reflexivity.
      - rewrite report_then in Hbody. unfold ret in Hbody.
        inversion Hbody; subst outb wb.
        exists (Resolved st), w5, (progress_event onProgress "Generation complete!").
        split; [exact Hloop|]. split; [reflexivity|apply image_calls_event]. }
    clear Hbody. destruct Hl as (outl & wl & tail2 & Hloop & Hfin2 & Htail2).
    unfold for_le in Hloop.
    change (Inline.loop_body remote ai motionPrompt frameCount onProgress)
      with (step remote ai (Inline.currentFramePrompt motionPrompt frameCount)
                 (fun i => "Generating frame " ++ string_of_Z i ++ " of "
                           ++ string_of_Z frameCount ++ "...") onProgress) in Hloop.
    apply rounds_step_linked in Hloop as (evs4 & Hlog4 & Hlinked); [|exact I].
    cbn [previousFrame log] in Hlog4, Hlinked.
    exists (evs4 ++ tail2 ++ tail)%list,
           (Inline.currentFramePrompt motionPrompt frameCount), 1.
    split; [rewrite Hfin, Hfin2, Hlog4, Hlog1, <- !app_assoc; reflexivity|].
    split.
    { rewrite !image_calls_app, Htail2, Htail. cbn [app]. rewrite app_nil_r.
      exact Hlinked. }
    split; reflexivity.
Qed.

(** * The claims *)

(** ** C1: a storyboard of the wrong length *)

Lemma occurs_app c a b : occurs c (a ++ b) = occurs c a || occurs c b.
Proof.
  induction a as [|x a IH]; [reflexivity|].
  simpl. rewrite IH. apply orb_assoc.
Qed.

(** A needle whose first character is nowhere in the hay is not found. *)
Lemma includes_first_char_absent c needle hay :
  occurs c hay = false -> includes hay (String c needle) = false.
Proof.
  induction hay as [|x hay IH]; intros H.
  - reflexivity.
  - simpl in H. apply orb_false_elim in H as [Hx Hhay].
    rewrite includes_cons.
    replace (String.prefix (String c needle) (String x hay)) with false.
    + apply IH. exact Hhay.
    + simpl. destruct (ascii_dec c x) as [->|_]; [|reflexivity].
      rewrite Ascii.eqb_refl in Hx. discriminate Hx.
Qed.

Lemma occurs_J_digits u : occurs "J"%char (NilEmpty.string_of_uint u) = false.
Proof. induction u; simpl; try assumption; reflexivity. Qed.

Lemma occurs_J_string_of_Z z : occurs "J"%char (string_of_Z z) = false.
Proof.
  unfold string_of_Z, NilZero.string_of_int, NilZero.string_of_uint.
  destruct (Z.to_int z) as [u|u]; destruct u; simpl;
    try apply occurs_J_digits; reflexivity.
Qed.

(** The message built for a wrong length never holds ["JSON.parse"]. *)
Lemma length_message_not_JSON frameCount n :
  includes
    ("Storyboard generation failed: AI returned an invalid format or wrong number of frames. Expected "
     ++ string_of_Z frameCount ++ ", got " ++ or_none (Some (JNum n)) ++ ".")
    "JSON.parse" = false.
Proof.
  apply includes_first_char_absent.
  rewrite !occurs_app, occurs_J_string_of_Z.
  unfold or_none, js_truthy, js_to_string.
  destruct (negb (n =? 0)%Z); [rewrite occurs_J_string_of_Z|]; reflexivity.
Qed.

(** For every frame count of at least 1: when the planner's answer parses
    to a storyboard array of another length, the error that reaches the
    caller is the same fixed text, whatever the two lengths are. *)
Lemma length_mismatch_message remote JSON_parse trim motionPrompt frameCount
      onProgress w r text parsedJson items :
  1 <= frameCount ->
  client_available w = true ->
  remote (planning_log w onProgress)
         (Storyboard.storyboard_request motionPrompt frameCount) = RemoteResponse r ->
  response_text r = Some text ->
  JSON_parse (trim text) = inr parsedJson ->
  get_property parsedJson "storyboard" = Resolved (Some (JArr items)) ->
  Z.of_nat (List.length items) <> frameCount ->
  fst (Storyboard.generateAnimationFrames remote JSON_parse trim motionPrompt
         frameCount onProgress w)
  = Rejected (JsError "Failed to generate animation: Failed to generate animation storyboard. The planning AI may be experiencing issues.").
Proof.
  intros HN Hc Hremote Htext Hparse Hget Hlen.
  unfold Storyboard.generateAnimationFrames.
  destruct (getAI_available w Hc) as (ai & w1 & Hai & Hlog1 & _).
  rewrite (bind_resolved_first _ _ _ _ _ Hai).
  replace (frameCount <? 1)%Z with false by (symmetry; apply Z.ltb_ge; lia).
  unfold try_catch at 1.
  set (w2 := snd (report onProgress "Analyzing motion and creating storyboard..." w1)).
  assert (Hrep : report onProgress "Analyzing motion and creating storyboard..." w1
                 = (Resolved tt, w2)).
  { unfold w2, report. destruct onProgress; reflexivity. }
  assert (Hlog2 : log w2 = planning_log w onProgress).
  { unfold w2, report, planning_log. rewrite <- Hlog1.
    destruct onProgress; simpl; [reflexivity|rewrite app_nil_r; reflexivity]. }
  rewrite (bind_resolved_first _ _ _ _ _ Hrep).
  assert (Hsb : exists w3,
             Storyboard.generateStoryboard remote JSON_parse trim ai motionPrompt
               frameCount w2
             = (Rejected (JsError "Failed to generate animation storyboard. The planning AI may be experiencing issues."), w3)).
  { unfold Storyboard.generateStoryboard, try_catch, bind at 1, generateContent.
    rewrite Hlog2, Hremote.
    unfold bind at 1. rewrite Htext. unfold ret at 1.
    unfold bind at 1. rewrite Hparse. unfold ret at 1.
    unfold bind at 1, lift at 1. rewrite Hget.
    apply Z.eqb_neq in Hlen. cbn [isArray items_of]. rewrite Hlen.
    cbn [negb orb].
    unfold bind, console_error, lift, get_length, throw.
    rewrite length_message_not_JSON. eexists. reflexivity. }
  destruct Hsb as (w3 & Hsb).
  rewrite (bind_rejected_first _ _ _ _ _ Hsb).
  reflexivity.
Qed.

(** C1 (the code departs from it).  Three frames are requested and the
    planner answers a storyboard of two entries: the run fails, but the
    error thrown to the caller is the fixed text of the [catch] in
    [generateStoryboard]; it holds neither count.  The error naming both
    counts was built and thrown, and only printed by that [catch]. *)
Theorem length_mismatch_error_names_no_count :
  fst (Storyboard.generateAnimationFrames
         (Scenario.service Scenario.two_entries_text) Scenario.parse Scenario.trim
         "A ball bouncing" 3 true Scenario.configured)
  = Rejected (JsError "Failed to generate animation: Failed to generate animation storyboard. The planning AI may be experiencing issues.")
  /\ includes "Failed to generate animation: Failed to generate animation storyboard. The planning AI may be experiencing issues." (string_of_Z 3) = false
  /\ includes "Failed to generate animation: Failed to generate animation storyboard. The planning AI may be experiencing issues." (string_of_nat 2) = false
  /\ In (EvConsoleError "Storyboard Generation Error:"
           (LoggedThrown (JsError "Storyboard generation failed: AI returned an invalid format or wrong number of frames. Expected 3, got 2.")))
        (log (snd (Storyboard.generateAnimationFrames
                     (Scenario.service Scenario.two_entries_text) Scenario.parse
                     Scenario.trim "A ball bouncing" 3 true Scenario.configured))).
Proof.
  split; [vm_compute; reflexivity|].
  split; [vm_compute; reflexivity|].
  split; [vm_compute; reflexivity|].
  vm_compute. do 3 right. left. reflexivity.
Qed.

(** ** C2: the chain of reference images *)

(** C2.  For every frame count N >= 1 and either orchestrator, a resolved
    run made exactly N frame-generation calls; the first attached no
    reference image, and every later one attached exactly one: the frame
    that the call just before it produced, which is the frame of the same
    position in the returned sequence.  The image attached is what
    [base64ToPart] makes of that frame: declared [image/png], and with the
    payload of the frame itself as its data, for a payload without a
    comma (base64 text has none). *)
Theorem reference_chain v remote JSON_parse trim motionPrompt frameCount
        onProgress w frames w' :
  1 <= frameCount ->
  generateAnimationFrames_of v remote JSON_parse trim motionPrompt frameCount
    onProgress w = (Resolved frames, w') ->
  exists evs,
    log w' = (log w ++ evs)%list
    /\ List.length (image_calls evs) = Z.to_nat frameCount
    /\ (forall c, nth_error (image_calls evs) 0 = Some c ->
                  references (call_parts c) = [])
    /\ (forall k c,
           nth_error (image_calls evs) (S k) = Some c ->
           exists cprev payload part,
             nth_error (image_calls evs) k = Some cprev
             /\ produced (call_outcome cprev) = Some ("data:image/png;base64," ++ payload)
             /\ nth_error frames k = Some ("data:image/png;base64," ++ payload)
             /\ base64ToPart ("data:image/png;base64," ++ payload) = Resolved part
             /\ references (call_parts c) = [part]
             /\ mimeType part = "image/png"
             /\ (occurs ","%char payload = false ->
                 part = {| data := payload; mimeType := "image/png" |})).
Proof.
  intros HN Hrun.
  apply run_resolved in Hrun as (evs & promptOf & i0 & Hlog & Hlen & Hchain & _);
    [|exact HN].
  exists evs. split; [exact Hlog|].
  split; [rewrite (chained_length _ _ _ _ _ Hchain); exact Hlen|].
  split.
  - intros c Hc. destruct (image_calls evs) as [|c0 calls]; [discriminate Hc|].
    simpl in Hc. inversion Hc; subst c0.
    apply chained_head in Hchain as (_ & Hrefs & _). exact Hrefs.
  - intros k c Hc.
    destruct (chained_link _ _ _ _ _ _ _ Hchain Hc)
      as (_ & cprev & f & part & H1 & H2 & H3 & H4 & H5).
    destruct (produced_png _ _ H2) as (payload & ->).
    destruct (reference_of_frame _ _ H4) as [Hmime Hdata].
    exists cprev, payload, part.
    split; [exact H1|]. split; [exact H2|]. split; [exact H3|].
    split; [exact H4|]. split; [exact H5|]. split; [exact Hmime|exact Hdata].
Qed.

Lemma reference_chain_witness :
  exists evs,
    log (snd (generateAnimationFrames_of StoryboardDriven
                (Scenario.service Scenario.two_entries_text) Scenario.parse
                Scenario.trim "A ball bouncing" 2 true Scenario.configured))
    = (log Scenario.configured ++ evs)%list
    /\ List.length (image_calls evs) = Z.to_nat 2
    /\ (forall c, nth_error (image_calls evs) 0 = Some c ->
                  references (call_parts c) = [])
    /\ (forall k c,
           nth_error (image_calls evs) (S k) = Some c ->
           exists cprev payload part,
             nth_error (image_calls evs) k = Some cprev
             /\ produced (call_outcome cprev) = Some ("data:image/png;base64," ++ payload)
             /\ nth_error ["data:image/png;base64,iVBORw0KGgo0";
                           "data:image/png;base64,iVBORw0KGgo1"] k
                = Some ("data:image/png;base64," ++ payload)
             /\ base64ToPart ("data:image/png;base64," ++ payload) = Resolved part
             /\ references (call_parts c) = [part]
             /\ mimeType part = "image/png"
             /\ (occurs ","%char payload = false ->
                 part = {| data := payload; mimeType := "image/png" |})).
Proof.
  apply (reference_chain StoryboardDriven
           (Scenario.service Scenario.two_entries_text) Scenario.parse
           Scenario.trim "A ball bouncing" 2 true Scenario.configured).
  - lia.
  - vm_compute. reflexivity.
Defined.

(** ** C3: the length of the frame sequence *)

(** C3.  For every frame count N >= 1 and either orchestrator,
    [generateAnimationFrames] either resolves with a list of exactly N
    frames or rejects with an error: it never resolves with a shorter or a
    longer list. *)
Theorem frame_sequence_length v remote JSON_parse trim motionPrompt frameCount
        onProgress w :
  1 <= frameCount ->
  (exists frames w',
      generateAnimationFrames_of v remote JSON_parse trim motionPrompt frameCount
        onProgress w = (Resolved frames, w')
      /\ Z.of_nat (List.length frames) = frameCount)
  \/ (exists e w',
         generateAnimationFrames_of v remote JSON_parse trim motionPrompt frameCount
           onProgress w = (Rejected e, w')).
Proof.
  intros HN.
  destruct (generateAnimationFrames_of v remote JSON_parse trim motionPrompt
              frameCount onProgress w) as [[frames|e] w'] eqn:Hrun.
  - left. exists frames, w'. split; [reflexivity|].
    apply run_resolved in Hrun as (evs & promptOf & i0 & _ & Hlen & _); [|exact HN].
    rewrite Hlen. lia.
  - right. exists e, w'. reflexivity.
Qed.

Lemma frame_sequence_length_witness :
  (exists frames w',
      generateAnimationFrames_of InlinePrompt
        (Scenario.service Scenario.two_entries_text) Scenario.parse Scenario.trim
        "A ball bouncing" 3 true Scenario.configured = (Resolved frames, w')
      /\ Z.of_nat (List.length frames) = 3)
  \/ (exists e w',
         generateAnimationFrames_of InlinePrompt
           (Scenario.service Scenario.two_entries_text) Scenario.parse Scenario.trim
           "A ball bouncing" 3 true Scenario.configured = (Rejected e, w')).
Proof.
  apply (frame_sequence_length InlinePrompt
           (Scenario.service Scenario.two_entries_text) Scenario.parse Scenario.trim
           "A ball bouncing" 3 true Scenario.configured).
  lia.
Defined.

(** ** C4: the prompt of the last frame *)

(** C4, as stated, fails on the storyboard-driven orchestrator: with two
    frames, the prompt of the last frame is the template of every later
    frame around the storyboard's description, and tells nothing about
    concluding the motion. *)
Lemma last_frame_conclusion_counterexample :
  exists frames w' c prompt,
    generateAnimationFrames_of StoryboardDriven
      (Scenario.service Scenario.two_entries_text) Scenario.parse Scenario.trim
      "A ball bouncing" 2 true Scenario.configured = (Resolved frames, w')
    /\ nth_error (image_calls (log w')) (Z.to_nat (2 - 1)) = Some c
    /\ texts (call_parts c) = [prompt]
    /\ instructs_conclusion prompt = false.
Proof.
  eexists _, _, _, _.
  split; [vm_compute; reflexivity|].
  split; [vm_compute; reflexivity|].
  split; [vm_compute; reflexivity|].
  vm_compute. reflexivity.
Qed.

Lemma final_prompt_concludes motionPrompt frameCount :
  1 < frameCount ->
  instructs_conclusion (Inline.currentFramePrompt motionPrompt frameCount frameCount)
  = true.
Proof.
  intros HN. unfold Inline.currentFramePrompt.
  replace (frameCount =? 1)%Z with false by (symmetry; apply Z.eqb_neq; lia).
  rewrite Z.eqb_refl.
  replace (1 <? frameCount)%Z with true by (symmetry; apply Z.ltb_lt; lia).
  cbn [andb]. unfold instructs_conclusion.
  apply andb_true_intro. split; do 7 apply includes_app_r; vm_compute; reflexivity.
Qed.

Lemma storyboard_last_prompt storyboard frameCount :
  1 < frameCount ->
  Storyboard.currentFramePrompt storyboard frameCount (frameCount - 1)
  = Storyboard.styleInstruction ++ " This is frame " ++ string_of_Z frameCount
    ++ " of a " ++ string_of_Z frameCount
    ++ "-frame animation. Using the provided image as the immediate previous frame, generate the very next logical step in the action. The precise instruction for this frame is: "
    ++ dq ++ Storyboard.storyboard_at storyboard (frameCount - 1) ++ dq
    ++ ". Ensure the transition is smooth and physically plausible.".
Proof.
  intros HN. unfold Storyboard.currentFramePrompt.
  replace (frameCount - 1 =? 0)%Z with false by (symmetry; apply Z.eqb_neq; lia).
  replace (frameCount - 1 + 1) with frameCount by lia.
  reflexivity.
Qed.

(** C4, amended.  For every frame count N > 1 and however the run ends:
    the call for frame N, once it is made (a resolved run has made it),
    attached as its one reference the frame produced by the call before
    it: declared [image/png], and with that frame's own payload as its
    data, for a payload without a comma.  In the inline-prompt
    orchestrator the prompt of that call tells the model to conclude the
    motion, fully settled; in the storyboard-driven orchestrator it is the
    template of every later frame around the storyboard's description for
    frame N. *)
Theorem last_frame_prompt v remote JSON_parse trim motionPrompt frameCount
        onProgress w out w' :
  1 < frameCount ->
  generateAnimationFrames_of v remote JSON_parse trim motionPrompt frameCount
    onProgress w = (out, w') ->
  exists evs,
    log w' = (log w ++ evs)%list
    /\ (forall frames,
           out = Resolved frames ->
           exists c, nth_error (image_calls evs) (Z.to_nat (frameCount - 1)) = Some c)
    /\ forall c,
         nth_error (image_calls evs) (Z.to_nat (frameCount - 1)) = Some c ->
         exists cprev payload part prompt,
           nth_error (image_calls evs) (Z.to_nat (frameCount - 2)) = Some cprev
           /\ produced (call_outcome cprev) = Some ("data:image/png;base64," ++ payload)
           /\ (forall frames,
                  out = Resolved frames ->
                  nth_error frames (Z.to_nat (frameCount - 2))
                  = Some ("data:image/png;base64," ++ payload))
           /\ base64ToPart ("data:image/png;base64," ++ payload) = Resolved part
           /\ references (call_parts c) = [part]
           /\ mimeType part = "image/png"
           /\ (occurs ","%char payload = false ->
               part = {| data := payload; mimeType := "image/png" |})
           /\ texts (call_parts c) = [prompt]
           /\ match v with
              | InlinePrompt => instructs_conclusion prompt = true
              | StoryboardDriven =>
                  exists res storyboard description,
                    In (EvGenerateContent
                          (Storyboard.storyboard_request motionPrompt frameCount) res) evs
                    /\ planned JSON_parse trim res = Some storyboard
                    /\ nth_error storyboard (Z.to_nat (frameCount - 1)) = Some description
                    /\ prompt
                       = Storyboard.styleInstruction ++ " This is frame "
                         ++ string_of_Z frameCount ++ " of a " ++ string_of_Z frameCount
                         ++ "-frame animation. Using the provided image as the immediate previous frame, generate the very next logical step in the action. The precise instruction for this frame is: "
                         ++ dq ++ description ++ dq
                         ++ ". Ensure the transition is smooth and physically plausible."
              end.
Proof.
  intros HN Hrun.
  destruct (run_linked _ _ _ _ _ _ _ _ _ _ (Z.lt_le_incl _ _ HN) Hrun)
    as (evs & promptOf & i0 & Hlog & Hlinked & Hv).
  assert (Hres : forall frames,
             out = Resolved frames ->
             exists P i, chained P i None (image_calls evs) frames
                         /\ List.length frames = Z.to_nat frameCount).
  { intros frames ->.
    apply run_resolved in Hrun as (evs' & P & i & Hlog' & Hlen & Hchain & _); [|lia].
    rewrite Hlog in Hlog'. apply app_inv_head in Hlog'. subst evs'.
    exists P, i. split; assumption. }
  assert (Hk : Z.to_nat (frameCount - 1) = S (Z.to_nat (frameCount - 2))) by lia.
  exists evs. split; [exact Hlog|]. split.
  - intros frames Hout. destruct (Hres frames Hout) as (P & i & Hchain & Hlen).
    pose proof (chained_length _ _ _ _ _ Hchain) as Hcalls.
    destruct (nth_error (image_calls evs) (Z.to_nat (frameCount - 1))) as [c|] eqn:Hc.
    + exists c. reflexivity.
    + apply nth_error_None in Hc. lia.
  - intros c Hc. pose proof Hc as Hc'. rewrite Hk in Hc'.
    destruct (linked_link _ _ _ _ _ _ Hlinked Hc')
      as (Ht & cprev & f & part & H1 & H2 & H4 & H5).
    destruct (produced_png _ _ H2) as (payload & ->).
    destruct (reference_of_frame _ _ H4) as [Hmime Hdata].
    exists cprev, payload, part,
      (promptOf (i0 + Z.of_nat (S (Z.to_nat (frameCount - 2))))).
    split; [exact H1|]. split; [exact H2|]. split.
    { intros frames Hout. destruct (Hres frames Hout) as (P & i & Hchain & _).
      destruct (chained_link _ _ _ _ _ _ _ Hchain Hc')
        as (_ & cprev' & f' & part' & G1 & G2 & G3 & _).
      rewrite H1 in G1. inversion G1; subst cprev'.
      rewrite H2 in G2. inversion G2; subst f'. exact G3. }
    split; [exact H4|]. split; [exact H5|]. split; [exact Hmime|].
    split; [exact Hdata|]. split; [exact Ht|].
    destruct v.
    + destruct Hv as (-> & [Hnil|(storyboard & res & Hsb & -> & Hin & Hplanned)]).
      * rewrite Hnil in Hc'. discriminate Hc'.
      * replace (0 + Z.of_nat (S (Z.to_nat (frameCount - 2)))) with (frameCount - 1)
          by lia.
        destruct (nth_error storyboard (Z.to_nat (frameCount - 1)))
          as [description|] eqn:Hd.
        2:{ apply nth_error_None in Hd. lia. }
        exists res, storyboard, description.
        split; [exact Hin|]. split; [exact Hplanned|]. split; [exact Hd|].
        rewrite storyboard_last_prompt by exact HN.
        unfold Storyboard.storyboard_at. rewrite Hd. reflexivity.
    + destruct Hv as (-> & ->).
      replace (1 + Z.of_nat (S (Z.to_nat (frameCount - 2)))) with frameCount by lia.
      apply final_prompt_concludes. exact HN.
Qed.

Lemma last_frame_prompt_witness :
  exists evs,
    log (snd (generateAnimationFrames_of InlinePrompt
                (Scenario.service Scenario.two_entries_text) Scenario.parse
                Scenario.trim "A ball bouncing" 3 false Scenario.configured))
    = (log Scenario.configured ++ evs)%list
    /\ (forall frames,
           Resolved ["data:image/png;base64,iVBORw0KGgo0";
                     "data:image/png;base64,iVBORw0KGgo1";
                     "data:image/png;base64,iVBORw0KGgo2"] = Resolved frames ->
           exists c, nth_error (image_calls evs) (Z.to_nat (3 - 1)) = Some c)
    /\ forall c,
         nth_error (image_calls evs) (Z.to_nat (3 - 1)) = Some c ->
         exists cprev payload part prompt,
           nth_error (image_calls evs) (Z.to_nat (3 - 2)) = Some cprev
           /\ produced (call_outcome cprev) = Some ("data:image/png;base64," ++ payload)
           /\ (forall frames,
                  Resolved ["data:image/png;base64,iVBORw0KGgo0";
                            "data:image/png;base64,iVBORw0KGgo1";
                            "data:image/png;base64,iVBORw0KGgo2"] = Resolved frames ->
                  nth_error frames (Z.to_nat (3 - 2))
                  = Some ("data:image/png;base64," ++ payload))
           /\ base64ToPart ("data:image/png;base64," ++ payload) = Resolved part
           /\ references (call_parts c) = [part]
           /\ mimeType part = "image/png"
           /\ (occurs ","%char payload = false ->
               part = {| data := payload; mimeType := "image/png" |})
           /\ texts (call_parts c) = [prompt]
           /\ instructs_conclusion prompt = true.
Proof.
  apply (last_frame_prompt InlinePrompt
           (Scenario.service Scenario.two_entries_text) Scenario.parse
           Scenario.trim "A ball bouncing" 3 false Scenario.configured).
  - lia.
  - vm_compute. reflexivity.
Defined.

(** ** C5 and C10: frame counts below 1 *)

Lemma run_below_one v remote JSON_parse trim motionPrompt frameCount onProgress w :
  frameCount < 1 ->
  generateAnimationFrames_of v remote JSON_parse trim motionPrompt frameCount
    onProgress w
  = bind getAI (fun _ => ret []) w.
Proof.
  intros HN. apply Z.ltb_lt in HN.
  destruct v; simpl;
    unfold Storyboard.generateAnimationFrames, Inline.generateAnimationFrames;
    rewrite HN; reflexivity.
Qed.

(** C5, as stated, fails where no client can be resolved: with frame
    count 0 and no credential the call rejects instead of returning the
    empty sequence. *)
Lemma zero_frames_unconfigured_counterexample :
  generateAnimationFrames_of StoryboardDriven
    (Scenario.service Scenario.two_entries_text) Scenario.parse Scenario.trim
    "A ball bouncing" 0 true Scenario.unconfigured
  = (Rejected (JsError "API key is not configured. Please set the API_KEY environment variable."),
     Scenario.unconfigured)
  /\ fst (generateAnimationFrames_of StoryboardDriven
            (Scenario.service Scenario.two_entries_text) Scenario.parse Scenario.trim
            "A ball bouncing" 0 true Scenario.unconfigured)
     <> Resolved [].
Proof.
  split; [vm_compute; reflexivity|].
  vm_compute. discriminate.
Qed.

(** C5, amended.  For every frame count below 1 and either orchestrator,
    [generateAnimationFrames] makes no remote call and leaves the
    transcript as it was; it returns the empty sequence whenever the
    client can be resolved (it exists already, or the credential is set). *)
Theorem empty_run v remote JSON_parse trim motionPrompt frameCount onProgress w :
  frameCount < 1 ->
  log (snd (generateAnimationFrames_of v remote JSON_parse trim motionPrompt
              frameCount onProgress w)) = log w
  /\ (client_available w = true ->
      fst (generateAnimationFrames_of v remote JSON_parse trim motionPrompt
             frameCount onProgress w) = Resolved []).
Proof.
  intros HN. rewrite run_below_one by exact HN.
  destruct (client_available w) eqn:Hc.
  - destruct (getAI_available w Hc) as (ai & w1 & Hai & Hlog & _).
    rewrite (bind_resolved_first _ _ _ _ _ Hai). unfold ret. simpl.
    split; [exact Hlog|reflexivity].
  - rewrite (bind_rejected_first _ _ _ _ _ (getAI_unavailable w Hc)). simpl.
    split; [reflexivity|discriminate].
Qed.

Lemma empty_run_witness :
  log (snd (generateAnimationFrames_of InlinePrompt
              (Scenario.service Scenario.two_entries_text) Scenario.parse
              Scenario.trim "A ball bouncing" 0 true Scenario.configured))
  = log Scenario.configured
  /\ (client_available Scenario.configured = true ->
      fst (generateAnimationFrames_of InlinePrompt
             (Scenario.service Scenario.two_entries_text) Scenario.parse
             Scenario.trim "A ball bouncing" 0 true Scenario.configured)
      = Resolved []).
Proof.
  apply (empty_run InlinePrompt
           (Scenario.service Scenario.two_entries_text) Scenario.parse
           Scenario.trim "A ball bouncing" 0 true Scenario.configured).
  lia.
Defined.

(** C10.  Either orchestrator resolves the client before it looks at the
    frame count: where no client was initialised and the credential is
    absent, a call with a frame count below 1 throws the configuration
    error, not wrapped and with nothing done, instead of returning the
    empty sequence. *)
Theorem missing_credential_precedes_frame_count v remote JSON_parse trim
        motionPrompt frameCount onProgress w :
  frameCount < 1 ->
  aiInstance w = None ->
  env_API_KEY w = None ->
  generateAnimationFrames_of v remote JSON_parse trim motionPrompt frameCount
    onProgress w
  = (Rejected (JsError "API key is not configured. Please set the API_KEY environment variable."),
     w).
Proof.
  intros HN Hai Hkey. rewrite run_below_one by exact HN.
  apply bind_rejected_first. apply getAI_unavailable.
  unfold client_available. rewrite Hai, Hkey. reflexivity.
Qed.

Lemma missing_credential_precedes_frame_count_witness :
  generateAnimationFrames_of InlinePrompt
    (Scenario.service Scenario.two_entries_text) Scenario.parse Scenario.trim
    "A ball bouncing" 0 false Scenario.unconfigured
  = (Rejected (JsError "API key is not configured. Please set the API_KEY environment variable."),
     Scenario.unconfigured).
Proof.
  apply (missing_credential_precedes_frame_count InlinePrompt
           (Scenario.service Scenario.two_entries_text) Scenario.parse
           Scenario.trim "A ball bouncing" 0 false Scenario.unconfigured).
  - lia.
  - reflexivity.
  - reflexivity.
Defined.

(** ** C6: a bad storyboard entry *)

(** C6.  In the storyboard-driven orchestrator, for a frame count of at
    least 1: if the planner's answer parses to a storyboard one of whose
    entries has a description that is missing, empty or not a string, the
    run rejects, and its transcript holds no frame-generation call. *)
Theorem bad_description_fails_before_generation remote JSON_parse trim
        motionPrompt frameCount onProgress w r text parsedJson items :
  1 <= frameCount ->
  remote (planning_log w onProgress)
         (Storyboard.storyboard_request motionPrompt frameCount) = RemoteResponse r ->
  response_text r = Some text ->
  JSON_parse (trim text) = inr parsedJson ->
  get_property parsedJson "storyboard" = Resolved (Some (JArr items)) ->
  Exists (fun frame => bad_description frame = true) items ->
  exists e w' evs,
    Storyboard.generateAnimationFrames remote JSON_parse trim motionPrompt
      frameCount onProgress w = (Rejected e, w')
    /\ log w' = (log w ++ evs)%list
    /\ image_calls evs = [].
Proof.
  intros HN Hremote Htext Hparse Hget Hbad.
  unfold Storyboard.generateAnimationFrames.
  destruct (client_available w) eqn:Hc.
  2:{ rewrite (bind_rejected_first _ _ _ _ _ (getAI_unavailable w Hc)).
      eexists _, w, []. rewrite app_nil_r. repeat split. }
  destruct (getAI_available w Hc) as (ai & w1 & Hai & Hlog1 & _).
  rewrite (bind_resolved_first _ _ _ _ _ Hai).
  replace (frameCount <? 1)%Z with false by (symmetry; apply Z.ltb_ge; lia).
  unfold try_catch.
  set (w2 := snd (report onProgress "Analyzing motion and creating storyboard..." w1)).
  assert (Hrep : report onProgress "Analyzing motion and creating storyboard..." w1
                 = (Resolved tt, w2)).
  { unfold w2, report. destruct onProgress; reflexivity. }
  assert (Hlog2 : log w2 = planning_log w onProgress).
  { unfold w2, report, planning_log. rewrite <- Hlog1.
    destruct onProgress; simpl; [reflexivity|rewrite app_nil_r; reflexivity]. }
  rewrite (bind_resolved_first _ _ _ _ _ Hrep).
  destruct (Storyboard.generateStoryboard remote JSON_parse trim ai motionPrompt
              frameCount w2) as [[storyboard|e0] w3] eqn:Hsb.
  - exfalso.
    apply generateStoryboard_resolved in Hsb
      as (r' & text' & parsedJson' & items' & Hr' & Ht' & Hp' & Hg' & _ & Hdesc & _).
    rewrite Hlog2, Hremote in Hr'. inversion Hr'; subst r'.
    rewrite Htext in Ht'. inversion Ht'; subst text'.
    rewrite Hparse in Hp'. inversion Hp'; subst parsedJson'.
    rewrite Hget in Hg'. inversion Hg'; subst items'.
    apply frameDescriptions_resolved in Hdesc as [_ Hgood].
    apply Exists_exists in Hbad as (frame & Hin & Hframe).
    rewrite Forall_forall in Hgood. rewrite (Hgood frame Hin) in Hframe.
    discriminate Hframe.
  - pose proof (generateStoryboard_quiet _ _ _ _ _ _ _ _ _ Hsb) as (evs & Hlog3 & Himg).
    rewrite (bind_rejected_first _ _ _ _ _ Hsb).
    unfold bind, console_error, throw.
    exists (match e0 with
            | JsError message => JsError ("Failed to generate animation: " ++ message)
            | JsNonError _ => JsError "An unknown error occurred while generating the animation."
            end),
           (record (EvConsoleError "Animation Generation Error:" (LoggedThrown e0)) w3),
           ((if onProgress
             then [EvProgress "Analyzing motion and creating storyboard..."]
             else []) ++ evs ++ [EvConsoleError "Animation Generation Error:" (LoggedThrown e0)])%list.
    split; [destruct e0; reflexivity|].
    split.
    + rewrite log_record, Hlog3, Hlog2. unfold planning_log.
      rewrite <- !app_assoc. reflexivity.
    + rewrite !image_calls_app, Himg. destruct onProgress; reflexivity.
Qed.

Lemma bad_description_fails_before_generation_witness :
  exists e w' evs,
    Storyboard.generateAnimationFrames
      (Scenario.service Scenario.empty_description_text) Scenario.parse
      Scenario.trim "A ball bouncing" 2 true Scenario.configured = (Rejected e, w')
    /\ log w' = (log Scenario.configured ++ evs)%list
    /\ image_calls evs = [].
Proof.
  apply (bad_description_fails_before_generation
           (Scenario.service Scenario.empty_description_text) Scenario.parse
           Scenario.trim "A ball bouncing" 2 true Scenario.configured
           {| response_text := Some Scenario.empty_description_text;
              candidate_parts := None |}
           Scenario.empty_description_text Scenario.empty_description
           [Scenario.entry "n1" "ball at the top"; Scenario.entry "n2" ""]).
  - lia.
  - reflexivity.
  - reflexivity.
  - vm_compute. reflexivity.
  - reflexivity.
  - apply Exists_cons_tl. apply Exists_cons_hd. reflexivity.
Defined.

(** ** C7: what [generateFrame] makes of an answer *)

Lemma first_inline_found before part after d :
  Forall (fun p => part_inlineData p = None) before ->
  part_inlineData part = Some d ->
  first_inline (before ++ part :: after) = Some d.
Proof.
  intros Hbefore Hpart. induction Hbefore as [|p before Hp _ IH]; simpl.
  - rewrite Hpart. reflexivity.
  - rewrite Hp. exact IH.
Qed.

Lemma first_inline_none parts :
  Forall (fun p => part_inlineData p = None) parts -> first_inline parts = None.
Proof.
  intros H. induction H as [|p parts Hp _ IH]; simpl; [reflexivity|].
  rewrite Hp. exact IH.
Qed.

(** Every way [generateFrame] can go: it throws on the reference before
    any call, or it makes one call and ends as the answer decides. *)
Lemma generateFrame_cases remote ai prompt referenceFrameB64 w :
  (exists e, generateFrame remote ai prompt referenceFrameB64 w = (Rejected e, w))
  \/ (exists ps,
         generateFrame remote ai prompt referenceFrameB64 w
         = (match remote (log w) {| model := "gemini-2.5-flash-image";
                                    contents := ContentParts ps;
                                    config := ImageOnly |} with
            | RemoteReject e => Rejected e
            | RemoteResponse r =>
                match candidate_parts r with
                | None => Rejected (JsError TypeError_message)
                | Some parts =>
                    match first_inline parts with
                    | Some d => Resolved ("data:image/png;base64," ++ data d)
                    | None => Rejected (JsError ("Image generation failed for prompt: "
                                                 ++ dq ++ prompt ++ dq))
                    end
                end
            end,
            record (EvGenerateContent
                      {| model := "gemini-2.5-flash-image";
                         contents := ContentParts ps;
                         config := ImageOnly |}
                      (remote (log w) {| model := "gemini-2.5-flash-image";
                                         contents := ContentParts ps;
                                         config := ImageOnly |})) w)).
Proof.
  unfold generateFrame.
  assert (Hcall : forall ps,
             bind (ret ps)
                  (fun parts =>
                     let parts := (parts ++ [PartText prompt])%list in
                     response <- generateContent remote ai
                                   {| model := "gemini-2.5-flash-image";
                                      contents := ContentParts parts;
                                      config := ImageOnly |} ;;
                     match candidate_parts response with
                     | None => throw (JsError TypeError_message)
                     | Some ps =>
                         match first_inline ps with
                         | Some d => ret ("data:image/png;base64," ++ data d)
                         | None => throw (JsError ("Image generation failed for prompt: "
                                                   ++ dq ++ prompt ++ dq))
                         end
                     end) w
             = (match remote (log w) {| model := "gemini-2.5-flash-image";
                                        contents := ContentParts (ps ++ [PartText prompt]);
                                        config := ImageOnly |} with
                | RemoteReject e => Rejected e
                | RemoteResponse r =>
                    match candidate_parts r with
                    | None => Rejected (JsError TypeError_message)
                    | Some parts =>
                        match first_inline parts with
                        | Some d => Resolved ("data:image/png;base64," ++ data d)
                        | None => Rejected (JsError ("Image generation failed for prompt: "
                                                     ++ dq ++ prompt ++ dq))
                        end
                    end
                end,
                record (EvGenerateContent
                          {| model := "gemini-2.5-flash-image";
                             contents := ContentParts (ps ++ [PartText prompt]);
                             config := ImageOnly |}
                          (remote (log w) {| model := "gemini-2.5-flash-image";
                                             contents := ContentParts (ps ++ [PartText prompt]);
                                             config := ImageOnly |})) w)).
  { intros ps. unfold bind, ret, generateContent, throw.
    destruct (remote (log w) _) as [e|r]; [reflexivity|].
    destruct (candidate_parts r) as [parts|]; [|reflexivity].
    destruct (first_inline parts); reflexivity. }
  destruct referenceFrameB64 as [ref|].
  - destruct (truthy ref).
    + destruct (base64ToPart ref) as [part|e] eqn:Hpart.
      * right. exists ([PartInline part] ++ [PartText prompt])%list.
        rewrite <- Hcall. unfold bind at 1 3. unfold bind at 1, lift, ret at 1.
        reflexivity.
      * left. exists e. unfold bind at 1. unfold bind at 1, lift. reflexivity.
    + right. exists ([] ++ [PartText prompt])%list. apply Hcall.
  - right. exists ([] ++ [PartText prompt])%list. apply Hcall.
Qed.

(** C7, as stated, fails on an answer that carries no candidate (a
    blocked request): the loop over the parts of the answer is never
    entered, and what [generateFrame] throws is the engine's [TypeError],
    one and the same error whatever the prompt.  It is not the error that
    quotes the prompt, and it tells no frame from another. *)
Lemma answer_without_parts_counterexample :
  ("frame 1" <> "frame 2")
  /\ fst (generateFrame (Cases.answering_service "I cannot draw that.")
            Scenario.client "frame 1" None Scenario.configured)
     = fst (generateFrame (Cases.answering_service "I cannot draw that.")
              Scenario.client "frame 2" None Scenario.configured)
  /\ (exists e,
         fst (generateFrame (Cases.answering_service "I cannot draw that.")
                Scenario.client "frame 1" None Scenario.configured) = Rejected e)
  /\ ~ (forall prompt,
           fst (generateFrame (Cases.answering_service "I cannot draw that.")
                  Scenario.client prompt None Scenario.configured)
           = Rejected (JsError ("Image generation failed for prompt: "
                                ++ dq ++ prompt ++ dq))).
Proof.
  split; [discriminate|]. split; [reflexivity|].
  split; [eexists; reflexivity|].
  intros H. pose proof (H "frame 1") as H1. pose proof (H "frame 2") as H2.
  change (fst (generateFrame (Cases.answering_service "I cannot draw that.")
                 Scenario.client "frame 2" None Scenario.configured))
    with (fst (generateFrame (Cases.answering_service "I cannot draw that.")
                 Scenario.client "frame 1" None Scenario.configured)) in H2.
  rewrite H1 in H2. discriminate H2.
Qed.

(** An answer without [candidates[0].content.parts] makes the loop header
    throw a [TypeError]. *)
Lemma generateFrame_without_parts remote ai prompt w r :
  (forall evs req, remote evs req = RemoteResponse r) ->
  candidate_parts r = None ->
  fst (generateFrame remote ai prompt None w) = Rejected (JsError TypeError_message).
Proof.
  intros Hremote Hparts. unfold generateFrame, bind, ret, generateContent, throw.
  rewrite Hremote, Hparts. reflexivity.
Qed.

(** C7, amended.  Whenever [generateFrame] has made its call and the
    answer holds a list of parts: the result is the data of the first part
    that has inline data, behind ["data:image/png;base64,"]; and if no
    part has inline data, it throws an error whose message quotes the
    prompt of the failed call (the prompt states which frame it is
    for). *)
Theorem generateFrame_outcome remote ai prompt referenceFrameB64 w out w' req r parts :
  generateFrame remote ai prompt referenceFrameB64 w = (out, w') ->
  log w' = (log w ++ [EvGenerateContent req (RemoteResponse r)])%list ->
  candidate_parts r = Some parts ->
  (forall before part after d,
      parts = (before ++ part :: after)%list ->
      Forall (fun p => part_inlineData p = None) before ->
      part_inlineData part = Some d ->
      out = Resolved ("data:image/png;base64," ++ data d))
  /\ (Forall (fun p => part_inlineData p = None) parts ->
      out = Rejected (JsError ("Image generation failed for prompt: "
                               ++ dq ++ prompt ++ dq))).
Proof.
  intros Hrun Hlog Hparts.
  destruct (generateFrame_cases remote ai prompt referenceFrameB64 w)
    as [(e & Hcase)|(ps & Hcase)]; rewrite Hcase in Hrun.
  - inversion Hrun; subst out w'.
    rewrite <- (app_nil_r (log w)) in Hlog at 1.
    apply app_inv_head in Hlog. discriminate Hlog.
  - inversion Hrun as [[Hout Hw]]. subst w'. rewrite log_record in Hlog.
    apply app_inv_head in Hlog. inversion Hlog as [[Hreq Hres]].
    rewrite Hres, Hparts. split.
    + intros before part after d -> Hbefore Hpart.
      rewrite (first_inline_found _ _ _ _ Hbefore Hpart). reflexivity.
    + intros Hnone. rewrite (first_inline_none _ Hnone). reflexivity.
Qed.

Lemma generateFrame_outcome_witness :
  fst (generateFrame (Scenario.service Scenario.two_entries_text) Scenario.client
         "frame 1" None Scenario.configured)
  = Resolved ("data:image/png;base64," ++ "iVBORw0KGgo0")
  /\ fst (generateFrame Scenario.text_only_service Scenario.client "frame 1" None
            Scenario.configured)
     = Rejected (JsError ("Image generation failed for prompt: "
                          ++ dq ++ "frame 1" ++ dq)).
Proof.
  split.
  - refine (proj1 (generateFrame_outcome
                     (Scenario.service Scenario.two_entries_text) Scenario.client
                     "frame 1" None Scenario.configured
                     (fst (generateFrame (Scenario.service Scenario.two_entries_text)
                             Scenario.client "frame 1" None Scenario.configured))
                     (snd (generateFrame (Scenario.service Scenario.two_entries_text)
                             Scenario.client "frame 1" None Scenario.configured))
                     {| model := "gemini-2.5-flash-image";
                        contents := ContentParts [PartText "frame 1"];
                        config := ImageOnly |}
                     {| response_text := None;
                        candidate_parts :=
                          Some [ {| part_inlineData := None;
                                    part_text := Some "here it is" |};
                                 {| part_inlineData :=
                                      Some {| data := "iVBORw0KGgo0";
                                              mimeType := "image/jpeg" |};
                                    part_text := None |} ] |}
                     [ {| part_inlineData := None; part_text := Some "here it is" |};
                       {| part_inlineData :=
                            Some {| data := "iVBORw0KGgo0"; mimeType := "image/jpeg" |};
                          part_text := None |} ]
                     _ _ _)
                  [ {| part_inlineData := None; part_text := Some "here it is" |} ]
                  {| part_inlineData :=
                       Some {| data := "iVBORw0KGgo0"; mimeType := "image/jpeg" |};
                     part_text := None |}
                  []
                  {| data := "iVBORw0KGgo0"; mimeType := "image/jpeg" |}
                  _ _ _).
    + vm_compute. reflexivity.
    + vm_compute. reflexivity.
    + reflexivity.
    + reflexivity.
    + constructor; [reflexivity|constructor].
    + reflexivity.
  - refine (proj2 (generateFrame_outcome Scenario.text_only_service Scenario.client
                     "frame 1" None Scenario.configured
                     (fst (generateFrame Scenario.text_only_service Scenario.client
                             "frame 1" None Scenario.configured))
                     (snd (generateFrame Scenario.text_only_service Scenario.client
                             "frame 1" None Scenario.configured))
                     {| model := "gemini-2.5-flash-image";
                        contents := ContentParts [PartText "frame 1"];
                        config := ImageOnly |}
                     {| response_text := Some "sorry";
                        candidate_parts :=
                          Some [ {| part_inlineData := None;
                                    part_text := Some "sorry" |} ] |}
                     [ {| part_inlineData := None; part_text := Some "sorry" |} ]
                     _ _ _)
                  _).
    + vm_compute. reflexivity.
    + vm_compute. reflexivity.
    + reflexivity.
    + constructor; [reflexivity|constructor].
Defined.

(** ** C8 and C9: export *)

Lemma encoder_frames_app a b :
  App.encoder_frames (a ++ b) = (App.encoder_frames a ++ App.encoder_frames b)%list.
Proof.
  induction a as [|ef a IH]; [reflexivity|].
  destruct ef; simpl; rewrite IH; reflexivity.
Qed.

Lemma encoder_frames_added calls :
  App.encoder_frames (map App.EfAddFrame calls) = calls.
Proof.
  induction calls as [|call calls IH]; [reflexivity|].
  simpl. rewrite IH. reflexivity.
Qed.

(** When every image loads, [Promise.all] gives the images of the frames,
    in the order of the frames. *)
Lemma loadedImages_all loads fs :
  Forall (fun frameSrc => loads frameSrc = true) fs ->
  App.loadedImages loads fs
  = Resolved (map (fun frameSrc => {| App.src := frameSrc;
                                      App.crossOrigin := "Anonymous" |}) fs).
Proof.
  intros H. induction H as [|frameSrc fs Hload _ IH]; [reflexivity|].
  simpl. unfold App.loadImage. rewrite Hload, IH. reflexivity.
Qed.

(** When an image fails to load, [Promise.all] rejects with its error. *)
Lemma loadedImages_some_fails loads fs :
  Exists (fun frameSrc => loads frameSrc = false) fs ->
  App.loadedImages loads fs = Rejected (JsError "Failed to load an image frame.").
Proof.
  intros H. induction H as [frameSrc fs Hload|frameSrc fs _ IH].
  - simpl. unfold App.loadImage. rewrite Hload. reflexivity.
  - simpl. rewrite IH. unfold App.loadImage.
    destruct (loads frameSrc); reflexivity.
Qed.

(** C8.  On export of N frames that all load, with the worker script
    ready, the encoder is given exactly N frames, those of the sequence in
    its order, each with the delay 1100 - playbackSpeed: the period of the
    timer that plays these frames at that speed. *)
Theorem export_feeds_every_frame loads finishes st fs :
  App.frames st = Some fs ->
  App.worker_ready st = true ->
  Forall (fun frameSrc => loads frameSrc = true) fs ->
  exists efs,
    App.effects (App.handleDownload loads finishes st) = (App.effects st ++ efs)%list
    /\ List.length (App.encoder_frames efs) = List.length fs
    /\ map (fun call => App.src (App.frame_image call)) (App.encoder_frames efs) = fs
    /\ Forall (fun call =>
                 App.delay call = 1100 - App.playbackSpeed st
                 /\ forall period,
                      App.playbackTimer fs (App.playbackSpeed st) = Some period ->
                      App.delay call = period)
              (App.encoder_frames efs).
Proof.
  intros Hfs Hready Hloads. unfold App.handleDownload, App.no_frames.
  rewrite Hfs, Hready. cbn [negb]. rewrite orb_false_r.
  destruct (Nat.eqb (List.length fs) 0) eqn:Hempty.
  - apply Nat.eqb_eq in Hempty. apply length_zero_iff_nil in Hempty. subst fs.
    exists []. simpl. rewrite app_nil_r. repeat split. constructor.
  - rewrite (loadedImages_all loads fs Hloads).
    set (calls := map (fun img => {| App.frame_image := img;
                                     App.delay := 1100 - App.playbackSpeed st |})
                      (map (fun s => {| App.src := s; App.crossOrigin := "Anonymous" |}) fs)).
    assert (Hsrc : map (fun call => App.src (App.frame_image call)) calls = fs).
    { unfold calls. rewrite !map_map. simpl. apply map_id. }
    assert (Hdelay : Forall (fun call =>
                               App.delay call = 1100 - App.playbackSpeed st
                               /\ forall period,
                                    App.playbackTimer fs (App.playbackSpeed st) = Some period ->
                                    App.delay call = period)
                            calls).
    { unfold calls. apply Forall_forall. intros call Hin.
      apply in_map_iff in Hin as (img & <- & _). split; [reflexivity|].
      intros period. unfold App.playbackTimer.
      destruct (Nat.ltb (List.length fs) 2); [discriminate|].
      intros Hperiod. inversion Hperiod. reflexivity. }
    assert (Hlen : List.length calls = List.length fs).
    { unfold calls. rewrite !length_map. reflexivity. }
    destruct (finishes _) eqn:Hfin.
    + exists ([App.EfNewGIF match App.gifWorkerUrl st with Some url => url | None => "" end]
              ++ map App.EfAddFrame calls
              ++ [App.EfOnFinished] ++ [App.EfRender]
              ++ [App.EfDownload "animation.gif"])%list.
      split; [simpl; rewrite <- !app_assoc; reflexivity|].
      rewrite !encoder_frames_app, encoder_frames_added. simpl. rewrite app_nil_r.
      repeat split; assumption.
    + exists ([App.EfNewGIF match App.gifWorkerUrl st with Some url => url | None => "" end]
              ++ map App.EfAddFrame calls
              ++ [App.EfOnFinished] ++ [App.EfRender])%list.
      split; [simpl; rewrite <- !app_assoc; reflexivity|].
      rewrite !encoder_frames_app, encoder_frames_added. simpl. rewrite app_nil_r.
      repeat split; assumption.
Qed.

Lemma export_feeds_every_frame_witness :
  exists efs,
    App.effects (App.handleDownload Scenario.loads Scenario.finishes
                   (Scenario.ready ["frame a"; "frame b"; "frame c"]))
    = (App.effects (Scenario.ready ["frame a"; "frame b"; "frame c"]) ++ efs)%list
    /\ List.length (App.encoder_frames efs) = List.length ["frame a"; "frame b"; "frame c"]
    /\ map (fun call => App.src (App.frame_image call)) (App.encoder_frames efs)
       = ["frame a"; "frame b"; "frame c"]
    /\ Forall (fun call =>
                 App.delay call
                 = 1100 - App.playbackSpeed (Scenario.ready ["frame a"; "frame b"; "frame c"])
                 /\ forall period,
                      App.playbackTimer ["frame a"; "frame b"; "frame c"]
                        (App.playbackSpeed (Scenario.ready ["frame a"; "frame b"; "frame c"]))
                      = Some period ->
                      App.delay call = period)
              (App.encoder_frames efs).
Proof.
  apply (export_feeds_every_frame Scenario.loads Scenario.finishes
           (Scenario.ready ["frame a"; "frame b"; "frame c"])
           ["frame a"; "frame b"; "frame c"]).
  - reflexivity.
  - reflexivity.
  - repeat constructor.
Defined.

(** C9.  On export, if any frame image fails to load, the export fails as
    a whole: the encoder is given no frame, is never asked to render, no
    download is triggered, and an error is shown; with the worker script
    ready that error is the load failure, and the busy flag is cleared. *)
Theorem export_fails_as_a_whole loads finishes st fs :
  App.frames st = Some fs ->
  Exists (fun frameSrc => loads frameSrc = false) fs ->
  exists efs message,
    App.effects (App.handleDownload loads finishes st) = (App.effects st ++ efs)%list
    /\ App.encoder_frames efs = []
    /\ existsb App.is_render efs = false
    /\ existsb App.is_download efs = false
    /\ App.error (App.handleDownload loads finishes st) = Some message
    /\ (App.worker_ready st = true ->
        message = "Failed to create GIF: Failed to load an image frame."
        /\ App.isCreatingGif (App.handleDownload loads finishes st) = false).
Proof.
  intros Hfs Hfail. unfold App.handleDownload.
  destruct (App.no_frames st || negb (App.worker_ready st)) eqn:Hguard.
  - exists [], (if App.worker_ready st then "No frames to create a GIF from."
                else "GIF downloader is not ready.").
    simpl. rewrite app_nil_r.
    do 5 (split; [reflexivity|]).
    intros Hready. exfalso. rewrite Hready in Hguard.
    unfold App.no_frames in Hguard. rewrite Hfs in Hguard.
    destruct Hfail; discriminate Hguard.
  - rewrite Hfs. rewrite (loadedImages_some_fails loads fs Hfail).
    exists [App.EfNewGIF match App.gifWorkerUrl st with Some url => url | None => "" end],
           "Failed to create GIF: Failed to load an image frame.".
    simpl. repeat split.
Qed.

Lemma export_fails_as_a_whole_witness :
  exists efs message,
    App.effects (App.handleDownload Scenario.loads Scenario.finishes
                   (Scenario.ready ["frame a"; "broken"; "frame c"]))
    = (App.effects (Scenario.ready ["frame a"; "broken"; "frame c"]) ++ efs)%list
    /\ App.encoder_frames efs = []
    /\ existsb App.is_render efs = false
    /\ existsb App.is_download efs = false
    /\ App.error (App.handleDownload Scenario.loads Scenario.finishes
                    (Scenario.ready ["frame a"; "broken"; "frame c"])) = Some message
    /\ (App.worker_ready (Scenario.ready ["frame a"; "broken"; "frame c"]) = true ->
        message = "Failed to create GIF: Failed to load an image frame."
        /\ App.isCreatingGif (App.handleDownload Scenario.loads Scenario.finishes
                                (Scenario.ready ["frame a"; "broken"; "frame c"])) = false).
Proof.
  apply (export_fails_as_a_whole Scenario.loads Scenario.finishes
           (Scenario.ready ["frame a"; "broken"; "frame c"])
           ["frame a"; "broken"; "frame c"]).
  - reflexivity.
  - apply Exists_cons_tl. apply Exists_cons_hd. reflexivity.
Defined.

(** * Further properties of the code *)

(** ** [getAI] *)

(** X1.  [getAI] caches its client: once it has resolved, every later call
    resolves with the same client and changes nothing, whatever the
    environment holds by then (the credential may be gone or replaced). *)
Theorem getAI_caches_client w ai w1 key' :
  getAI w = (Resolved ai, w1) ->
  getAI {| aiInstance := aiInstance w1; env_API_KEY := key'; log := log w1 |}
  = (Resolved ai,
     {| aiInstance := aiInstance w1; env_API_KEY := key'; log := log w1 |}).
Proof.
  unfold getAI. intros H.
  destruct (aiInstance w) as [ai0|] eqn:Hai.
  - inversion H; subst. simpl. rewrite Hai. reflexivity.
  - destruct (env_API_KEY w) as [key|]; [|discriminate H].
    destruct (truthy key); [|discriminate H].
    inversion H; subst. reflexivity.
Qed.

Lemma getAI_caches_client_witness :
  getAI {| aiInstance := aiInstance
                           {| aiInstance := Some Scenario.client;
                              env_API_KEY := Some "secret"; log := [] |};
           env_API_KEY := None;
           log := log {| aiInstance := Some Scenario.client;
                         env_API_KEY := Some "secret"; log := [] |} |}
  = (Resolved Scenario.client,
     {| aiInstance := aiInstance
                        {| aiInstance := Some Scenario.client;
                           env_API_KEY := Some "secret"; log := [] |};
        env_API_KEY := None;
        log := log {| aiInstance := Some Scenario.client;
                      env_API_KEY := Some "secret"; log := [] |} |}).
Proof.
  apply (getAI_caches_client Scenario.configured Scenario.client
           {| aiInstance := Some Scenario.client;
              env_API_KEY := Some "secret"; log := [] |} None).
  reflexivity.
Defined.

(** X2.  [getAI] never touches the transcript or the environment.  It
    leaves the client as it is, or else there was none and it stores a
    client built from the non-empty credential, which it returns; when it
    throws, nothing has changed. *)
Theorem getAI_frame w out w' :
  getAI w = (out, w') ->
  log w' = log w
  /\ env_API_KEY w' = env_API_KEY w
  /\ (aiInstance w' = aiInstance w
      \/ exists key,
           aiInstance w = None
           /\ env_API_KEY w = Some key
           /\ truthy key = true
           /\ aiInstance w' = Some {| apiKey := key |}
           /\ out = Resolved {| apiKey := key |})
  /\ (forall e, out = Rejected e -> w' = w).
Proof.
  unfold getAI. intros H.
  destruct (aiInstance w) as [ai0|] eqn:Hai.
  - inversion H; subst. repeat split; auto.
  - destruct (env_API_KEY w) as [key|] eqn:Hkey.
    + destruct (truthy key) eqn:Htruthy; inversion H; subst; simpl.
      * split; [reflexivity|]. split; [first [reflexivity | symmetry; exact Hkey]|].
        split; [|discriminate].
        right. exists key. repeat split; assumption.
      * repeat split; auto.
    + inversion H; subst. repeat split; auto.
Qed.

Lemma getAI_frame_witness :
  log (snd (getAI Scenario.configured)) = log Scenario.configured
  /\ env_API_KEY (snd (getAI Scenario.configured)) = env_API_KEY Scenario.configured
  /\ (aiInstance (snd (getAI Scenario.configured)) = aiInstance Scenario.configured
      \/ exists key,
           aiInstance Scenario.configured = None
           /\ env_API_KEY Scenario.configured = Some key
           /\ truthy key = true
           /\ aiInstance (snd (getAI Scenario.configured)) = Some {| apiKey := key |}
           /\ fst (getAI Scenario.configured) = Resolved {| apiKey := key |})
  /\ (forall e, fst (getAI Scenario.configured) = Rejected e ->
                snd (getAI Scenario.configured) = Scenario.configured).
Proof.
  apply (getAI_frame Scenario.configured). reflexivity.
Defined.

(** ** [base64ToPart] *)

Lemma split_at_separator sep a b :
  occurs sep a = false ->
  split sep (a ++ String sep b) = a :: split sep b.
Proof.
  induction a as [|c a IH]; intros H.
  - simpl. rewrite Ascii.eqb_refl. reflexivity.
  - simpl in H. apply orb_false_elim in H as [Hc Ha].
    simpl. rewrite Ascii.eqb_sym, Hc, (IH Ha). reflexivity.
Qed.

Lemma split_pieces_without_separator sep s :
  Forall (fun piece => occurs sep piece = false) (split sep s).
Proof.
  induction s as [|c s IH]; simpl.
  - constructor; [reflexivity|constructor].
  - destruct (Ascii.eqb c sep) eqn:Hc.
    + constructor; [reflexivity|exact IH].
    + destruct (split sep s) as [|piece rest]; [repeat constructor; simpl|].
      * rewrite Ascii.eqb_sym, Hc. reflexivity.
      * inversion IH; subst. constructor; [|assumption].
        simpl. rewrite Ascii.eqb_sym, Hc. assumption.
Qed.

Lemma occurs_cons c x s : occurs c (String x s) = Ascii.eqb c x || occurs c s.
Proof. reflexivity. Qed.

Lemma lazy_until_semicolon_cons c s :
  lazy_until_semicolon (String c s)
  = if Ascii.eqb c ";"%char then Some EmptyString
    else if line_terminator_at (String c s) then None
         else option_map (String c) (lazy_until_semicolon s).
Proof. reflexivity. Qed.

Lemma holds_line_terminator_cons c s :
  holds_line_terminator (String c s)
  = line_terminator_at (String c s) || holds_line_terminator s.
Proof. reflexivity. Qed.

(** A semicolon is no part of a line terminator: whether one starts a
    string is settled before the semicolon. *)
Lemma line_terminator_at_before_semicolon g rest :
  line_terminator_at (g ++ String ";"%char rest) = line_terminator_at g.
Proof.
  destruct g as [|c1 [|c2 [|c3 g]]].
  - reflexivity.
  - cbn [append line_terminator_at].
    destruct rest; cbn; rewrite ?andb_false_r; reflexivity.
  - cbn [append line_terminator_at].
    change (Ascii.eqb ";"%char "168"%char) with false.
    change (Ascii.eqb ";"%char "169"%char) with false.
    cbn [orb]. rewrite !andb_false_r. reflexivity.
  - reflexivity.
Qed.

Lemma match_colon_semicolon_cons c s :
  match_colon_semicolon (String c s)
  = if Ascii.eqb c ":"%char then
      match lazy_until_semicolon s with
      | Some g => Some g
      | None => match_colon_semicolon s
      end
    else match_colon_semicolon s.
Proof. reflexivity. Qed.

Lemma lazy_until_semicolon_app g rest :
  occurs ";"%char g = false ->
  holds_line_terminator g = false ->
  lazy_until_semicolon (g ++ String ";"%char rest) = Some g.
Proof.
  induction g as [|c g IH]; intros Hs Hl; [reflexivity|].
  rewrite occurs_cons in Hs. apply orb_false_elim in Hs as [Hs1 Hs2].
  rewrite holds_line_terminator_cons in Hl. apply orb_false_elim in Hl as [Hl1 Hl2].
  pose proof (line_terminator_at_before_semicolon (String c g) rest) as Hat.
  change (String c g ++ String ";"%char rest)
    with (String c (g ++ String ";"%char rest)) in *.
  rewrite lazy_until_semicolon_cons, Hat, Hl1.
  rewrite (Ascii.eqb_sym c ";"%char), Hs1.
  rewrite (IH Hs2 Hl2). reflexivity.
Qed.

Lemma lazy_until_semicolon_group s g :
  lazy_until_semicolon s = Some g -> occurs ";"%char g = false /\ occurs ";"%char s = true.
Proof.
  revert g. induction s as [|c s IH]; intros g H; [discriminate H|].
  rewrite lazy_until_semicolon_cons in H. rewrite (occurs_cons _ c s).
  rewrite (Ascii.eqb_sym ";"%char c).
  destruct (Ascii.eqb c ";"%char) eqn:Hc.
  - inversion H. split; reflexivity.
  - destruct (line_terminator_at (String c s)); [discriminate H|].
    destruct (lazy_until_semicolon s) as [g'|]; [|discriminate H].
    inversion H; subst. destruct (IH g' eq_refl) as [Hg Hs].
    split; [|exact Hs].
    rewrite occurs_cons, (Ascii.eqb_sym ";"%char c), Hc. exact Hg.
Qed.

Lemma match_colon_semicolon_group s g :
  match_colon_semicolon s = Some g ->
  occurs ";"%char g = false /\ occurs ":"%char s = true /\ occurs ";"%char s = true.
Proof.
  induction s as [|c s IH]; intros H; [discriminate H|].
  rewrite match_colon_semicolon_cons in H. rewrite !(occurs_cons _ c s).
  rewrite (Ascii.eqb_sym ":"%char c).
  destruct (Ascii.eqb c ":"%char) eqn:Hc.
  - destruct (lazy_until_semicolon s) as [g'|] eqn:Hl.
    + inversion H; subst. apply lazy_until_semicolon_group in Hl as [Hg Hs].
      rewrite Hs, orb_true_r. repeat split. exact Hg.
    + destruct (IH H) as (Hg & _ & Hs). rewrite Hs, orb_true_r. repeat split. exact Hg.
  - destruct (IH H) as (Hg & Hcolon & Hs). rewrite Hcolon, Hs, !orb_true_r.
    repeat split. exact Hg.
Qed.

Lemma append_assoc (a b c : string) : (a ++ b) ++ c = a ++ b ++ c.
Proof. induction a as [|x a IH]; simpl; [reflexivity|rewrite IH; reflexivity]. Qed.

(** X3.  [base64ToPart] undoes the data-URL encoding: for a MIME type that
    is not empty and holds no comma, no semicolon and no line terminator
    (line feed, carriage return, U+2028, U+2029), and a payload that is
    not empty and holds no comma, the URL [data:<mime>;base64,<payload>]
    decodes to that payload with that MIME type. *)
Theorem base64ToPart_round_trip mime payload :
  truthy mime = true ->
  occurs ","%char mime = false ->
  occurs ";"%char mime = false ->
  holds_line_terminator mime = false ->
  truthy payload = true ->
  occurs ","%char payload = false ->
  base64ToPart ("data:" ++ mime ++ ";base64," ++ payload)
  = Resolved {| data := payload; mimeType := mime |}.
Proof.
  intros Hmime Hc Hs Hl Hpayload Hpc. unfold base64ToPart.
  replace ("data:" ++ mime ++ ";base64," ++ payload)
    with (("data:" ++ mime ++ ";base64") ++ String ","%char payload)
    by (rewrite !append_assoc; reflexivity).
  rewrite split_at_separator
    by (rewrite !occurs_app, Hc; reflexivity).
  rewrite (split_without_separator _ _ Hpc). cbn [nth_error]. cbv beta iota.
  rewrite Hpayload.
  change (truthy ("data:" ++ mime ++ ";base64")) with true. cbn [negb orb].
  change (match_colon_semicolon ("data:" ++ mime ++ ";base64"))
    with (match lazy_until_semicolon (mime ++ ";base64") with
          | Some g => Some g
          | None => match_colon_semicolon (mime ++ ";base64")
          end).
  rewrite (lazy_until_semicolon_app mime "base64" Hs Hl), Hmime.
  reflexivity.
Qed.

Lemma base64ToPart_round_trip_witness :
  base64ToPart ("data:" ++ "image/jpeg" ++ ";base64," ++ "AAECAw==")
  = Resolved {| data := "AAECAw=="; mimeType := "image/jpeg" |}.
Proof.
  apply (base64ToPart_round_trip "image/jpeg" "AAECAw=="); reflexivity.
Defined.

(** X4.  [base64ToPart] refuses every string without a comma, the empty
    string among them. *)
Theorem base64ToPart_without_comma s :
  occurs ","%char s = false ->
  base64ToPart s = Rejected (JsError "Invalid base64 data URL format.").
Proof.
  intros H. unfold base64ToPart. rewrite (split_without_separator _ _ H).
  reflexivity.
Qed.

Lemma base64ToPart_without_comma_witness :
  base64ToPart "iVBORw0KGgo=" = Rejected (JsError "Invalid base64 data URL format.").
Proof.
  apply (base64ToPart_without_comma "iVBORw0KGgo="). reflexivity.
Defined.

(** X5.  Whatever [base64ToPart] accepts, the part it gives has data that
    is not empty and holds no comma, and a MIME type that is not empty and
    holds no semicolon. *)
Theorem base64ToPart_result_invariant s part :
  base64ToPart s = Resolved part ->
  truthy (data part) = true
  /\ occurs ","%char (data part) = false
  /\ truthy (mimeType part) = true
  /\ occurs ";"%char (mimeType part) = false.
Proof.
  unfold base64ToPart. intros H.
  pose proof (split_pieces_without_separator ","%char s) as Hpieces.
  destruct (split ","%char s) as [|header [|payload rest]]; try discriminate H.
  cbn [nth_error] in H. cbv beta iota in H.
  destruct (truthy header); [|discriminate H].
  destruct (truthy payload) eqn:Hp; [|discriminate H].
  cbn [negb orb] in H. inversion H; subst part; clear H. cbn [data mimeType].
  inversion Hpieces as [|? ? _ Hrest]; subst.
  inversion Hrest as [|? ? Hcomma _]; subst.
  split; [exact Hp|]. split; [exact Hcomma|].
  destruct (match_colon_semicolon header) as [g|] eqn:Hg.
  - destruct (truthy g) eqn:Htg.
    + split; [exact Htg|]. apply match_colon_semicolon_group in Hg as [Hg _]. exact Hg.
    + split; reflexivity.
  - split; reflexivity.
Qed.

Lemma base64ToPart_result_invariant_witness :
  truthy (data {| data := "AAEC"; mimeType := "image/webp" |}) = true
  /\ occurs ","%char (data {| data := "AAEC"; mimeType := "image/webp" |}) = false
  /\ truthy (mimeType {| data := "AAEC"; mimeType := "image/webp" |}) = true
  /\ occurs ";"%char (mimeType {| data := "AAEC"; mimeType := "image/webp" |}) = false.
Proof.
  apply (base64ToPart_result_invariant "data:image/webp;base64,AAEC,ignored").
  reflexivity.
Defined.

(** X6.  [base64ToPart] reads the text between the first and the second
    comma only: what follows a second comma is dropped without an error. *)
Theorem base64ToPart_ignores_after_second_comma header payload rest :
  occurs ","%char header = false ->
  occurs ","%char payload = false ->
  base64ToPart (header ++ "," ++ payload ++ "," ++ rest)
  = base64ToPart (header ++ "," ++ payload).
Proof.
  intros Hh Hp. unfold base64ToPart.
  change (header ++ "," ++ payload ++ "," ++ rest)
    with (header ++ String ","%char (payload ++ String ","%char rest)).
  change (header ++ "," ++ payload) with (header ++ String ","%char payload).
  rewrite !split_at_separator by assumption.
  rewrite (split_without_separator _ _ Hp). reflexivity.
Qed.

Lemma base64ToPart_ignores_after_second_comma_witness :
  base64ToPart ("data:image/png;base64" ++ "," ++ "AAEC" ++ "," ++ "AwQF")
  = base64ToPart ("data:image/png;base64" ++ "," ++ "AAEC").
Proof.
  apply (base64ToPart_ignores_after_second_comma "data:image/png;base64" "AAEC" "AwQF");
    reflexivity.
Defined.

(** X7.  Where the text before the comma holds no colon, or no semicolon,
    [base64ToPart] declares the data to be [image/png]. *)
Theorem base64ToPart_default_mime header payload :
  truthy header = true ->
  occurs ","%char header = false ->
  occurs ":"%char header && occurs ";"%char header = false ->
  truthy payload = true ->
  occurs ","%char payload = false ->
  base64ToPart (header ++ "," ++ payload)
  = Resolved {| data := payload; mimeType := "image/png" |}.
Proof.
  intros Hh Hhc Hplain Hp Hpc. unfold base64ToPart.
  change (header ++ "," ++ payload) with (header ++ String ","%char payload).
  rewrite (split_at_separator _ _ _ Hhc), (split_without_separator _ _ Hpc).
  cbn [nth_error]. cbv beta iota. rewrite Hh, Hp. cbn [negb orb].
  destruct (match_colon_semicolon header) as [g|] eqn:Hg; [|reflexivity].
  apply match_colon_semicolon_group in Hg as (_ & Hcolon & Hsemi).
  rewrite Hcolon, Hsemi in Hplain. discriminate Hplain.
Qed.

Lemma base64ToPart_default_mime_witness :
  base64ToPart ("base64" ++ "," ++ "AAEC")
  = Resolved {| data := "AAEC"; mimeType := "image/png" |}.
Proof.
  apply (base64ToPart_default_mime "base64" "AAEC"); reflexivity.
Defined.

(** ** Computations that make no remote call *)

Lemma silent_ret {A} (a : A) : silent (ret a).
Proof.
  intros w out w' H. unfold ret in H. inversion H; subst.
  exists []. rewrite app_nil_r. split; reflexivity.
Qed.

Lemma silent_throw {A} (e : Thrown) : silent (@throw A e).
Proof.
  intros w out w' H. unfold throw in H. inversion H; subst.
  exists []. rewrite app_nil_r. split; reflexivity.
Qed.

Lemma silent_lift {A} (o : Outcome A) : silent (lift o).
Proof.
  intros w out w' H. unfold lift in H. inversion H; subst.
  exists []. rewrite app_nil_r. split; reflexivity.
Qed.

Lemma silent_bind {A B} (m : M A) (k : A -> M B) :
  silent m -> (forall a, silent (k a)) -> silent (bind m k).
Proof.
  intros Hm Hk w out w' H. unfold bind in H.
  destruct (m w) as [[a|e] w1] eqn:Hmw.
  - apply Hm in Hmw as (evs1 & Hlog1 & Hcalls1).
    apply Hk in H as (evs2 & Hlog2 & Hcalls2).
    exists (evs1 ++ evs2)%list. split.
    + rewrite Hlog2, Hlog1, app_assoc. reflexivity.
    + rewrite remote_calls_app, Hcalls1, Hcalls2. reflexivity.
  - inversion H; subst. apply Hm in Hmw. exact Hmw.
Qed.

Lemma silent_console_error label what : silent (console_error label what).
Proof.
  intros w out w' H. unfold console_error in H. inversion H; subst.
  exists [EvConsoleError label what]. split; reflexivity.
Qed.

Lemma silent_report onProgress message : silent (report onProgress message).
Proof.
  intros w out w' H.
  destruct (report_resolved onProgress message w) as (w1 & Hrun & evs & Hlog & _ & Hcalls).
  rewrite Hrun in H. inversion H; subst. exists evs. split; assumption.
Qed.

Create HintDb silent.
#[local] Hint Resolve silent_ret silent_throw silent_lift silent_console_error
  silent_report : silent.

(** ** [generateFrame] *)

(** X8.  [generateFrame] changes nothing of the world but the transcript,
    and adds at most one event to it: its call, answered by the service.
    The call goes to the image model with image-only output.  With a
    reference that [base64ToPart] accepts, its parts are the decoded
    reference and then the prompt; with a reference that it refuses,
    nothing is sent; with no reference, or an empty one, its only part is
    the prompt. *)
Theorem generateFrame_at_most_one_call remote ai prompt referenceFrameB64 w :
  aiInstance (snd (generateFrame remote ai prompt referenceFrameB64 w)) = aiInstance w
  /\ env_API_KEY (snd (generateFrame remote ai prompt referenceFrameB64 w)) = env_API_KEY w
  /\ exists sent,
       log (snd (generateFrame remote ai prompt referenceFrameB64 w))
       = (log w ++ sent)%list
       /\ (List.length sent <= 1)%nat
       /\ (forall ev, In ev sent ->
                      exists req, ev = EvGenerateContent req (remote (log w) req))
       /\ match referenceFrameB64 with
          | Some ref =>
              if truthy ref then
                match base64ToPart ref with
                | Resolved part =>
                    remote_calls sent
                    = [ {| model := "gemini-2.5-flash-image";
                           contents := ContentParts [PartInline part; PartText prompt];
                           config := ImageOnly |} ]
                | Rejected _ => sent = []
                end
              else
                remote_calls sent
                = [ {| model := "gemini-2.5-flash-image";
                       contents := ContentParts [PartText prompt];
                       config := ImageOnly |} ]
          | None =>
              remote_calls sent
              = [ {| model := "gemini-2.5-flash-image";
                     contents := ContentParts [PartText prompt];
                     config := ImageOnly |} ]
          end.
Proof.
  rewrite generateFrame_run. unfold reference_parts.
  assert (Hsent : forall ps,
             exists sent,
               (log w ++ [EvGenerateContent (image_request ps)
                            (remote (log w) (image_request ps))])%list
               = (log w ++ sent)%list
               /\ (List.length sent <= 1)%nat
               /\ (forall ev, In ev sent ->
                              exists req, ev = EvGenerateContent req (remote (log w) req))
               /\ remote_calls sent = [image_request ps]).
  { intros ps. eexists. split; [reflexivity|]. split; [simpl; lia|].
    split; [|reflexivity].
    intros ev [<-|[]]. eexists. reflexivity. }
  destruct referenceFrameB64 as [ref|].
  - destruct (truthy ref).
    + destruct (base64ToPart ref) as [part|e].
      * split; [reflexivity|]. split; [reflexivity|].
        exact (Hsent [PartInline part; PartText prompt]).
      * split; [reflexivity|]. split; [reflexivity|].
        exists []. rewrite app_nil_r. split; [reflexivity|].
        split; [simpl; lia|]. split; [intros ev []|reflexivity].
    + split; [reflexivity|]. split; [reflexivity|]. exact (Hsent [PartText prompt]).
  - split; [reflexivity|]. split; [reflexivity|]. exact (Hsent [PartText prompt]).
Qed.

(** X9.  A reference that [base64ToPart] refuses makes [generateFrame]
    throw that error before anything is sent: the world is unchanged. *)
Theorem generateFrame_invalid_reference remote ai prompt ref w :
  truthy ref = true ->
  (forall part, base64ToPart ref <> Resolved part) ->
  generateFrame remote ai prompt (Some ref) w
  = (Rejected (JsError "Invalid base64 data URL format."), w).
Proof.
  intros Htruthy Hbad. rewrite generateFrame_run. unfold reference_parts.
  rewrite Htruthy. destruct (base64ToPart ref) as [part|e] eqn:Hpart.
  - exfalso. exact (Hbad part eq_refl).
  - rewrite (base64ToPart_rejection _ _ Hpart). reflexivity.
Qed.

Lemma generateFrame_invalid_reference_witness :
  generateFrame Scenario.text_only_service Scenario.client "frame 2"
    (Some "not a data URL") Scenario.configured
  = (Rejected (JsError "Invalid base64 data URL format."), Scenario.configured).
Proof.
  apply (generateFrame_invalid_reference Scenario.text_only_service Scenario.client
           "frame 2" "not a data URL" Scenario.configured).
  - reflexivity.
  - intros part H. vm_compute in H. discriminate H.
Defined.

(** X10.  When the service rejects the call of [generateFrame], the
    rejection reaches the caller as it is: same value, not wrapped. *)
Theorem generateFrame_remote_rejection remote ai prompt referenceFrameB64 w out w' req e :
  generateFrame remote ai prompt referenceFrameB64 w = (out, w') ->
  log w' = (log w ++ [EvGenerateContent req (RemoteReject e)])%list ->
  out = Rejected e.
Proof.
  rewrite generateFrame_run. intros Hrun Hlog.
  destruct (reference_parts referenceFrameB64) as [refs|e0].
  - cbv zeta in Hrun. inversion Hrun as [[Hout Hw]]. subst w'.
    rewrite log_record in Hlog. apply app_inv_head in Hlog.
    inversion Hlog as [[Hreq Hres]]. rewrite Hres. reflexivity.
  - inversion Hrun as [[Hout Hw]]. subst w'.
    rewrite <- (app_nil_r (log w)) in Hlog at 1.
    apply app_inv_head in Hlog. discriminate Hlog.
Qed.

Lemma generateFrame_remote_rejection_witness :
  fst (generateFrame (Cases.rejecting_service (JsNonError "quota")) Scenario.client
         "frame 1" None Scenario.configured)
  = Rejected (JsNonError "quota").
Proof.
  apply (generateFrame_remote_rejection
           (Cases.rejecting_service (JsNonError "quota")) Scenario.client
           "frame 1" None Scenario.configured
           (fst (generateFrame (Cases.rejecting_service (JsNonError "quota"))
                   Scenario.client "frame 1" None Scenario.configured))
           (snd (generateFrame (Cases.rejecting_service (JsNonError "quota"))
                   Scenario.client "frame 1" None Scenario.configured))
           (image_request [PartText "frame 1"])
           (JsNonError "quota")).
  - vm_compute. reflexivity.
  - vm_compute. reflexivity.
Defined.

(** ** [enhancePrompt] *)

Lemma enhance_contents_quotes prompt :
  includes (enhance_contents prompt) (dq ++ prompt ++ dq) = true.
Proof.
  unfold enhance_contents. do 9 apply includes_app_r.
  apply includes_prefix. rewrite !prefix_app_same. apply prefix_app_self.
Qed.

(** X11.  A resolved [enhancePrompt] made exactly one call: to the text
    model, with a request that quotes the user's prompt as it is; what it
    returns is the text of the answer, trimmed, and nothing else is
    checked of it. *)
Theorem enhancePrompt_resolved remote trim prompt w enhanced w' :
  enhancePrompt remote trim prompt w = (Resolved enhanced, w') ->
  exists r text,
    log w' = (log w ++ [EvGenerateContent (enhance_request prompt) (RemoteResponse r)])%list
    /\ model (enhance_request prompt) = "gemini-2.5-pro"
    /\ contents (enhance_request prompt) = ContentText (enhance_contents prompt)
    /\ includes (enhance_contents prompt) (dq ++ prompt ++ dq) = true
    /\ response_text r = Some text
    /\ enhanced = trim text.
Proof.
  unfold enhancePrompt. intros H.
  apply bind_resolved in H as (ai & w1 & Hai & H).
  apply getAI_resolved in Hai as [Hlog1 _].
  unfold try_catch, bind at 1, generateContent in H. rewrite Hlog1 in H.
  destruct (remote (log w) (enhance_request prompt)) as [e|r] eqn:Hres.
  - unfold bind, console_error, throw in H. discriminate H.
  - destruct (response_text r) as [text|] eqn:Htext.
    + unfold ret in H. inversion H; subst.
      exists r, text. rewrite log_record, Hlog1.
      repeat split; try assumption. apply enhance_contents_quotes.
    + unfold throw at 1, bind, console_error, throw in H. discriminate H.
Qed.

Lemma enhancePrompt_resolved_witness :
  exists r text,
    log (snd (enhancePrompt (Cases.answering_service "A knight at dusk.")
                Scenario.trim "A knight" Scenario.configured))
    = (log Scenario.configured
       ++ [EvGenerateContent (enhance_request "A knight") (RemoteResponse r)])%list
    /\ model (enhance_request "A knight") = "gemini-2.5-pro"
    /\ contents (enhance_request "A knight") = ContentText (enhance_contents "A knight")
    /\ includes (enhance_contents "A knight") (dq ++ "A knight" ++ dq) = true
    /\ response_text r = Some text
    /\ "A knight at dusk." = Scenario.trim text.
Proof.
  apply (enhancePrompt_resolved (Cases.answering_service "A knight at dusk.")
           Scenario.trim "A knight" Scenario.configured).
  vm_compute. reflexivity.
Defined.

(** X12.  [enhancePrompt] fails in two ways only.  Without a client it
    throws the configuration error, not wrapped, and does nothing.  With
    one, whatever goes wrong (the service rejects, the answer has no text)
    it throws one fixed message, after exactly one remote call. *)
Theorem enhancePrompt_rejected remote trim prompt w e w' :
  enhancePrompt remote trim prompt w = (Rejected e, w') ->
  (client_available w = false
   /\ e = JsError "API key is not configured. Please set the API_KEY environment variable."
   /\ w' = w)
  \/ (client_available w = true
      /\ e = JsError "Failed to enhance prompt. The AI may be experiencing issues."
      /\ exists evs, log w' = (log w ++ evs)%list
                     /\ remote_calls evs = [enhance_request prompt]).
Proof.
  unfold enhancePrompt. intros H.
  destruct (client_available w) eqn:Hc.
  - right. split; [reflexivity|].
    destruct (getAI_available w Hc) as (ai & w1 & Hai & Hlog1 & _).
    rewrite (bind_resolved_first _ _ _ _ _ Hai) in H.
    unfold try_catch, bind at 1, generateContent in H. rewrite Hlog1 in H.
    destruct (remote (log w) (enhance_request prompt)) as [e0|r] eqn:Hres.
    + unfold bind, console_error, throw in H. inversion H; subst.
      split; [reflexivity|]. eexists. rewrite !log_record, Hlog1, <- app_assoc.
      split; reflexivity.
    + destruct (response_text r) as [text|].
      * unfold ret in H. discriminate H.
      * unfold throw at 1, bind, console_error, throw in H. inversion H; subst.
        split; [reflexivity|]. eexists. rewrite !log_record, Hlog1, <- app_assoc.
        split; reflexivity.
  - left. split; [reflexivity|].
    rewrite (bind_rejected_first _ _ _ _ _ (getAI_unavailable w Hc)) in H.
    inversion H; subst. split; reflexivity.
Qed.

Lemma enhancePrompt_rejected_witness :
  (client_available Scenario.configured = false
   /\ JsError "Failed to enhance prompt. The AI may be experiencing issues."
      = JsError "API key is not configured. Please set the API_KEY environment variable."
   /\ snd (enhancePrompt (Cases.rejecting_service (JsError "503")) Scenario.trim
             "A knight" Scenario.configured) = Scenario.configured)
  \/ (client_available Scenario.configured = true
      /\ JsError "Failed to enhance prompt. The AI may be experiencing issues."
         = JsError "Failed to enhance prompt. The AI may be experiencing issues."
      /\ exists evs,
           log (snd (enhancePrompt (Cases.rejecting_service (JsError "503"))
                       Scenario.trim "A knight" Scenario.configured))
           = (log Scenario.configured ++ evs)%list
           /\ remote_calls evs = [enhance_request "A knight"]).
Proof.
  apply (enhancePrompt_rejected (Cases.rejecting_service (JsError "503"))
           Scenario.trim "A knight" Scenario.configured).
  vm_compute. reflexivity.
Defined.

(** ** [generateStoryboard] *)

Lemma frameDescriptions_fields items descriptions :
  Storyboard.frameDescriptions items = Resolved descriptions ->
  Forall2 (fun frame description =>
             get_property frame "frame_description" = Resolved (Some (JStr description))
             /\ truthy description = true)
          items descriptions.
Proof.
  revert descriptions. induction items as [|frame items IH]; intros descriptions H.
  - simpl in H. inversion H. constructor.
  - simpl in H.
    destruct (get_property frame "frame_description") as [[[| | |s| |]|]|e] eqn:Hget;
      try discriminate H.
    destruct (truthy s) eqn:Hs; [|discriminate H].
    destruct (Storyboard.frameDescriptions items) as [ds|e]; [|discriminate H].
    inversion H; subst. constructor; [split; assumption|].
    apply IH. reflexivity.
Qed.

(** X13.  A resolved [generateStoryboard] gives exactly [frameCount]
    descriptions: the [frame_description] strings of the entries of the
    planner's array, in its order, none of them empty; and it made one
    call, the planner's. *)
Theorem generateStoryboard_resolved_shape remote JSON_parse trim ai motionPrompt
        frameCount w storyboard w' :
  Storyboard.generateStoryboard remote JSON_parse trim ai motionPrompt frameCount w
  = (Resolved storyboard, w') ->
  Z.of_nat (List.length storyboard) = frameCount
  /\ exists r text parsedJson items,
       log w' = (log w ++ [EvGenerateContent
                             (Storyboard.storyboard_request motionPrompt frameCount)
                             (RemoteResponse r)])%list
       /\ response_text r = Some text
       /\ JSON_parse (trim text) = inr parsedJson
       /\ get_property parsedJson "storyboard" = Resolved (Some (JArr items))
       /\ Forall2 (fun frame description =>
                     get_property frame "frame_description"
                     = Resolved (Some (JStr description))
                     /\ truthy description = true)
                  items storyboard.
Proof.
  intros H.
  apply generateStoryboard_resolved in H
    as (r & text & parsedJson & items & _ & Htext & Hparse & Hget & Hlen & Hdesc & Hlog).
  pose proof (frameDescriptions_fields _ _ Hdesc) as Hfields.
  split.
  - rewrite <- (Forall2_length Hfields). exact Hlen.
  - exists r, text, parsedJson, items. repeat split; assumption.
Qed.

Lemma generateStoryboard_resolved_shape_witness :
  Z.of_nat (List.length ["ball at the top"; "ball on the ground"]) = 2
  /\ exists r text parsedJson items,
       log (snd (Storyboard.generateStoryboard
                   (Scenario.service Scenario.two_entries_text) Scenario.parse
                   Scenario.trim Scenario.client "A ball bouncing" 2
                   Scenario.configured))
       = (log Scenario.configured
          ++ [EvGenerateContent (Storyboard.storyboard_request "A ball bouncing" 2)
                (RemoteResponse r)])%list
       /\ response_text r = Some text
       /\ Scenario.parse (Scenario.trim text) = inr parsedJson
       /\ get_property parsedJson "storyboard" = Resolved (Some (JArr items))
       /\ Forall2 (fun frame description =>
                     get_property frame "frame_description"
                     = Resolved (Some (JStr description))
                     /\ truthy description = true)
                  items ["ball at the top"; "ball on the ground"].
Proof.
  apply (generateStoryboard_resolved_shape
           (Scenario.service Scenario.two_entries_text) Scenario.parse
           Scenario.trim Scenario.client "A ball bouncing" 2 Scenario.configured).
  vm_compute. reflexivity.
Defined.

(** X14.  However it ends, [generateStoryboard] makes exactly one remote
    call, the planner's, and makes it first. *)
Theorem generateStoryboard_one_call remote JSON_parse trim ai motionPrompt frameCount w :
  exists res tail,
    log (snd (Storyboard.generateStoryboard remote JSON_parse trim ai motionPrompt
                frameCount w))
    = (log w ++ EvGenerateContent
                  (Storyboard.storyboard_request motionPrompt frameCount) res
             :: tail)%list
    /\ res = remote (log w) (Storyboard.storyboard_request motionPrompt frameCount)
    /\ remote_calls tail = [].
Proof.
  set (req := Storyboard.storyboard_request motionPrompt frameCount).
  assert (Hrest : forall response : Response,
             silent
               (responseText <- match response_text response with
                                | Some text => ret (trim text)
                                | None => throw (JsError TypeError_message)
                                end ;;
                parsedJson <- match JSON_parse responseText with
                              | inr v => ret v
                              | inl message => throw (JsError message)
                              end ;;
                storyboardFrames <- lift (get_property parsedJson "storyboard") ;;
                if negb (isArray storyboardFrames)
                   || negb (Z.of_nat (List.length (items_of storyboardFrames)) =? frameCount)%Z
                then
                  console_error "AI storyboard response:" (LoggedValue storyboardFrames) ;;;
                  len <- lift (get_length storyboardFrames) ;;
                  throw (JsError ("Storyboard generation failed: AI returned an invalid format or wrong number of frames. Expected "
                                  ++ string_of_Z frameCount ++ ", got " ++ or_none len ++ "."))
                else
                  lift (Storyboard.frameDescriptions (items_of storyboardFrames)))).
  { intros response.
    apply silent_bind; [destruct (response_text response); auto with silent|].
    intros responseText.
    apply silent_bind; [destruct (JSON_parse responseText); auto with silent|].
    intros parsedJson.
    apply silent_bind; [auto with silent|]. intros storyboardFrames.
    match goal with |- silent (if ?c then _ else _) => destruct c end.
    - apply silent_bind; [auto with silent|]. intros _.
      apply silent_bind; [auto with silent|]. intros len. auto with silent.
    - auto with silent. }
  assert (Hhandler : forall error : Thrown,
             silent
               (console_error "Storyboard Generation Error:" (LoggedThrown error) ;;;
                match error with
                | JsError message =>
                    if includes message "JSON.parse" then
                      @throw (list string) (JsError "Failed to generate animation storyboard. The planning AI returned an invalid JSON format.")
                    else
                      throw (JsError "Failed to generate animation storyboard. The planning AI may be experiencing issues.")
                | JsNonError _ =>
                    throw (JsError "Failed to generate animation storyboard. The planning AI may be experiencing issues.")
                end)).
  { intros error. apply silent_bind; [auto with silent|]. intros _.
    destruct error as [message|shown]; [destruct (includes message "JSON.parse")|];
      auto with silent. }
  exists (remote (log w) req).
  unfold Storyboard.generateStoryboard, try_catch, bind at 1, generateContent.
  fold req.
  destruct (remote (log w) req) as [e|r] eqn:Hres.
  - match goal with |- context [snd (?h ?world)] =>
      destruct (h world) as [out w'] eqn:Hh end.
    apply Hhandler in Hh as (evs & Hlog & Hcalls).
    exists evs. simpl. rewrite Hlog, log_record, <- app_assoc.
    repeat split. exact Hcalls.
  - match goal with |- context [let (o, w') := ?b ?world in _] =>
      destruct (b world) as [[sb|e] w1] eqn:Hb end.
    + apply Hrest in Hb as (evs & Hlog & Hcalls).
      exists evs. simpl. rewrite Hlog, log_record, <- app_assoc.
      repeat split. exact Hcalls.
    + apply Hrest in Hb as (evs1 & Hlog1 & Hcalls1).
      match goal with |- context [snd (?h ?world)] =>
        destruct (h world) as [out w'] eqn:Hh end.
      apply Hhandler in Hh as (evs2 & Hlog2 & Hcalls2).
      exists (evs1 ++ evs2)%list. simpl.
      rewrite Hlog2, Hlog1, log_record, <- !app_assoc.
      repeat split. rewrite remote_calls_app, Hcalls1, Hcalls2. reflexivity.
Qed.

(** X15.  When [JSON.parse] refuses the planner's text, the message that
    reaches the caller depends on the wording of the parser's error alone:
    "invalid JSON format" if that wording holds ["JSON.parse"], and the
    general "may be experiencing issues" if it does not. *)
Theorem generateStoryboard_parse_failure remote JSON_parse trim ai motionPrompt
        frameCount w r text message :
  remote (log w) (Storyboard.storyboard_request motionPrompt frameCount)
  = RemoteResponse r ->
  response_text r = Some text ->
  JSON_parse (trim text) = inl message ->
  fst (Storyboard.generateStoryboard remote JSON_parse trim ai motionPrompt
         frameCount w)
  = Rejected
      (JsError
         (if includes message "JSON.parse"
          then "Failed to generate animation storyboard. The planning AI returned an invalid JSON format."
          else "Failed to generate animation storyboard. The planning AI may be experiencing issues.")).
Proof.
  intros Hres Htext Hparse.
  unfold Storyboard.generateStoryboard, try_catch, bind at 1, generateContent.
  rewrite Hres. unfold bind at 1. rewrite Htext. unfold ret at 1.
  unfold bind at 1. rewrite Hparse. unfold throw at 1.
  unfold bind, console_error, throw.
  destruct (includes message "JSON.parse"); reflexivity.
Qed.

Lemma generateStoryboard_parse_failure_witness :
  fst (Storyboard.generateStoryboard (Cases.answering_service "<html>")
         Cases.refusing_parse Scenario.trim Scenario.client "A ball bouncing" 2
         Scenario.configured)
  = Rejected
      (JsError
         (if includes "Unexpected token < in JSON at position 0" "JSON.parse"
          then "Failed to generate animation storyboard. The planning AI returned an invalid JSON format."
          else "Failed to generate animation storyboard. The planning AI may be experiencing issues.")).
Proof.
  apply (generateStoryboard_parse_failure (Cases.answering_service "<html>")
           Cases.refusing_parse Scenario.trim Scenario.client "A ball bouncing" 2
           Scenario.configured
           {| response_text := Some "<html>"; candidate_parts := None |} "<html>"
           "Unexpected token < in JSON at position 0"); reflexivity.
Defined.

Lemma frameDescriptions_rejection items e :
  Storyboard.frameDescriptions items = Rejected e ->
  e = JsError "Storyboard generation failed: A frame description was missing or not a string."
  \/ e = JsError TypeError_message.
Proof.
  induction items as [|frame items IH]; [discriminate|].
  cbn [Storyboard.frameDescriptions].
  destruct (get_property frame "frame_description") as [[[| | |s| |]|]|e1] eqn:Hget;
    try (intros H; inversion H; left; reflexivity).
  - destruct (truthy s); [|intros H; inversion H; left; reflexivity].
    destruct (Storyboard.frameDescriptions items) as [ds|e2]; [discriminate|].
    intros H. inversion H; subst. apply IH. reflexivity.
  - intros H. inversion H; subst. right.
    destruct frame; simpl in Hget; inversion Hget; reflexivity.
Qed.

(** X16.  Every failure of [generateStoryboard] reaches the caller as an
    [Error] with one of two fixed messages, chosen from the error that
    its [try] block threw: that error is printed with [console.error], as
    the last thing done, and is not thrown on.  It is the service's own
    error when the call was rejected, the parser's when the text did not
    parse, and for a storyboard array the error of the length check or of
    the first bad entry. *)
Theorem generateStoryboard_rejection_messages remote JSON_parse trim ai motionPrompt
        frameCount w e w' :
  Storyboard.generateStoryboard remote JSON_parse trim ai motionPrompt frameCount w
  = (Rejected e, w') ->
  exists answer mid inner,
    answer = remote (log w) (Storyboard.storyboard_request motionPrompt frameCount)
    /\ log w'
       = (log w
          ++ EvGenerateContent (Storyboard.storyboard_request motionPrompt frameCount)
               answer
          :: mid
          ++ [EvConsoleError "Storyboard Generation Error:" (LoggedThrown inner)])%list
    /\ remote_calls mid = []
    /\ e = JsError
             (match inner with
              | JsError message =>
                  if includes message "JSON.parse"
                  then "Failed to generate animation storyboard. The planning AI returned an invalid JSON format."
                  else "Failed to generate animation storyboard. The planning AI may be experiencing issues."
              | JsNonError _ =>
                  "Failed to generate animation storyboard. The planning AI may be experiencing issues."
              end)
    /\ (forall e0, answer = RemoteReject e0 -> inner = e0)
    /\ (forall r text message,
           answer = RemoteResponse r ->
           response_text r = Some text ->
           JSON_parse (trim text) = inl message ->
           inner = JsError message)
    /\ (forall r text parsedJson items,
           answer = RemoteResponse r ->
           response_text r = Some text ->
           JSON_parse (trim text) = inr parsedJson ->
           get_property parsedJson "storyboard" = Resolved (Some (JArr items)) ->
           if (Z.of_nat (List.length items) =? frameCount)%Z then
             inner = JsError "Storyboard generation failed: A frame description was missing or not a string."
             \/ inner = JsError TypeError_message
           else
             inner
             = JsError ("Storyboard generation failed: AI returned an invalid format or wrong number of frames. Expected "
                        ++ string_of_Z frameCount ++ ", got "
                        ++ or_none (Some (JNum (Z.of_nat (List.length items)))) ++ ".")).
Proof.
  unfold Storyboard.generateStoryboard, try_catch.
  match goal with |- context [match ?b w with _ => _ end] =>
    destruct (b w) as [[sb|inner] w0] eqn:Hbody end; [discriminate|].
  intros H.
  assert (He : e = JsError
                     (match inner with
                      | JsError message =>
                          if includes message "JSON.parse"
                          then "Failed to generate animation storyboard. The planning AI returned an invalid JSON format."
                          else "Failed to generate animation storyboard. The planning AI may be experiencing issues."
                      | JsNonError _ =>
                          "Failed to generate animation storyboard. The planning AI may be experiencing issues."
                      end)
                /\ w' = record (EvConsoleError "Storyboard Generation Error:"
                                  (LoggedThrown inner)) w0).
  { unfold bind, console_error, throw in H.
    destruct inner as [message|shown]; [destruct (includes message "JSON.parse")|];
      inversion H; split; reflexivity. }
  clear H. destruct He as [-> ->].
  exists (remote (log w) (Storyboard.storyboard_request motionPrompt frameCount)).
  assert (Hmid : exists mid,
             log w0
             = (log w
                ++ EvGenerateContent (Storyboard.storyboard_request motionPrompt frameCount)
                     (remote (log w)
                        (Storyboard.storyboard_request motionPrompt frameCount))
                :: mid)%list
             /\ remote_calls mid = []
             /\ (forall e0,
                    remote (log w) (Storyboard.storyboard_request motionPrompt frameCount)
                    = RemoteReject e0 -> inner = e0)
             /\ (forall r text message,
                    remote (log w) (Storyboard.storyboard_request motionPrompt frameCount)
                    = RemoteResponse r ->
                    response_text r = Some text ->
                    JSON_parse (trim text) = inl message ->
                    inner = JsError message)
             /\ (forall r text parsedJson items,
                    remote (log w) (Storyboard.storyboard_request motionPrompt frameCount)
                    = RemoteResponse r ->
                    response_text r = Some text ->
                    JSON_parse (trim text) = inr parsedJson ->
                    get_property parsedJson "storyboard" = Resolved (Some (JArr items)) ->
                    if (Z.of_nat (List.length items) =? frameCount)%Z then
                      inner = JsError "Storyboard generation failed: A frame description was missing or not a string."
                      \/ inner = JsError TypeError_message
                    else
                      inner
                      = JsError ("Storyboard generation failed: AI returned an invalid format or wrong number of frames. Expected "
                                 ++ string_of_Z frameCount ++ ", got "
                                 ++ or_none (Some (JNum (Z.of_nat (List.length items))))
                                 ++ "."))).
  { apply bind_run in Hbody as [(e0 & Hcall & Heq)|(response & w1 & Hcall & Hbody)];
      unfold generateContent in Hcall;
      destruct (remote (log w) (Storyboard.storyboard_request motionPrompt frameCount))
        as [e1|r] eqn:Hres; try discriminate Hcall.
    { inversion Hcall; subst. inversion Heq; subst. exists [].
      split; [apply log_record|]. split; [reflexivity|].
      split; [intros e2 He2; inversion He2; reflexivity|].
      split; intros; discriminate. }
    inversion Hcall; subst response w1; clear Hcall.
    apply bind_run in Hbody as [(e0 & Htext & Heq)|(responseText & w2 & Htext & Hbody)].
    { destruct (response_text r) as [text|] eqn:Ht; [discriminate Htext|].
      exists []. split; [inversion Htext; apply log_record|]. split; [reflexivity|].
      split; [intros; discriminate|].
      split.
      - intros r' text' message Hr' Ht' _. injection Hr' as <-.
        rewrite Ht in Ht'. discriminate Ht'.
      - intros r' text' parsedJson items Hr' Ht' _ _. injection Hr' as <-.
        rewrite Ht in Ht'. discriminate Ht'. }
    destruct (response_text r) as [text|] eqn:Ht; [|discriminate Htext].
    unfold ret in Htext. inversion Htext; subst responseText w2; clear Htext.
    apply bind_run in Hbody as [(e0 & Hparse & Heq)|(parsedJson & w3 & Hparse & Hbody)].
    { destruct (JSON_parse (trim text)) as [message|v] eqn:Hp; [|discriminate Hparse].
      unfold throw in Hparse. inversion Hparse; subst. inversion Heq; subst.
      exists []. split; [apply log_record|]. split; [reflexivity|].
      split; [intros; discriminate|].
      split.
      - intros r' text' message' Hr' Ht' Hp'. injection Hr' as <-.
        rewrite Ht in Ht'. injection Ht' as <-.
        rewrite Hp in Hp'. inversion Hp'. reflexivity.
      - intros r' text' parsedJson' items' Hr' Ht' Hp'. injection Hr' as <-.
        rewrite Ht in Ht'. injection Ht' as <-.
        rewrite Hp in Hp'. discriminate Hp'. }
    destruct (JSON_parse (trim text)) as [message|v] eqn:Hp; [discriminate Hparse|].
    unfold ret in Hparse. inversion Hparse; subst parsedJson w3; clear Hparse.
    assert (Hitems : forall r' text' parsedJson' items',
               RemoteResponse r = RemoteResponse r' ->
               response_text r' = Some text' ->
               JSON_parse (trim text') = inr parsedJson' ->
               get_property parsedJson' "storyboard" = Resolved (Some (JArr items')) ->
               get_property v "storyboard" = Resolved (Some (JArr items'))).
    { intros r' text' parsedJson' items' Hr' Ht' Hp' Hget'.
      injection Hr' as <-. rewrite Ht in Ht'. injection Ht' as <-.
      rewrite Hp in Hp'. injection Hp' as <-. exact Hget'. }
    assert (Hnot : (forall e0, RemoteResponse r = RemoteReject e0 -> inner = e0)
                   /\ (forall r' text' message,
                          RemoteResponse r = RemoteResponse r' ->
                          response_text r' = Some text' ->
                          JSON_parse (trim text') = inl message ->
                          inner = JsError message)).
    { split; [intros; discriminate|].
      intros r' text' message' Hr' Ht' Hp'. injection Hr' as <-.
      rewrite Ht in Ht'. injection Ht' as <-.
      rewrite Hp in Hp'. discriminate Hp'. }
    destruct Hnot as [Hnot1 Hnot2].
    apply bind_run in Hbody as [(e0 & Hget & Heq)|(storyboardFrames & w4 & Hget & Hbody)].
    { unfold lift in Hget. inversion Hget as [[Hget' Hw]]. inversion Heq; subst.
      exists []. split; [apply log_record|]. split; [reflexivity|].
      split; [exact Hnot1|]. split; [exact Hnot2|].
      intros r' text' parsedJson' items Hr' Ht' Hp' Hg.
      pose proof (Hitems _ _ _ _ Hr' Ht' Hp' Hg) as Hitems'.
      rewrite Hget' in Hitems'. discriminate Hitems'. }
    unfold lift in Hget. inversion Hget as [[Hget' Hw]]; subst w4; clear Hget.
    destruct (negb (isArray storyboardFrames)
              || negb (Z.of_nat (List.length (items_of storyboardFrames)) =? frameCount)%Z)
      eqn:Hguard.
    - apply bind_run in Hbody as [(e0 & Hcons & _)|(u & w5 & Hcons & Hbody)];
        [discriminate Hcons|].
      unfold console_error in Hcons. inversion Hcons; subst u w5; clear Hcons.
      exists [EvConsoleError "AI storyboard response:" (LoggedValue storyboardFrames)].
      assert (Hlog : log w0
                     = (log w
                        ++ EvGenerateContent
                             (Storyboard.storyboard_request motionPrompt frameCount)
                             (RemoteResponse r)
                        :: [EvConsoleError "AI storyboard response:"
                              (LoggedValue storyboardFrames)])%list
                       /\ (forall items,
                              storyboardFrames = Some (JArr items) ->
                              inner
                              = JsError ("Storyboard generation failed: AI returned an invalid format or wrong number of frames. Expected "
                                         ++ string_of_Z frameCount ++ ", got "
                                         ++ or_none (Some (JNum (Z.of_nat (List.length items))))
                                         ++ "."))).
      { apply bind_run in Hbody as [(e0 & Hlen & Heq)|(len & w6 & Hlen & Hbody)].
        - unfold lift in Hlen. inversion Hlen as [[Hlen' Hw]]. inversion Heq; subst.
          split; [rewrite !log_record, <- app_assoc; reflexivity|].
          intros items ->. discriminate Hlen'.
        - unfold lift in Hlen. inversion Hlen as [[Hlen' Hw]]; subst w6.
          unfold throw in Hbody. inversion Hbody; subst.
          split; [rewrite !log_record, <- app_assoc; reflexivity|].
          intros items ->. simpl in Hlen'. inversion Hlen'. reflexivity. }
      destruct Hlog as [Hlog Hinner].
      split; [exact Hlog|]. split; [reflexivity|].
      split; [exact Hnot1|]. split; [exact Hnot2|].
      intros r' text' parsedJson' items Hr' Ht' Hp' Hg.
      pose proof (Hitems _ _ _ _ Hr' Ht' Hp' Hg) as Hitems'.
      rewrite Hget' in Hitems'. injection Hitems' as Hsf.
      rewrite Hsf in Hguard. cbn [isArray items_of negb orb] in Hguard.
      apply negb_true_iff in Hguard. rewrite Hguard. apply Hinner. exact Hsf.
    - unfold lift in Hbody. inversion Hbody as [[Hdesc Hw]]; subst w0.
      exists []. split; [apply log_record|]. split; [reflexivity|].
      split; [exact Hnot1|]. split; [exact Hnot2|].
      intros r' text' parsedJson' items Hr' Ht' Hp' Hg.
      pose proof (Hitems _ _ _ _ Hr' Ht' Hp' Hg) as Hitems'.
      rewrite Hget' in Hitems'. injection Hitems' as Hsf.
      rewrite Hsf in Hguard, Hdesc. cbn [isArray items_of negb orb] in Hguard, Hdesc.
      apply negb_false_iff in Hguard. rewrite Hguard.
      exact (frameDescriptions_rejection _ _ Hdesc). }
  destruct Hmid as (mid & Hlog & Hsilent & H1 & H2 & H3).
  exists mid, inner. split; [reflexivity|].
  split; [rewrite log_record, Hlog, <- app_assoc; reflexivity|].
  split; [exact Hsilent|]. split; [reflexivity|].
  split; [exact H1|]. split; [exact H2|exact H3].
Qed.

Lemma generateStoryboard_rejection_messages_witness :
  exists answer mid inner,
    answer = Scenario.service Scenario.empty_description_text
               (log Scenario.configured)
               (Storyboard.storyboard_request "A ball bouncing" 2)
    /\ log (snd (Storyboard.generateStoryboard
                   (Scenario.service Scenario.empty_description_text)
                   Scenario.parse Scenario.trim Scenario.client
                   "A ball bouncing" 2 Scenario.configured))
       = (log Scenario.configured
          ++ EvGenerateContent (Storyboard.storyboard_request "A ball bouncing" 2) answer
          :: mid
          ++ [EvConsoleError "Storyboard Generation Error:" (LoggedThrown inner)])%list
    /\ remote_calls mid = []
    /\ JsError "Failed to generate animation storyboard. The planning AI may be experiencing issues."
       = JsError
           (match inner with
            | JsError message =>
                if includes message "JSON.parse"
                then "Failed to generate animation storyboard. The planning AI returned an invalid JSON format."
                else "Failed to generate animation storyboard. The planning AI may be experiencing issues."
            | JsNonError _ =>
                "Failed to generate animation storyboard. The planning AI may be experiencing issues."
            end)
    /\ (forall e0, answer = RemoteReject e0 -> inner = e0)
    /\ (forall r text message,
           answer = RemoteResponse r ->
           response_text r = Some text ->
           Scenario.parse (Scenario.trim text) = inl message ->
           inner = JsError message)
    /\ (forall r text parsedJson items,
           answer = RemoteResponse r ->
           response_text r = Some text ->
           Scenario.parse (Scenario.trim text) = inr parsedJson ->
           get_property parsedJson "storyboard" = Resolved (Some (JArr items)) ->
           if (Z.of_nat (List.length items) =? 2)%Z then
             inner = JsError "Storyboard generation failed: A frame description was missing or not a string."
             \/ inner = JsError TypeError_message
           else
             inner
             = JsError ("Storyboard generation failed: AI returned an invalid format or wrong number of frames. Expected "
                        ++ string_of_Z 2 ++ ", got "
                        ++ or_none (Some (JNum (Z.of_nat (List.length items)))) ++ ".")).
Proof.
  apply (generateStoryboard_rejection_messages
           (Scenario.service Scenario.empty_description_text) Scenario.parse
           Scenario.trim Scenario.client "A ball bouncing" 2 Scenario.configured).
  vm_compute. reflexivity.
Defined.

(** ** [generateAnimationFrames]: how it fails *)

(** Both orchestrators: a rejection is the configuration error of
    [getAI], or what the [catch] makes of an error of the [try] block. *)
Lemma run_rejected_body v remote JSON_parse trim motionPrompt frameCount onProgress
      w e w' :
  generateAnimationFrames_of v remote JSON_parse trim motionPrompt frameCount
    onProgress w = (Rejected e, w') ->
  (client_available w = false
   /\ e = JsError "API key is not configured. Please set the API_KEY environment variable."
   /\ w' = w)
  \/ (client_available w = true /\ 1 <= frameCount
      /\ exists e0, e = rethrown e0).
Proof.
  intros H. destruct (client_available w) eqn:Hc.
  - right. split; [reflexivity|].
    destruct (getAI_available w Hc) as (ai & w1 & Hai & _).
    destruct v; simpl in H;
      unfold Storyboard.generateAnimationFrames, Inline.generateAnimationFrames in H;
      rewrite (bind_resolved_first _ _ _ _ _ Hai) in H;
      (destruct (frameCount <? 1)%Z eqn:Hlt; [discriminate H|]);
      apply Z.ltb_ge in Hlt; (split; [exact Hlt|]);
      apply try_catch_rejected in H as (e0 & w0 & _ & H);
      rewrite rethrow_run in H; inversion H; exists e0; reflexivity.
  - left. split; [reflexivity|].
    destruct v; simpl in H;
      unfold Storyboard.generateAnimationFrames, Inline.generateAnimationFrames in H;
      rewrite (bind_rejected_first _ _ _ _ _ (getAI_unavailable w Hc)) in H;
      inversion H; split; reflexivity.
Qed.

(** ** The transcript of the loop *)

(** The transcript of the loop, however it ends: round after round, a
    progress message and a call; a run that stops early stops at the
    first call that gives no frame, or at a reference that does not
    decode. *)
Lemma rounds_step_run remote ai promptOf messageOf onProgress :
  forall n i st w out w',
    rounds n i (step remote ai promptOf messageOf onProgress) st w = (out, w') ->
    exists calls tail,
      log w' = (log w ++ loop_events messageOf onProgress i calls ++ tail)%list
      /\ Forall (fun c => exists ps, fst c = image_request ps) calls
      /\ match out with
         | Resolved st' =>
             tail = [] /\ List.length calls = n
             /\ Forall (fun c => produced (snd c) <> None) calls
         | Rejected e =>
             (List.length calls <= n)%nat
             /\ image_calls tail = [] /\ remote_calls tail = []
             /\ ((exists init refs p res,
                     calls = (init ++ [(image_request (refs ++ [PartText p]), res)])%list
                     /\ texts refs = []
                     /\ Forall (fun c => produced (snd c) <> None) init
                     /\ frame_outcome p res = Rejected e)
                 \/ (Forall (fun c => produced (snd c) <> None) calls
                     /\ e = JsError "Invalid base64 data URL format."))
         end.
Proof.
  induction n as [|n IH]; intros i st w out w' H.
  - simpl in H. unfold ret in H. inversion H; subst.
    exists [], []. simpl. rewrite app_nil_r. repeat split; constructor.
  - simpl in H. unfold bind at 1 in H. rewrite step_run in H. cbv zeta in H.
    set (w0 := {| aiInstance := aiInstance w; env_API_KEY := env_API_KEY w;
                  log := (log w ++ progress_event onProgress (messageOf i))%list |}) in *.
    destruct (reference_parts (previousFrame st)) as [refs|e] eqn:Hrefs.
    + set (req := image_request (refs ++ [PartText (promptOf i)])) in *.
      pose proof (frame_outcome_produced (promptOf i) (remote (log w0) req)) as Hprod.
      destruct (frame_outcome (promptOf i) (remote (log w0) req)) as [f|e] eqn:Hout.
      * apply IH in H as (calls & tail & Hlog & Hreqs & Hend).
        exists ((req, remote (log w0) req) :: calls), tail.
        split.
        { rewrite Hlog, log_record. unfold w0. cbn [log loop_events].
          unfold progress_event. rewrite <- !app_assoc. reflexivity. }
        split; [constructor; [exists (refs ++ [PartText (promptOf i)])%list; reflexivity
                             |exact Hreqs]|].
        assert (Hhead : produced (snd (req, remote (log w0) req)) <> None)
          by (cbn [snd]; rewrite Hprod; discriminate).
        destruct out as [st'|e].
        { destruct Hend as (Htail & Hlen & Hall).
          split; [exact Htail|]. split; [simpl; rewrite Hlen; reflexivity|].
          constructor; assumption. }
        { destruct Hend as (Hlen & Himg & Hrem & Hcase).
          split; [simpl; lia|]. split; [exact Himg|]. split; [exact Hrem|].
          destruct Hcase as [(init & refs' & p & res & Hcalls & Htexts & Hinit & Hfail)
                            |(Hall & He)].
          - left. exists ((req, remote (log w0) req) :: init), refs', p, res.
            rewrite Hcalls. repeat split; try assumption. constructor; assumption.
          - right. split; [constructor; assumption|exact He]. }
      * inversion H; subst out w'; clear H.
        exists [(req, remote (log w0) req)], [].
        split.
        { rewrite log_record. unfold w0. cbn [log loop_events].
          unfold progress_event. rewrite <- !app_assoc. reflexivity. }
        split; [constructor; [exists (refs ++ [PartText (promptOf i)])%list; reflexivity
                             |constructor]|].
        split; [simpl; lia|]. split; [reflexivity|]. split; [reflexivity|].
        left. exists [], refs, (promptOf i), (remote (log w0) req).
        repeat split; [exact (reference_parts_texts _ _ Hrefs)|constructor|exact Hout].
    + inversion H; subst out w'; clear H.
      exists [], (progress_event onProgress (messageOf i)).
      split; [reflexivity|]. split; [constructor|].
      split; [simpl; lia|].
      split; [unfold progress_event; destruct onProgress; reflexivity|].
      split; [unfold progress_event; destruct onProgress; reflexivity|].
      right. split; [constructor|exact (reference_parts_rejection _ _ Hrefs)].
Qed.

Lemma image_calls_loop_events messageOf onProgress calls :
  Forall (fun c => exists ps, fst c = image_request ps) calls ->
  forall i, image_calls (loop_events messageOf onProgress i calls) = map to_call calls.
Proof.
  induction 1 as [|[req res] calls (ps & Hreq) _ IH]; intros i; [reflexivity|].
  cbn [loop_events]. rewrite image_calls_app. cbn [fst] in Hreq. subst req.
  replace (image_calls (if onProgress then [EvProgress (messageOf i)] else []))
    with (@nil ImageCall) by (destruct onProgress; reflexivity).
  cbn [image_calls image_request model]. rewrite String.eqb_refl, IH. reflexivity.
Qed.

Lemma remote_calls_loop_events messageOf onProgress calls :
  forall i, remote_calls (loop_events messageOf onProgress i calls) = map fst calls.
Proof.
  induction calls as [|[req res] calls IH]; intros i; [reflexivity|].
  cbn [loop_events]. rewrite remote_calls_app.
  replace (remote_calls (if onProgress then [EvProgress (messageOf i)] else []))
    with (@nil Request) by (destruct onProgress; reflexivity).
  cbn [remote_calls map fst app]. rewrite IH. reflexivity.
Qed.

Lemma counters_succ i n : counters i (S n) = i :: counters (i + 1) n.
Proof.
  unfold counters. cbn [seq map]. f_equal; [lia|].
  rewrite <- seq_shift, map_map. apply map_ext. intros k. lia.
Qed.

Lemma progress_messages_app a b :
  progress_messages (a ++ b) = (progress_messages a ++ progress_messages b)%list.
Proof.
  induction a as [|ev a IH]; [reflexivity|].
  destruct ev; simpl; rewrite IH; reflexivity.
Qed.

Lemma progress_messages_loop_events messageOf onProgress calls :
  forall i,
    progress_messages (loop_events messageOf onProgress i calls)
    = if onProgress then map messageOf (counters i (List.length calls)) else [].
Proof.
  induction calls as [|[req res] calls IH]; intros i.
  - destruct onProgress; reflexivity.
  - cbn [loop_events List.length]. rewrite progress_messages_app, counters_succ.
    cbn [progress_messages]. rewrite IH. destruct onProgress; reflexivity.
Qed.

Lemma progress_messages_event onProgress message :
  progress_messages (progress_event onProgress message)
  = if onProgress then [message] else [].
Proof. destruct onProgress; reflexivity. Qed.

Lemma remote_calls_event onProgress message :
  remote_calls (progress_event onProgress message) = [].
Proof. destruct onProgress; reflexivity. Qed.

(** ** The transcript of a run *)

(** The transcript of a resolved storyboard-driven run. *)
Lemma storyboard_resolved_events remote JSON_parse trim motionPrompt frameCount
      onProgress w frames w' :
  1 <= frameCount ->
  Storyboard.generateAnimationFrames remote JSON_parse trim motionPrompt frameCount
    onProgress w = (Resolved frames, w') ->
  exists res calls,
    log w'
    = (log w
       ++ progress_event onProgress "Analyzing motion and creating storyboard..."
       ++ EvGenerateContent (Storyboard.storyboard_request motionPrompt frameCount) res
       :: progress_event onProgress "Storyboard created. Starting frame generation..."
       ++ loop_events (fun i => ("Generating frame " ++ string_of_Z (i + 1) ++ " of "
                                 ++ string_of_Z frameCount ++ "...")%string)
            onProgress 0 calls
       ++ progress_event onProgress "Generation complete!")%list
    /\ List.length calls = Z.to_nat frameCount
    /\ Forall (fun c => exists ps, fst c = image_request ps) calls.
Proof.
  intros HN H. unfold Storyboard.generateAnimationFrames in H.
  apply bind_resolved in H as (ai & w1 & Hai & H).
  apply getAI_resolved in Hai as [Hlog1 _].
  destruct (frameCount <? 1)%Z eqn:Hlt; [apply Z.ltb_lt in Hlt; lia|].
  apply try_catch_rethrow_resolved in H; [|apply rethrow_rejects].
  rewrite report_then in H.
  apply bind_resolved in H as (storyboard & w3 & Hsb & H).
  apply generateStoryboard_resolved in Hsb
    as (r & _ & _ & _ & _ & _ & _ & _ & _ & _ & Hlog3).
  cbn [log] in Hlog3.
  rewrite report_then in H.
  apply bind_resolved in H as (st & w5 & Hloop & H).
  unfold for_lt in Hloop.
  change (Storyboard.loop_body remote ai storyboard frameCount onProgress)
    with (step remote ai (Storyboard.currentFramePrompt storyboard frameCount)
               (fun i => "Generating frame " ++ string_of_Z (i + 1) ++ " of "
                         ++ string_of_Z frameCount ++ "...") onProgress) in Hloop.
  apply rounds_step_run in Hloop as (calls & tail & Hlog5 & Hreqs & -> & Hlen & _).
  cbn [log] in Hlog5.
  rewrite report_then in H. unfold ret in H. inversion H; subst frames w'; clear H.
  exists (RemoteResponse r), calls. cbn [log].
  split.
  - rewrite Hlog5, Hlog3, Hlog1, app_nil_r, <- !app_assoc. reflexivity.
  - split; [rewrite Hlen; f_equal; lia|exact Hreqs].
Qed.

(** The transcript of a resolved inline-prompt run. *)
Lemma inline_resolved_events remote motionPrompt frameCount onProgress w frames w' :
  1 <= frameCount ->
  Inline.generateAnimationFrames remote motionPrompt frameCount onProgress w
  = (Resolved frames, w') ->
  exists calls,
    log w'
    = (log w
       ++ loop_events (fun i => ("Generating frame " ++ string_of_Z i ++ " of "
                                 ++ string_of_Z frameCount ++ "...")%string)
            onProgress 1 calls
       ++ progress_event onProgress "Generation complete!")%list
    /\ List.length calls = Z.to_nat frameCount
    /\ Forall (fun c => exists ps, fst c = image_request ps) calls.
Proof.
  intros HN H. unfold Inline.generateAnimationFrames in H.
  apply bind_resolved in H as (ai & w1 & Hai & H).
  apply getAI_resolved in Hai as [Hlog1 _].
  destruct (frameCount <? 1)%Z eqn:Hlt; [apply Z.ltb_lt in Hlt; lia|].
  apply try_catch_rethrow_resolved in H; [|apply rethrow_rejects].
  apply bind_resolved in H as (st & w2 & Hloop & H).
  unfold for_le in Hloop.
  change (Inline.loop_body remote ai motionPrompt frameCount onProgress)
    with (step remote ai (Inline.currentFramePrompt motionPrompt frameCount)
               (fun i => "Generating frame " ++ string_of_Z i ++ " of "
                         ++ string_of_Z frameCount ++ "...") onProgress) in Hloop.
  apply rounds_step_run in Hloop as (calls & tail & Hlog2 & Hreqs & -> & Hlen & _).
  rewrite report_then in H. unfold ret in H. inversion H; subst frames w'; clear H.
  exists calls. cbn [log].
  split.
  - rewrite Hlog2, Hlog1, app_nil_r, <- !app_assoc. reflexivity.
  - split; [rewrite Hlen; f_equal; lia|exact Hreqs].
Qed.

Lemma map_counters_shift (f : Z -> string) i n :
  map (fun k => f (k + 1)) (counters i n) = map f (counters (i + 1) n).
Proof.
  unfold counters. rewrite !map_map. apply map_ext. intros k. f_equal. lia.
Qed.

(** X18.  In a resolved run with a progress callback, the callback is
    told, in this order: in the storyboard-driven file the two planning
    messages; then "Generating frame k of N..." once for every k from 1 to
    N; then "Generation complete!" - and nothing else.  Without a callback
    nothing is reported. *)
Theorem progress_of_resolved_run v remote JSON_parse trim motionPrompt frameCount
        onProgress w frames w' :
  1 <= frameCount ->
  generateAnimationFrames_of v remote JSON_parse trim motionPrompt frameCount
    onProgress w = (Resolved frames, w') ->
  exists evs,
    log w' = (log w ++ evs)%list
    /\ progress_messages evs
       = if onProgress then
           ((match v with
             | StoryboardDriven =>
                 ["Analyzing motion and creating storyboard...";
                  "Storyboard created. Starting frame generation..."]
             | InlinePrompt => []
             end)
            ++ map (fun k => ("Generating frame " ++ string_of_Z k ++ " of "
                              ++ string_of_Z frameCount ++ "...")%string)
                   (counters 1 (Z.to_nat frameCount))
            ++ ["Generation complete!"])%list
         else [].
Proof.
  intros HN H. destruct v; simpl in H.
  - apply storyboard_resolved_events in H as (res & calls & Hlog & Hlen & _);
      [|exact HN].
    eexists. split; [exact Hlog|].
    rewrite progress_messages_app, progress_messages_event.
    cbn [progress_messages]. rewrite !progress_messages_app, !progress_messages_event.
    rewrite progress_messages_loop_events, Hlen.
    rewrite (map_counters_shift
               (fun k => "Generating frame " ++ string_of_Z k ++ " of "
                         ++ string_of_Z frameCount ++ "...") 0).
    destruct onProgress; reflexivity.
  - apply inline_resolved_events in H as (calls & Hlog & Hlen & _); [|exact HN].
    eexists. split; [exact Hlog|].
    rewrite progress_messages_app, progress_messages_event.
    rewrite progress_messages_loop_events, Hlen.
    destruct onProgress; reflexivity.
Qed.

Lemma progress_of_resolved_run_witness :
  exists evs,
    log (snd (generateAnimationFrames_of StoryboardDriven
                (Scenario.service Scenario.two_entries_text) Scenario.parse
                Scenario.trim "A ball bouncing" 2 true Scenario.configured))
    = (log Scenario.configured ++ evs)%list
    /\ progress_messages evs
       = if true then
           (["Analyzing motion and creating storyboard...";
             "Storyboard created. Starting frame generation..."]
            ++ map (fun k => ("Generating frame " ++ string_of_Z k ++ " of "
                              ++ string_of_Z 2 ++ "...")%string)
                   (counters 1 (Z.to_nat 2))
            ++ ["Generation complete!"])%list
         else [].
Proof.
  apply (progress_of_resolved_run StoryboardDriven
           (Scenario.service Scenario.two_entries_text) Scenario.parse
           Scenario.trim "A ball bouncing" 2 true Scenario.configured
           ["data:image/png;base64,iVBORw0KGgo0"; "data:image/png;base64,iVBORw0KGgo1"]).
  - lia.
  - vm_compute. reflexivity.
Defined.

(** X19.  A resolved run made these remote calls and no other: in the
    storyboard-driven file one planner call, first; then, in both files,
    exactly N calls to the image model with image-only output.  The
    inline-prompt file never calls the planner. *)
Theorem remote_calls_of_resolved_run v remote JSON_parse trim motionPrompt frameCount
        onProgress w frames w' :
  1 <= frameCount ->
  generateAnimationFrames_of v remote JSON_parse trim motionPrompt frameCount
    onProgress w = (Resolved frames, w') ->
  exists evs,
    log w' = (log w ++ evs)%list
    /\ List.length (image_calls evs) = Z.to_nat frameCount
    /\ remote_calls evs
       = ((match v with
           | StoryboardDriven => [Storyboard.storyboard_request motionPrompt frameCount]
           | InlinePrompt => []
           end)
          ++ map (fun c => {| model := "gemini-2.5-flash-image";
                              contents := ContentParts (call_parts c);
                              config := ImageOnly |})
                 (image_calls evs))%list.
Proof.
  assert (Hmap : forall calls,
             Forall (fun c => exists ps, fst c = image_request ps) calls ->
             map fst calls
             = map (fun c => {| model := "gemini-2.5-flash-image";
                                contents := ContentParts (call_parts c);
                                config := ImageOnly |}) (map to_call calls)).
  { induction 1 as [|[req res] calls (ps & Hreq) _ IH]; [reflexivity|].
    cbn [map]. rewrite IH. cbn [fst] in *. subst req. reflexivity. }
  intros HN H. destruct v; simpl in H.
  - apply storyboard_resolved_events in H as (res & calls & Hlog & Hlen & Hreqs);
      [|exact HN].
    eexists. split; [exact Hlog|].
    rewrite image_calls_app, image_calls_event. cbn [image_calls model
      Storyboard.storyboard_request]. cbn [String.eqb Ascii.eqb Bool.eqb].
    rewrite !image_calls_app, !image_calls_event.
    rewrite (image_calls_loop_events _ _ _ Hreqs), app_nil_r. cbn [app].
    split; [rewrite length_map; exact Hlen|].
    rewrite remote_calls_app, remote_calls_event. cbn [remote_calls app].
    rewrite !remote_calls_app, !remote_calls_event, remote_calls_loop_events.
    rewrite app_nil_r. cbn [app]. f_equal. apply Hmap. exact Hreqs.
  - apply inline_resolved_events in H as (calls & Hlog & Hlen & Hreqs); [|exact HN].
    eexists. split; [exact Hlog|].
    rewrite image_calls_app, image_calls_event.
    rewrite (image_calls_loop_events _ _ _ Hreqs), app_nil_r.
    split; [rewrite length_map; exact Hlen|].
    rewrite remote_calls_app, remote_calls_event, remote_calls_loop_events.
    rewrite app_nil_r. cbn [app]. apply Hmap. exact Hreqs.
Qed.

Lemma remote_calls_of_resolved_run_witness :
  exists evs,
    log (snd (generateAnimationFrames_of StoryboardDriven
                (Scenario.service Scenario.two_entries_text) Scenario.parse
                Scenario.trim "A ball bouncing" 2 true Scenario.configured))
    = (log Scenario.configured ++ evs)%list
    /\ List.length (image_calls evs) = Z.to_nat 2
    /\ remote_calls evs
       = ([Storyboard.storyboard_request "A ball bouncing" 2]
          ++ map (fun c => {| model := "gemini-2.5-flash-image";
                              contents := ContentParts (call_parts c);
                              config := ImageOnly |})
                 (image_calls evs))%list.
Proof.
  apply (remote_calls_of_resolved_run StoryboardDriven
           (Scenario.service Scenario.two_entries_text) Scenario.parse
           Scenario.trim "A ball bouncing" 2 true Scenario.configured
           ["data:image/png;base64,iVBORw0KGgo0"; "data:image/png;base64,iVBORw0KGgo1"]).
  - lia.
  - vm_compute. reflexivity.
Defined.

(** ** Runs that fail *)

(** The frame-generation calls of a rejected run, in either file: at most
    N; every call but the last gave a frame; and if the last gave none,
    the error of the run is what the [catch] makes of that failure. *)
Lemma run_rejected_calls v remote JSON_parse trim motionPrompt frameCount onProgress
      w e w' :
  generateAnimationFrames_of v remote JSON_parse trim motionPrompt frameCount
    onProgress w = (Rejected e, w') ->
  exists evs calls,
    log w' = (log w ++ evs)%list
    /\ image_calls evs = map to_call calls
    /\ (List.length calls <= Z.to_nat frameCount)%nat
    /\ ((exists init refs p res e0,
            calls = (init ++ [(image_request (refs ++ [PartText p]), res)])%list
            /\ texts refs = []
            /\ Forall (fun c => produced (snd c) <> None) init
            /\ frame_outcome p res = Rejected e0
            /\ e = rethrown e0)
        \/ Forall (fun c => produced (snd c) <> None) calls).
Proof.
  intros H. destruct (client_available w) eqn:Hc.
  2:{ exists [], []. rewrite app_nil_r.
      destruct v; simpl in H;
        unfold Storyboard.generateAnimationFrames, Inline.generateAnimationFrames in H;
        rewrite (bind_rejected_first _ _ _ _ _ (getAI_unavailable w Hc)) in H;
        inversion H; subst; (split; [reflexivity|]); (split; [reflexivity|]);
        (split; [simpl; lia|]); right; constructor. }
  destruct (getAI_available w Hc) as (ai & w1 & Hai & Hlog1 & _).
  destruct v; simpl in H.
  - unfold Storyboard.generateAnimationFrames in H.
    rewrite (bind_resolved_first _ _ _ _ _ Hai) in H.
    destruct (frameCount <? 1)%Z; [discriminate H|].
    apply try_catch_rejected in H as (e0 & w0 & Hbody & H).
    rewrite rethrow_run in H. inversion H; subst e w'; clear H.
    rewrite report_then in Hbody.
    apply bind_rejected in Hbody as [Hsb|(storyboard & w3 & Hsb & Hbody)].
    + apply generateStoryboard_quiet in Hsb as (evs2 & Hlog2 & Himg2).
      cbn [log] in Hlog2.
      eexists _, []. rewrite log_record, Hlog2, Hlog1.
      split; [rewrite <- !app_assoc; reflexivity|].
      split; [rewrite !image_calls_app, image_calls_event, Himg2; reflexivity|].
      split; [simpl; lia|]. right. constructor.
    + apply generateStoryboard_quiet in Hsb as (evs2 & Hlog2 & Himg2).
      cbn [log] in Hlog2.
      rewrite report_then in Hbody.
      apply bind_rejected in Hbody as [Hloop|(st & w5 & _ & Hbody)].
      2:{ rewrite report_then in Hbody. discriminate Hbody. }
      unfold for_lt in Hloop.
      change (Storyboard.loop_body remote ai storyboard frameCount onProgress)
        with (step remote ai (Storyboard.currentFramePrompt storyboard frameCount)
                   (fun i => "Generating frame " ++ string_of_Z (i + 1) ++ " of "
                             ++ string_of_Z frameCount ++ "...") onProgress) in Hloop.
      apply rounds_step_run in Hloop
        as (calls & tail & Hlog5 & Hreqs & Hlen & Himg & _ & Hcase).
      cbn [log] in Hlog5.
      eexists _, calls. rewrite log_record, Hlog5, Hlog2, Hlog1.
      split; [rewrite <- !app_assoc; reflexivity|].
      split.
      { rewrite !image_calls_app, !image_calls_event, Himg2, Himg.
        rewrite (image_calls_loop_events _ _ _ Hreqs). cbn [app image_calls].
        rewrite app_nil_r. reflexivity. }
      split; [lia|].
      destruct Hcase as [(init & refs & p & res & Hcalls & Htexts & Hinit & Hfail)
                        |(Hall & _)].
      * left. exists init, refs, p, res, e0. repeat split; assumption.
      * right. exact Hall.
  - unfold Inline.generateAnimationFrames in H.
    rewrite (bind_resolved_first _ _ _ _ _ Hai) in H.
    destruct (frameCount <? 1)%Z; [discriminate H|].
    apply try_catch_rejected in H as (e0 & w0 & Hbody & H).
    rewrite rethrow_run in H. inversion H; subst e w'; clear H.
    apply bind_rejected in Hbody as [Hloop|(st & w5 & _ & Hbody)].
    2:{ rewrite report_then in Hbody. discriminate Hbody. }
    unfold for_le in Hloop.
    change (Inline.loop_body remote ai motionPrompt frameCount onProgress)
      with (step remote ai (Inline.currentFramePrompt motionPrompt frameCount)
                 (fun i => "Generating frame " ++ string_of_Z i ++ " of "
                           ++ string_of_Z frameCount ++ "...") onProgress) in Hloop.
    apply rounds_step_run in Hloop
      as (calls & tail & Hlog5 & Hreqs & Hlen & Himg & _ & Hcase).
    eexists _, calls. rewrite log_record, Hlog5, Hlog1.
    split; [rewrite <- !app_assoc; reflexivity|].
    split.
    { rewrite !image_calls_app, Himg.
      rewrite (image_calls_loop_events _ _ _ Hreqs). cbn [app image_calls].
      rewrite app_nil_r. reflexivity. }
    split; [lia|].
    destruct Hcase as [(init & refs & p & res & Hcalls & Htexts & Hinit & Hfail)
                      |(Hall & _)].
    + left. exists init, refs, p, res, e0. repeat split; assumption.
    + right. exact Hall.
Qed.

Lemma map_last {A B} (f : A -> B) (l : list A) (init : list B) (c : B) :
  map f l = (init ++ [c])%list ->
  exists l0 c0, l = (l0 ++ [c0])%list /\ map f l0 = init /\ f c0 = c.
Proof.
  destruct l as [|a l] using rev_ind; intros H.
  - destruct init; discriminate H.
  - rewrite map_app in H. apply app_inj_tail in H as [Hinit Hc].
    exists l, a. repeat split; assumption.
Qed.

(** The first round of a loop that starts without a previous frame makes
    its call, however the loop ends. *)
Lemma rounds_first_call remote ai promptOf messageOf onProgress n i st w out w' :
  previousFrame st = None ->
  rounds (S n) i (step remote ai promptOf messageOf onProgress) st w = (out, w') ->
  exists evs, log w' = (log w ++ evs)%list /\ image_calls evs <> [].
Proof.
  intros Hprev H. simpl in H. unfold bind at 1 in H. rewrite step_run in H.
  rewrite Hprev in H. cbn [reference_parts] in H. cbv zeta in H.
  set (w0 := {| aiInstance := aiInstance w; env_API_KEY := env_API_KEY w;
                log := (log w ++ progress_event onProgress (messageOf i))%list |}) in *.
  pose proof (frame_outcome_produced (promptOf i)
                (remote (log w0) (image_request ([] ++ [PartText (promptOf i)]))))
    as Hprod.
  destruct (frame_outcome (promptOf i)
              (remote (log w0) (image_request ([] ++ [PartText (promptOf i)]))))
    as [f|e].
  - apply rounds_step_linked in H as (evs & Hlog & _);
      [|cbn [previousFrame prev_ok]; exact (produced_truthy _ _ Hprod)].
    exists (progress_event onProgress (messageOf i)
            ++ EvGenerateContent (image_request ([] ++ [PartText (promptOf i)]))
                 (remote (log w0) (image_request ([] ++ [PartText (promptOf i)])))
            :: evs)%list.
    split.
    + rewrite Hlog, log_record. unfold w0. cbn [log].
      rewrite <- !app_assoc. reflexivity.
    + rewrite image_calls_round. discriminate.
  - inversion H; subst out w'; clear H.
    exists (progress_event onProgress (messageOf i)
            ++ EvGenerateContent (image_request ([] ++ [PartText (promptOf i)]))
                 (remote (log w0) (image_request ([] ++ [PartText (promptOf i)])))
            :: [])%list.
    split.
    + rewrite log_record. unfold w0. cbn [log]. rewrite <- !app_assoc. reflexivity.
    + rewrite image_calls_round. discriminate.
Qed.

(** The loop of a run that fails, in either file: its calls, and the
    error that stopped it. *)
Lemma loop_rejected remote ai promptOf messageOf onProgress n i st w e0 w0 :
  previousFrame st = None ->
  rounds n i (step remote ai promptOf messageOf onProgress) st w = (Rejected e0, w0) ->
  exists evs calls,
    log w0 = (log w ++ evs)%list
    /\ image_calls evs = map to_call calls
    /\ ((exists init refs p res,
            calls = (init ++ [(image_request (refs ++ [PartText p]), res)])%list
            /\ texts refs = []
            /\ frame_outcome p res = Rejected e0)
        \/ (calls <> []
            /\ Forall (fun c => produced (snd c) <> None) calls
            /\ e0 = JsError "Invalid base64 data URL format.")).
Proof.
  intros Hprev H. destruct n as [|n]; [discriminate H|].
  destruct (rounds_first_call _ _ _ _ _ _ _ _ _ _ _ Hprev H) as (evs1 & Hlog1 & Hne).
  apply rounds_step_run in H as (calls & tail & Hlog & Hreqs & _ & Himg & _ & Hcase).
  rewrite Hlog in Hlog1. apply app_inv_head in Hlog1. subst evs1.
  rewrite image_calls_app, Himg, app_nil_r in Hne.
  rewrite (image_calls_loop_events _ _ _ Hreqs) in Hne.
  exists (loop_events messageOf onProgress i calls ++ tail)%list, calls.
  split; [exact Hlog|].
  split; [rewrite image_calls_app, Himg, app_nil_r;
          exact (image_calls_loop_events _ _ _ Hreqs _)|].
  destruct Hcase as [(init & refs & p & res & Hcalls & Htexts & _ & Hfail)|(Hall & He)].
  - left. exists init, refs, p, res. repeat split; assumption.
  - right. split; [|split; assumption].
    intros ->. apply Hne. reflexivity.
Qed.

(** Both orchestrators: a run that fails with the client at hand printed
    the error of its [try] block last, and threw what the [catch] makes
    of it; that error is the planner's, or the one of the last
    frame-generation call, or the one of a frame that did not decode. *)
Lemma run_rejected_error v remote JSON_parse trim motionPrompt frameCount onProgress
      w e w' :
  generateAnimationFrames_of v remote JSON_parse trim motionPrompt frameCount
    onProgress w = (Rejected e, w') ->
  client_available w = true ->
  exists evs calls e0,
    log w'
    = (log w ++ evs
       ++ [EvConsoleError "Animation Generation Error:" (LoggedThrown e0)])%list
    /\ e = rethrown e0
    /\ image_calls evs = map to_call calls
    /\ ((calls = [] /\ v = StoryboardDriven
         /\ (e0 = JsError "Failed to generate animation storyboard. The planning AI returned an invalid JSON format."
             \/ e0 = JsError "Failed to generate animation storyboard. The planning AI may be experiencing issues."))
        \/ (exists init refs p res,
               calls = (init ++ [(image_request (refs ++ [PartText p]), res)])%list
               /\ texts refs = []
               /\ frame_outcome p res = Rejected e0)
        \/ (calls <> []
            /\ Forall (fun c => produced (snd c) <> None) calls
            /\ e0 = JsError "Invalid base64 data URL format.")).
Proof.
  intros H Hc. destruct (getAI_available w Hc) as (ai & w1 & Hai & Hlog1 & _).
  destruct v; simpl in H.
  - unfold Storyboard.generateAnimationFrames in H.
    rewrite (bind_resolved_first _ _ _ _ _ Hai) in H.
    destruct (frameCount <? 1)%Z; [discriminate H|].
    apply try_catch_rejected in H as (e0 & w0 & Hbody & H).
    rewrite rethrow_run in H. inversion H; subst e w'; clear H.
    rewrite report_then in Hbody.
    apply bind_rejected in Hbody as [Hsb|(storyboard & w3 & Hsb & Hbody)].
    + pose proof (generateStoryboard_rejected _ _ _ _ _ _ _ _ _ Hsb) as He0.
      apply generateStoryboard_quiet in Hsb as (evs2 & Hlog2 & Himg2).
      cbn [log] in Hlog2.
      exists (progress_event onProgress "Analyzing motion and creating storyboard..."
              ++ evs2)%list, [], e0.
      split; [rewrite log_record, Hlog2, Hlog1, <- !app_assoc; reflexivity|].
      split; [reflexivity|].
      split; [rewrite image_calls_app, image_calls_event, Himg2; reflexivity|].
      left. split; [reflexivity|]. split; [reflexivity|exact He0].
    + apply generateStoryboard_quiet in Hsb as (evs2 & Hlog2 & Himg2).
      cbn [log] in Hlog2.
      rewrite report_then in Hbody.
      apply bind_rejected in Hbody as [Hloop|(st & w5 & _ & Hbody)].
      2:{ rewrite report_then in Hbody. discriminate Hbody. }
      unfold for_lt in Hloop.
      change (Storyboard.loop_body remote ai storyboard frameCount onProgress)
        with (step remote ai (Storyboard.currentFramePrompt storyboard frameCount)
                   (fun i => "Generating frame " ++ string_of_Z (i + 1) ++ " of "
                             ++ string_of_Z frameCount ++ "...") onProgress) in Hloop.
      apply loop_rejected in Hloop as (evs4 & calls & Hlog4 & Himg4 & Hcase);
        [|reflexivity].
      cbn [log] in Hlog4.
      exists (progress_event onProgress "Analyzing motion and creating storyboard..."
              ++ evs2
              ++ progress_event onProgress
                   "Storyboard created. Starting frame generation..."
              ++ evs4)%list, calls, e0.
      split; [rewrite log_record, Hlog4, Hlog2, Hlog1, <- !app_assoc; reflexivity|].
      split; [reflexivity|].
      split; [rewrite !image_calls_app, !image_calls_event, Himg2; exact Himg4|].
      right. exact Hcase.
  - unfold Inline.generateAnimationFrames in H.
    rewrite (bind_resolved_first _ _ _ _ _ Hai) in H.
    destruct (frameCount <? 1)%Z; [discriminate H|].
    apply try_catch_rejected in H as (e0 & w0 & Hbody & H).
    rewrite rethrow_run in H. inversion H; subst e w'; clear H.
    apply bind_rejected in Hbody as [Hloop|(st & w5 & _ & Hbody)].
    2:{ rewrite report_then in Hbody. discriminate Hbody. }
    unfold for_le in Hloop.
    change (Inline.loop_body remote ai motionPrompt frameCount onProgress)
      with (step remote ai (Inline.currentFramePrompt motionPrompt frameCount)
                 (fun i => "Generating frame " ++ string_of_Z i ++ " of "
                           ++ string_of_Z frameCount ++ "...") onProgress) in Hloop.
    apply loop_rejected in Hloop as (evs4 & calls & Hlog4 & Himg4 & Hcase);
      [|reflexivity].
    exists evs4, calls, e0.
    split; [rewrite log_record, Hlog4, Hlog1, <- !app_assoc; reflexivity|].
    split; [reflexivity|]. split; [exact Himg4|]. right. exact Hcase.
Qed.

(** X17.  Whatever makes [generateAnimationFrames] fail, in either file,
    the caller gets an [Error] object.  Without a client it is the
    configuration error, and nothing was done.  Otherwise the error that
    stopped the run is printed with [console.error], as the last thing
    done, and the message thrown is ["Failed to generate animation: "]
    followed by the message of that error (or a fixed text for a thrown
    value that is no [Error]).  The error that stopped the run is the
    planner's when no frame-generation call was made; else it is fixed by
    the last call made: the service's rejection, the [TypeError] of an
    answer without parts, the error that quotes the prompt for an answer
    without an image, and the data-URL error when the image given could
    not be made the next reference. *)
Theorem generateAnimationFrames_rejection_forms v remote JSON_parse trim motionPrompt
        frameCount onProgress w e w' :
  generateAnimationFrames_of v remote JSON_parse trim motionPrompt frameCount
    onProgress w = (Rejected e, w') ->
  (client_available w = false
   /\ e = JsError "API key is not configured. Please set the API_KEY environment variable."
   /\ w' = w)
  \/ (client_available w = true
      /\ exists evs inner,
           log w'
           = (log w ++ evs
              ++ [EvConsoleError "Animation Generation Error:" (LoggedThrown inner)])%list
           /\ e = JsError
                    (match inner with
                     | JsError message => "Failed to generate animation: " ++ message
                     | JsNonError _ =>
                         "An unknown error occurred while generating the animation."
                     end)
           /\ (image_calls evs = [] ->
               v = StoryboardDriven
               /\ (inner = JsError "Failed to generate animation storyboard. The planning AI returned an invalid JSON format."
                   \/ inner = JsError "Failed to generate animation storyboard. The planning AI may be experiencing issues."))
           /\ forall init c,
                image_calls evs = (init ++ [c])%list ->
                match call_outcome c with
                | RemoteReject e1 => inner = e1
                | RemoteResponse r =>
                    match candidate_parts r with
                    | None => inner = JsError TypeError_message
                    | Some parts =>
                        match first_inline parts with
                        | None =>
                            exists p,
                              texts (call_parts c) = [p]
                              /\ inner = JsError ("Image generation failed for prompt: "
                                                  ++ dq ++ p ++ dq)
                        | Some _ => inner = JsError "Invalid base64 data URL format."
                        end
                    end
                end).
Proof.
  intros H. destruct (client_available w) eqn:Hc.
  2:{ left. apply run_rejected_body in H as [(_ & He & Hw)|(Hc' & _)].
      - split; [reflexivity|]. split; assumption.
      - rewrite Hc in Hc'. discriminate Hc'. }
  right. split; [reflexivity|].
  apply run_rejected_error in H as (evs & calls & e0 & Hlog & He & Himg & Hcase);
    [|exact Hc].
  exists evs, e0. split; [exact Hlog|].
  split; [rewrite He; destruct e0; reflexivity|].
  split.
  - intros Hnil. rewrite Himg in Hnil. apply map_eq_nil in Hnil. subst calls.
    destruct Hcase as [(_ & Hv & He0)|[(init & refs & p & res & Hcalls & _)|(Hne & _)]].
    + split; assumption.
    + destruct init; discriminate Hcalls.
    + exfalso. apply Hne. reflexivity.
  - intros init c Hlast. rewrite Himg in Hlast.
    apply map_last in Hlast as (l0 & c0 & -> & _ & <-).
    destruct Hcase as [(Hnil & _)|[(init' & refs & p & res & Hcalls & Htexts & Hfail)
                                   |(_ & Hall & He0)]].
    + destruct l0; discriminate Hnil.
    + apply app_inj_tail in Hcalls as [_ ->].
      cbn [to_call fst snd call_outcome call_parts request_parts image_request contents].
      unfold frame_outcome in Hfail. destruct res as [e1|r].
      * inversion Hfail. reflexivity.
      * destruct (candidate_parts r) as [parts|].
        -- destruct (first_inline parts) as [d|]; [discriminate Hfail|].
           exists p. split; [rewrite texts_app, Htexts; reflexivity|].
           inversion Hfail. reflexivity.
        -- inversion Hfail. reflexivity.
    + apply Forall_app in Hall as [_ Hlast]. apply Forall_inv in Hlast as Hprod.
      cbn [to_call call_outcome]. unfold produced in Hprod.
      destruct (snd c0) as [e1|r]; [exfalso; apply Hprod; reflexivity|].
      destruct (candidate_parts r) as [parts|]; [|exfalso; apply Hprod; reflexivity].
      destruct (first_inline parts) as [d|]; [exact He0|exfalso; apply Hprod; reflexivity].
Qed.

Lemma generateAnimationFrames_rejection_forms_witness :
  (client_available Scenario.configured = false
   /\ JsError "Failed to generate animation: quota exceeded"
      = JsError "API key is not configured. Please set the API_KEY environment variable."
   /\ snd (generateAnimationFrames_of InlinePrompt
             (Cases.rejecting_service (JsError "quota exceeded")) Scenario.parse
             Scenario.trim "A ball bouncing" 2 true Scenario.configured)
      = Scenario.configured)
  \/ (client_available Scenario.configured = true
      /\ exists evs inner,
           log (snd (generateAnimationFrames_of InlinePrompt
                       (Cases.rejecting_service (JsError "quota exceeded"))
                       Scenario.parse Scenario.trim "A ball bouncing" 2 true
                       Scenario.configured))
           = (log Scenario.configured ++ evs
              ++ [EvConsoleError "Animation Generation Error:" (LoggedThrown inner)])%list
           /\ JsError "Failed to generate animation: quota exceeded"
              = JsError
                  (match inner with
                   | JsError message => "Failed to generate animation: " ++ message
                   | JsNonError _ =>
                       "An unknown error occurred while generating the animation."
                   end)
           /\ (image_calls evs = [] ->
               InlinePrompt = StoryboardDriven
               /\ (inner = JsError "Failed to generate animation storyboard. The planning AI returned an invalid JSON format."
                   \/ inner = JsError "Failed to generate animation storyboard. The planning AI may be experiencing issues."))
           /\ forall init c,
                image_calls evs = (init ++ [c])%list ->
                match call_outcome c with
                | RemoteReject e1 => inner = e1
                | RemoteResponse r =>
                    match candidate_parts r with
                    | None => inner = JsError TypeError_message
                    | Some parts =>
                        match first_inline parts with
                        | None =>
                            exists p,
                              texts (call_parts c) = [p]
                              /\ inner = JsError ("Image generation failed for prompt: "
                                                  ++ dq ++ p ++ dq)
                        | Some _ => inner = JsError "Invalid base64 data URL format."
                        end
                    end
                end).
Proof.
  apply (generateAnimationFrames_rejection_forms InlinePrompt
           (Cases.rejecting_service (JsError "quota exceeded")) Scenario.parse
           Scenario.trim "A ball bouncing" 2 true Scenario.configured
           (JsError "Failed to generate animation: quota exceeded")
           (snd (generateAnimationFrames_of InlinePrompt
                   (Cases.rejecting_service (JsError "quota exceeded")) Scenario.parse
                   Scenario.trim "A ball bouncing" 2 true Scenario.configured))).
  vm_compute. reflexivity.
Defined.

(** X20.  A run that fails makes no call after the failure, in either
    file: it made at most N frame-generation calls, and a call that gave
    no frame is the last call it made. *)
Theorem failed_call_is_last v remote JSON_parse trim motionPrompt frameCount
        onProgress w e w' :
  generateAnimationFrames_of v remote JSON_parse trim motionPrompt frameCount
    onProgress w = (Rejected e, w') ->
  exists evs,
    log w' = (log w ++ evs)%list
    /\ (List.length (image_calls evs) <= Z.to_nat frameCount)%nat
    /\ forall k c,
         nth_error (image_calls evs) k = Some c ->
         produced (call_outcome c) = None ->
         S k = List.length (image_calls evs).
Proof.
  intros H.
  apply run_rejected_calls in H as (evs & calls & Hlog & Himg & Hlen & Hcase).
  exists evs. split; [exact Hlog|]. rewrite Himg, length_map.
  split; [exact Hlen|].
  intros k c Hk Hnone.
  assert (Hgood : forall cs,
             Forall (fun c => produced (snd c) <> None) cs ->
             nth_error (map to_call cs) k = Some c -> False).
  { intros cs Hall Hnth. rewrite nth_error_map in Hnth.
    destruct (nth_error cs k) as [c0|] eqn:Hc0; [|discriminate Hnth].
    inversion Hnth; subst c. rewrite Forall_forall in Hall.
    apply (Hall c0 (nth_error_In _ _ Hc0)). exact Hnone. }
  destruct Hcase as [(init & refs & p & res & e0 & Hcalls & _ & Hinit & _)|Hall].
  - subst calls. rewrite length_app. simpl.
    destruct (Nat.lt_ge_cases k (List.length init)) as [Hlt|Hge].
    + exfalso. apply (Hgood init Hinit).
      rewrite map_app, nth_error_app1 in Hk by (rewrite length_map; exact Hlt).
      exact Hk.
    + assert (Hsome : nth_error (map to_call (init ++ [(image_request (refs ++ [PartText p]), res)])) k
                      <> None) by (rewrite Hk; discriminate).
      apply nth_error_Some in Hsome. rewrite length_map, length_app in Hsome.
      simpl in Hsome. lia.
  - exfalso. exact (Hgood calls Hall Hk).
Qed.

Lemma failed_call_is_last_witness :
  exists evs,
    log (snd (generateAnimationFrames_of InlinePrompt
                (Cases.flaky_service "" 1) Scenario.parse Scenario.trim
                "A ball bouncing" 3 true Scenario.configured))
    = (log Scenario.configured ++ evs)%list
    /\ (List.length (image_calls evs) <= Z.to_nat 3)%nat
    /\ forall k c,
         nth_error (image_calls evs) k = Some c ->
         produced (call_outcome c) = None ->
         S k = List.length (image_calls evs).
Proof.
  apply (failed_call_is_last InlinePrompt
           (Cases.flaky_service "" 1) Scenario.parse Scenario.trim
           "A ball bouncing" 3 true Scenario.configured
           (JsError ("Failed to generate animation: Image generation failed for prompt: "
                     ++ dq ++ Inline.currentFramePrompt "A ball bouncing" 3 2 ++ dq))).
  vm_compute. reflexivity.
Defined.

(** X21.  When the last frame-generation call of a failed run was
    answered with parts none of which is an image, the error thrown to the
    caller is ["Failed to generate animation: Image generation failed for
    prompt: "] followed by the prompt of that call in quotes. *)
Theorem missing_image_message v remote JSON_parse trim motionPrompt frameCount
        onProgress w e w' evs init c r parts prompt :
  generateAnimationFrames_of v remote JSON_parse trim motionPrompt frameCount
    onProgress w = (Rejected e, w') ->
  log w' = (log w ++ evs)%list ->
  image_calls evs = (init ++ [c])%list ->
  call_outcome c = RemoteResponse r ->
  candidate_parts r = Some parts ->
  Forall (fun p => part_inlineData p = None) parts ->
  texts (call_parts c) = [prompt] ->
  e = JsError ("Failed to generate animation: "
               ++ "Image generation failed for prompt: " ++ dq ++ prompt ++ dq).
Proof.
  intros H Hlog Hcalls Hout Hparts Hnone Htexts.
  apply run_rejected_calls in H as (evs0 & calls & Hlog0 & Himg & _ & Hcase).
  rewrite Hlog in Hlog0. apply app_inv_head in Hlog0. subst evs0.
  rewrite Hcalls in Himg. symmetry in Himg.
  apply map_last in Himg as (calls0 & c0 & Hcalls0 & _ & Hc0).
  assert (Hprod : produced (call_outcome c) = None).
  { unfold produced. rewrite Hout, Hparts, (first_inline_none _ Hnone). reflexivity. }
  destruct Hcase as [(init0 & refs & p & res & e0 & Hcalls1 & Hrefs & _ & Hfail & He)|Hall].
  - rewrite Hcalls0 in Hcalls1. apply app_inj_tail in Hcalls1 as [_ Hlast].
    subst c0 c. cbn [to_call call_parts call_outcome fst snd request_parts
                     image_request contents] in *.
    rewrite texts_app, Hrefs in Htexts. inversion Htexts; subst p.
    unfold frame_outcome in Hfail. rewrite Hout, Hparts, (first_inline_none _ Hnone) in Hfail.
    inversion Hfail; subst e0. exact He.
  - exfalso. rewrite Forall_forall in Hall.
    apply (Hall c0).
    + rewrite Hcalls0. apply in_or_app. right. left. reflexivity.
    + subst c. exact Hprod.
Qed.

Lemma missing_image_message_witness :
  JsError ("Failed to generate animation: Image generation failed for prompt: "
           ++ dq ++ Inline.currentFramePrompt "A ball bouncing" 3 2 ++ dq)
  = JsError ("Failed to generate animation: "
             ++ "Image generation failed for prompt: " ++ dq
             ++ Inline.currentFramePrompt "A ball bouncing" 3 2 ++ dq).
Proof.
  apply (missing_image_message InlinePrompt
           (Cases.flaky_service "" 1) Scenario.parse Scenario.trim
           "A ball bouncing" 3 true Scenario.configured
           (JsError ("Failed to generate animation: Image generation failed for prompt: "
                     ++ dq ++ Inline.currentFramePrompt "A ball bouncing" 3 2 ++ dq))
           (snd (generateAnimationFrames_of InlinePrompt
                   (Cases.flaky_service "" 1) Scenario.parse Scenario.trim
                   "A ball bouncing" 3 true Scenario.configured))
           (log (snd (generateAnimationFrames_of InlinePrompt
                        (Cases.flaky_service "" 1) Scenario.parse Scenario.trim
                        "A ball bouncing" 3 true Scenario.configured)))
           (removelast
              (image_calls
                 (log (snd (generateAnimationFrames_of InlinePrompt
                              (Cases.flaky_service "" 1) Scenario.parse Scenario.trim
                              "A ball bouncing" 3 true Scenario.configured)))))
           {| call_parts :=
                [PartInline {| data := "iVBORw0KGgo0"; mimeType := "image/png" |};
                 PartText (Inline.currentFramePrompt "A ball bouncing" 3 2)];
              call_outcome :=
                RemoteResponse
                  {| response_text := Some "sorry";
                     candidate_parts :=
                       Some [ {| part_inlineData := None; part_text := Some "sorry" |} ] |} |}
           {| response_text := Some "sorry";
              candidate_parts :=
                Some [ {| part_inlineData := None; part_text := Some "sorry" |} ] |}
           [ {| part_inlineData := None; part_text := Some "sorry" |} ]
           (Inline.currentFramePrompt "A ball bouncing" 3 2)).
  - vm_compute. reflexivity.
  - reflexivity.
  - vm_compute. reflexivity.
  - reflexivity.
  - reflexivity.
  - repeat constructor.
  - reflexivity.
Defined.

(** ** The frames of a resolved run *)

Lemma chained_png promptOf :
  forall calls frames i prev,
    match prev with
    | Some p => exists payload, p = "data:image/png;base64," ++ payload
    | None => True
    end ->
    chained promptOf i prev calls frames ->
    Forall (fun f => exists payload, f = "data:image/png;base64," ++ payload) frames
    /\ Forall (fun c => Forall (fun d => mimeType d = "image/png")
                               (references (call_parts c))) calls.
Proof.
  induction calls as [|c calls IH]; intros [|f frames] i prev Hprev H; simpl in H;
    try contradiction.
  - split; constructor.
  - destruct H as (_ & Hrefs & Hprod & H).
    pose proof (produced_png _ _ Hprod) as Hf.
    destruct (IH frames (i + 1) (Some f) Hf H) as [Hframes Hcalls].
    split; [constructor; assumption|].
    constructor; [|exact Hcalls].
    destruct prev as [p|].
    + destruct Hrefs as (part & Hpart & ->). destruct Hprev as (payload & ->).
      constructor; [|constructor]. exact (base64ToPart_of_png_url _ _ Hpart).
    + rewrite Hrefs. constructor.
Qed.

(** X22.  Every frame of a resolved run, in either file, is a string that
    starts with [data:image/png;base64,], and every reference image sent
    along the way is declared [image/png]: the MIME type that the service
    gave for an image is never read. *)
Theorem frames_are_png_urls v remote JSON_parse trim motionPrompt frameCount
        onProgress w frames w' :
  1 <= frameCount ->
  generateAnimationFrames_of v remote JSON_parse trim motionPrompt frameCount
    onProgress w = (Resolved frames, w') ->
  Forall (fun f => exists payload, f = "data:image/png;base64," ++ payload) frames
  /\ exists evs,
       log w' = (log w ++ evs)%list
       /\ Forall (fun c => Forall (fun d => mimeType d = "image/png")
                                  (references (call_parts c)))
                 (image_calls evs).
Proof.
  intros HN H.
  apply run_resolved in H as (evs & promptOf & i0 & Hlog & _ & Hchain & _); [|exact HN].
  destruct (chained_png promptOf (image_calls evs) frames i0 None I Hchain)
    as [Hframes Hcalls].
  split; [exact Hframes|]. exists evs. split; assumption.
Qed.

Lemma frames_are_png_urls_witness :
  Forall (fun f => exists payload, f = "data:image/png;base64," ++ payload)
         ["data:image/png;base64,iVBORw0KGgo0"; "data:image/png;base64,iVBORw0KGgo1"]
  /\ exists evs,
       log (snd (generateAnimationFrames_of StoryboardDriven
                   (Scenario.service Scenario.two_entries_text) Scenario.parse
                   Scenario.trim "A ball bouncing" 2 true Scenario.configured))
       = (log Scenario.configured ++ evs)%list
       /\ Forall (fun c => Forall (fun d => mimeType d = "image/png")
                                  (references (call_parts c)))
                 (image_calls evs).
Proof.
  apply (frames_are_png_urls StoryboardDriven
           (Scenario.service Scenario.two_entries_text) Scenario.parse
           Scenario.trim "A ball bouncing" 2 true Scenario.configured).
  - lia.
  - vm_compute. reflexivity.
Defined.

(** ** The component *)

Lemma nextFrame_iter frames :
  List.length frames <> O ->
  forall n k,
    (k < List.length frames)%nat ->
    Nat.iter n (AppUI.nextFrame frames) k = Nat.modulo (k + n) (List.length frames).
Proof.
  intros Hlen. induction n as [|n IH]; intros k Hk.
  - simpl. rewrite Nat.add_0_r, Nat.mod_small by exact Hk. reflexivity.
  - rewrite Nat.iter_succ, (IH k Hk). unfold AppUI.nextFrame.
    rewrite Nat.Div0.add_mod_idemp_l. f_equal. lia.
Qed.

(** X23.  The playback timer walks the frames in order and wraps: from a
    frame k of the sequence, n ticks lead to frame (k + n) mod N, so the
    index never leaves the sequence, the player always shows one of its
    frames, and N ticks lead back to where it was. *)
Theorem player_cycles_through_frames frames k n :
  (k < List.length frames)%nat ->
  Nat.iter n (AppUI.nextFrame frames) k = Nat.modulo (k + n) (List.length frames)
  /\ (Nat.iter n (AppUI.nextFrame frames) k < List.length frames)%nat
  /\ (exists frameSrc,
         AppUI.rendered frames (Nat.iter n (AppUI.nextFrame frames) k)
         = Some (Some frameSrc))
  /\ Nat.iter (List.length frames) (AppUI.nextFrame frames) k = k.
Proof.
  intros Hk.
  assert (Hlen : List.length frames <> O) by lia.
  rewrite !(nextFrame_iter frames Hlen) by exact Hk.
  pose proof (Nat.mod_upper_bound (k + n) (List.length frames) Hlen) as Hbound.
  split; [reflexivity|]. split; [exact Hbound|]. split.
  - unfold AppUI.rendered. destruct frames as [|f0 frames]; [simpl in Hk; lia|].
    destruct (nth_error (f0 :: frames) (Nat.modulo (k + n) (List.length (f0 :: frames))))
      as [f|] eqn:Hf.
    + exists f. reflexivity.
    + apply nth_error_None in Hf. lia.
  - replace (k + List.length frames)%nat with (k + 1 * List.length frames)%nat by lia.
    rewrite Nat.Div0.mod_add. apply Nat.mod_small. exact Hk.
Qed.

Lemma player_cycles_through_frames_witness :
  Nat.iter 4 (AppUI.nextFrame ["a"; "b"; "c"]) 1%nat
  = Nat.modulo (1 + 4) (List.length ["a"; "b"; "c"])
  /\ (Nat.iter 4 (AppUI.nextFrame ["a"; "b"; "c"]) 1 < List.length ["a"; "b"; "c"])%nat
  /\ (exists frameSrc,
         AppUI.rendered ["a"; "b"; "c"] (Nat.iter 4 (AppUI.nextFrame ["a"; "b"; "c"]) 1%nat)
         = Some (Some frameSrc))
  /\ Nat.iter (List.length ["a"; "b"; "c"]) (AppUI.nextFrame ["a"; "b"; "c"]) 1%nat = 1%nat.
Proof.
  apply (player_cycles_through_frames ["a"; "b"; "c"] 1 4). simpl. lia.
Defined.

(** The messages of the errors of [enhancePrompt]. *)
Lemma enhancePrompt_failure remote trim prompt w e w' :
  enhancePrompt remote trim prompt w = (Rejected e, w') ->
  e = JsError "API key is not configured. Please set the API_KEY environment variable."
  \/ e = JsError "Failed to enhance prompt. The AI may be experiencing issues.".
Proof.
  unfold enhancePrompt. intros H.
  apply bind_rejected in H as [H|(ai & w1 & _ & H)].
  - destruct (client_available w) eqn:Hc.
    + destruct (getAI_available w Hc) as (ai & w1 & Hai & _).
      rewrite Hai in H. discriminate H.
    + rewrite (getAI_unavailable w Hc) in H. inversion H. left. reflexivity.
  - apply try_catch_rejected in H as (e0 & w0 & _ & H).
    unfold bind, console_error, throw in H. inversion H. right. reflexivity.
Qed.

Lemma run_below_one_resolved remote JSON_parse trim motionPrompt frameCount onProgress
      w frames w' :
  frameCount < 1 ->
  Storyboard.generateAnimationFrames remote JSON_parse trim motionPrompt frameCount
    onProgress w = (Resolved frames, w') ->
  frames = [].
Proof.
  intros HN H.
  pose proof (run_below_one StoryboardDriven remote JSON_parse trim motionPrompt
                frameCount onProgress w HN) as Hrun.
  simpl in Hrun. rewrite Hrun in H.
  apply bind_resolved in H as (ai & w1 & _ & H). unfold ret in H.
  inversion H. reflexivity.
Qed.

(** X24.  [handleGenerateAnimation].  A prompt that is blank once trimmed
    sets an error and nothing else: no call, the old frames stay.  Any
    other prompt runs the storyboard-driven service with the form's frame
    count; when the handler is done the form is no longer loading and
    shows no progress, and either it holds the new frames (as many as the
    frame count, if that is positive) and no error, or it holds no frames
    at all (the old ones are gone) and the message of the service's error.
    The service's errors are all [Error] objects, so the handler's text
    for other thrown values is never shown. *)
Theorem handleGenerateAnimation_outcome remote JSON_parse trim st w :
  (truthy (trim (AppUI.prompt st)) = false ->
   AppUI.handleGenerateAnimation remote JSON_parse trim st w
   = (AppUI.setError (Some "Please enter a prompt describing a motion.") st, w))
  /\ (truthy (trim (AppUI.prompt st)) = true ->
      AppUI.isLoading (fst (AppUI.handleGenerateAnimation remote JSON_parse trim st w))
      = false
      /\ AppUI.progress (fst (AppUI.handleGenerateAnimation remote JSON_parse trim st w))
         = None
      /\ AppUI.prompt (fst (AppUI.handleGenerateAnimation remote JSON_parse trim st w))
         = AppUI.prompt st
      /\ ((exists urls,
              Storyboard.generateAnimationFrames remote JSON_parse trim
                (AppUI.prompt st) (AppUI.frameCount st) true w
              = (Resolved urls,
                 snd (AppUI.handleGenerateAnimation remote JSON_parse trim st w))
              /\ AppUI.frames (fst (AppUI.handleGenerateAnimation remote JSON_parse trim st w))
                 = Some urls
              /\ Z.of_nat (List.length urls) = Z.max 0 (AppUI.frameCount st)
              /\ AppUI.error (fst (AppUI.handleGenerateAnimation remote JSON_parse trim st w))
                 = None)
          \/ (AppUI.frames (fst (AppUI.handleGenerateAnimation remote JSON_parse trim st w))
              = None
              /\ exists message,
                   fst (Storyboard.generateAnimationFrames remote JSON_parse trim
                          (AppUI.prompt st) (AppUI.frameCount st) true w)
                   = Rejected (JsError message)
                   /\ AppUI.error
                        (fst (AppUI.handleGenerateAnimation remote JSON_parse trim st w))
                      = Some message
                   /\ message <> "An unknown error occurred."))).
Proof.
  unfold AppUI.handleGenerateAnimation. split; intros Hprompt; rewrite Hprompt;
    cbn [negb]; [reflexivity|].
  cbn [AppUI.prompt AppUI.frameCount AppUI.setProgress AppUI.setFrames AppUI.setError
       AppUI.setIsLoading].
  destruct (Storyboard.generateAnimationFrames remote JSON_parse trim
              (AppUI.prompt st) (AppUI.frameCount st) true w) as [[urls|e] w'] eqn:Hrun.
  - cbn. repeat split. left. exists urls. repeat split.
    destruct (Z.lt_ge_cases (AppUI.frameCount st) 1) as [Hlt|Hge].
    + rewrite (run_below_one_resolved _ _ _ _ _ _ _ _ _ Hlt Hrun). simpl. lia.
    + apply storyboard_run_resolved in Hrun as (_ & _ & _ & _ & Hlen & _); [|lia].
      rewrite Hlen. lia.
  - pose proof (run_rejected_body StoryboardDriven _ _ _ _ _ _ _ _ _ Hrun) as Hforms.
    assert (He : exists message, e = JsError message
                                 /\ message <> "An unknown error occurred.").
    { destruct Hforms as [(_ & -> & _)|(_ & _ & e0 & ->)].
      - eexists. split; [reflexivity|]. discriminate.
      - destruct e0; simpl; eexists; (split; [reflexivity|]); discriminate. }
    destruct He as (message & -> & Hneq).
    cbn. repeat split. right. split; [reflexivity|].
    exists message. repeat split. exact Hneq.
Qed.

Lemma handleGenerateAnimation_outcome_witness :
  AppUI.isLoading
    (fst (AppUI.handleGenerateAnimation
            (Scenario.service Scenario.two_entries_text) Scenario.parse Scenario.trim
            (Cases.initial_form "A ball bouncing" 2) Scenario.configured))
  = false
  /\ AppUI.frames
       (fst (AppUI.handleGenerateAnimation
               (Scenario.service Scenario.two_entries_text) Scenario.parse Scenario.trim
               (Cases.initial_form "A ball bouncing" 2) Scenario.configured))
     = Some ["data:image/png;base64,iVBORw0KGgo0"; "data:image/png;base64,iVBORw0KGgo1"].
Proof.
  destruct (handleGenerateAnimation_outcome
              (Scenario.service Scenario.two_entries_text) Scenario.parse Scenario.trim
              (Cases.initial_form "A ball bouncing" 2) Scenario.configured)
    as [_ Hrun].
  destruct (Hrun eq_refl) as (Hloading & _).
  split; [exact Hloading|]. vm_compute. reflexivity.
Defined.

(** X25.  [handleEnhancePrompt].  A prompt that is blank once trimmed sets
    an error and sends nothing.  Any other prompt is sent to
    [enhancePrompt]; when the handler is done the form is no longer
    enhancing, its frames are untouched, and either the prompt has been
    replaced by the answer and there is no error, or the prompt is as it
    was and the error is one of the two messages of [enhancePrompt]. *)
Theorem handleEnhancePrompt_outcome remote trim st w :
  (truthy (trim (AppUI.prompt st)) = false ->
   AppUI.handleEnhancePrompt remote trim st w
   = (AppUI.setError (Some "Please enter a prompt to enhance.") st, w))
  /\ (truthy (trim (AppUI.prompt st)) = true ->
      AppUI.isEnhancing (fst (AppUI.handleEnhancePrompt remote trim st w)) = false
      /\ AppUI.frames (fst (AppUI.handleEnhancePrompt remote trim st w)) = AppUI.frames st
      /\ ((exists enhanced,
              fst (enhancePrompt remote trim (AppUI.prompt st) w) = Resolved enhanced
              /\ AppUI.prompt (fst (AppUI.handleEnhancePrompt remote trim st w)) = enhanced
              /\ AppUI.error (fst (AppUI.handleEnhancePrompt remote trim st w)) = None)
          \/ (AppUI.prompt (fst (AppUI.handleEnhancePrompt remote trim st w))
              = AppUI.prompt st
              /\ exists message,
                   AppUI.error (fst (AppUI.handleEnhancePrompt remote trim st w))
                   = Some message
                   /\ (message = "API key is not configured. Please set the API_KEY environment variable."
                       \/ message = "Failed to enhance prompt. The AI may be experiencing issues.")))).
Proof.
  unfold AppUI.handleEnhancePrompt. split; intros Hprompt; rewrite Hprompt;
    cbn [negb]; [reflexivity|].
  cbn [AppUI.prompt AppUI.setError AppUI.setIsEnhancing].
  destruct (enhancePrompt remote trim (AppUI.prompt st) w) as [[enhanced|e] w'] eqn:Hrun.
  - cbn. repeat split. left. exists enhanced. repeat split.
  - apply enhancePrompt_failure in Hrun as [->| ->];
      cbn; repeat split; right; (split; [reflexivity|]); eexists;
      (split; [reflexivity|]); [left|right]; reflexivity.
Qed.

Lemma handleEnhancePrompt_outcome_witness :
  AppUI.isEnhancing
    (fst (AppUI.handleEnhancePrompt (Cases.answering_service "A knight at dusk.")
            Scenario.trim (Cases.initial_form "A knight" 4) Scenario.configured))
  = false
  /\ AppUI.prompt
       (fst (AppUI.handleEnhancePrompt (Cases.answering_service "A knight at dusk.")
               Scenario.trim (Cases.initial_form "A knight" 4) Scenario.configured))
     = "A knight at dusk.".
Proof.
  destruct (handleEnhancePrompt_outcome (Cases.answering_service "A knight at dusk.")
              Scenario.trim (Cases.initial_form "A knight" 4) Scenario.configured)
    as [_ Hrun].
  destruct (Hrun eq_refl) as (Henhancing & _).
  split; [exact Henhancing|]. vm_compute. reflexivity.
Defined.

(** X26.  [handleDownload], when there are frames, the worker script is
    ready and every image loads: it creates the encoder, adds the frames,
    registers the [finished] handler and only then starts the rendering,
    leaving no error.  The download of ["animation.gif"] happens once,
    after that, if the encoder reports [finished]; if it never does,
    nothing is downloaded and the busy flag stays set. *)
Theorem export_effects_in_order loads finishes st fs workerUrl :
  App.frames st = Some fs ->
  fs <> [] ->
  App.gifWorkerUrl st = Some workerUrl ->
  truthy workerUrl = true ->
  Forall (fun frameSrc => loads frameSrc = true) fs ->
  exists calls,
    calls = map (fun frameSrc =>
                   {| App.frame_image := {| App.src := frameSrc;
                                            App.crossOrigin := "Anonymous" |};
                      App.delay := 1100 - App.playbackSpeed st |}) fs
    /\ App.effects (App.handleDownload loads finishes st)
       = (App.effects st
          ++ [App.EfNewGIF workerUrl]
          ++ map App.EfAddFrame calls
          ++ [App.EfOnFinished; App.EfRender]
          ++ (if finishes calls then [App.EfDownload "animation.gif"] else []))%list
    /\ App.isCreatingGif (App.handleDownload loads finishes st) = negb (finishes calls)
    /\ App.error (App.handleDownload loads finishes st) = None.
Proof.
  intros Hfs Hne Hurl Hready Hloads.
  unfold App.handleDownload, App.no_frames, App.worker_ready.
  rewrite Hfs, Hurl, Hready.
  replace (Nat.eqb (List.length fs) 0) with false
    by (destruct fs; [contradiction|reflexivity]).
  cbn [negb orb]. rewrite (loadedImages_all loads fs Hloads).
  eexists. split; [reflexivity|].
  rewrite map_map.
  cbn [App.playbackSpeed App.perform App.setError App.setIsCreatingGif App.effects].
  destruct (finishes _); cbn; rewrite <- !app_assoc; repeat split.
Qed.

Lemma export_effects_in_order_witness :
  exists calls,
    calls = map (fun frameSrc =>
                   {| App.frame_image := {| App.src := frameSrc;
                                            App.crossOrigin := "Anonymous" |};
                      App.delay := 1100 - App.playbackSpeed (Scenario.ready ["a"; "b"]) |})
                ["a"; "b"]
    /\ App.effects (App.handleDownload Scenario.loads Scenario.finishes
                      (Scenario.ready ["a"; "b"]))
       = (App.effects (Scenario.ready ["a"; "b"])
          ++ [App.EfNewGIF "blob:worker"]
          ++ map App.EfAddFrame calls
          ++ [App.EfOnFinished; App.EfRender]
          ++ (if Scenario.finishes calls then [App.EfDownload "animation.gif"] else []))%list
    /\ App.isCreatingGif (App.handleDownload Scenario.loads Scenario.finishes
                            (Scenario.ready ["a"; "b"]))
       = negb (Scenario.finishes calls)
    /\ App.error (App.handleDownload Scenario.loads Scenario.finishes
                    (Scenario.ready ["a"; "b"])) = None.
Proof.
  apply (export_effects_in_order Scenario.loads Scenario.finishes
           (Scenario.ready ["a"; "b"]) ["a"; "b"] "blob:worker").
  - reflexivity.
  - discriminate.
  - reflexivity.
  - reflexivity.
  - repeat constructor.
Defined.
